(** * Temporary file sharing: registry, object store, chunked upload, eviction

    A shallow embedding of the share registry ([app/models/file_share.py]),
    the eviction sweep ([app/utils/cleanup.py]), the direct save
    ([app/utils/file_utils.py]) and the chunked upload handler
    ([app/web/admin.py]), followed by the properties of the specification
    that were checked against them.

    Conventions.
    - Instants are [Z], microseconds since the epoch (the resolution of
      Python's [datetime]).
    - File contents are [list Byte.byte]; file and directory names are
      [string].
    - Code that touches the database or the file system lives in the
      state-and-exception monad [M], whose state survives a raised
      exception: Python does not roll back what was written before the
      [raise].
    - A name that comes with a request and is joined to a directory as
      it is (the [fileId] of a chunk, the token of a delete) is followed
      only when it is one path component ([Path.plain]); for any other
      name the model stops with [NotModelled], and the properties
      assume a plain name. *)

From Stdlib Require Import ZArith String Ascii List Bool Lia.
From Stdlib Require Import DecimalString DecimalN.
From stdpp Require Import base gmap strings list fin_maps.

Open Scope Z_scope.

Abbreviation bytes := (list Byte.byte).

(** ** Exceptions and the monad of effectful code *)

Inductive Exn : Type :=
| SqliteError          (* sqlite3.Error: the backing store is unavailable *)
| IntegrityError       (* UNIQUE / NOT NULL constraint violated *)
| FileNotFoundError    (* open() of a missing file *)
| IsADirectoryError    (* open(.., 'wb') of a directory *)
| FileExistsError      (* os.makedirs over a regular file *)
| NotADirectoryError   (* shutil.rmtree of a regular file *)
| OSError              (* any other I/O failure *)
| LoopBound            (* the model's bound on a [while] loop ran out;
                          shown unreachable below *)
| NotModelled.         (* no exception of the program: the model stops
                          here, at a name from a request that is not a
                          plain entry name ([Path.plain]), so that the
                          joined path leaves its directory; raised
                          outside every [try] or passed on by the
                          handler, and excluded in the properties *)

Inductive Res (A : Type) : Type :=
| Ok (a : A)
| Raise (e : Exn).
Arguments Ok {A} a.
Arguments Raise {A} e.

Definition M (S A : Type) : Type := S -> Res A * S.

Definition ret {S A} (a : A) : M S A := fun s => (Ok a, s).

Definition raise {S A} (e : Exn) : M S A := fun s => (Raise e, s).

Definition bind {S A B} (m : M S A) (k : A -> M S B) : M S B :=
  fun s => match m s with
           | (Ok a, s') => k a s'
           | (Raise e, s') => (Raise e, s')
           end.

(** [try: m  except Exception: h] *)
Definition try_except {S A} (m : M S A) (h : Exn -> M S A) : M S A :=
  fun s => match m s with
           | (Ok a, s') => (Ok a, s')
           | (Raise e, s') => h e s'
           end.

Definition gets {S A} (f : S -> A) : M S A := fun s => (Ok (f s), s).

Definition modify {S} (f : S -> S) : M S unit := fun s => (Ok tt, f s).

Notation "'let*' x ':=' m 'in' k" := (bind m (fun x => k))
  (at level 10, x name, m at level 100, k at level 200).

(** A static method or function running inside a method body: it sees
    only the second component of the state. *)
Definition lift_snd {O S A} (m : M S A) : M (O * S) A :=
  fun os => match m (snd os) with (r, s') => (r, (fst os, s')) end.

(** ** Python and library primitives *)

Module Py.

(** Truth value of a [str]: empty is false. *)
Definition truthy (s : string) : bool :=
  match s with EmptyString => false | String _ _ => true end.

(** [x in l] for a list of strings. *)
Definition contains (x : string) (l : list string) : bool :=
  existsb (String.eqb x) l.

(** [str(n)] for a non-negative [int]. *)
Definition str_N (n : N) : string := NilEmpty.string_of_uint (N.to_uint n).

(** [str(z)] for any [int]. *)
Definition str (z : Z) : string :=
  if z <? 0 then String "-" (str_N (Z.to_N (- z))) else str_N (Z.to_N z).

Fixpoint zeros (k : nat) : string :=
  match k with O => EmptyString | S k' => String "0" (zeros k') end.

(** [s.zfill(width)] for a string without sign. *)
Definition zfill (width : nat) (s : string) : string :=
  zeros (width - String.length s) +:+ s.

(** [f"{z:05d}"]: sign-aware zero padding to five columns. *)
Definition fmt05d (z : Z) : string :=
  if z <? 0 then String "-" (zfill 4 (str_N (Z.to_N (- z))))
  else zfill 5 (str_N (Z.to_N z)).

(** [int(s)] for a string of decimal digits, leading zeros included. *)
Definition parse_N (s : string) : option N :=
  option_map N.of_uint (NilEmpty.uint_of_string s).

(** Index of the last ["."] of [s], counted from the left. *)
Fixpoint rfind_dot (s : list ascii) (i : nat) (last : option nat) : option nat :=
  match s with
  | [] => last
  | c :: s' => rfind_dot s' (S i) (if Ascii.eqb c "." then Some i else last)
  end.

(** [os.path.splitext] on a name without directory separator: the
    extension starts at the last dot, unless only dots precede it. *)
Definition splitext (p : string) : string * string :=
  let l := list_ascii_of_string p in
  match rfind_dot l 0 None with
  | None => (p, EmptyString)
  | Some d =>
      if forallb (fun c => Ascii.eqb c ".") (firstn d l)
      then (p, EmptyString)
      else (string_of_list_ascii (firstn d l),
            string_of_list_ascii (skipn d l))
  end.

(** [range(1, n + 1)] *)
Definition range1 (n : Z) : list Z :=
  map (fun k => Z.of_nat k + 1) (seq 0 (Z.to_nat n)).

End Py.

(** [werkzeug.utils.secure_filename] on a POSIX host. The Unicode step
    [unicodedata.normalize("NFKD", s).encode("ascii", "ignore")] is a
    parameter: names are byte strings here. *)
Class Normalizer := nfkd_ascii : string -> string.

Module Werkzeug.

Definition is_space (c : ascii) : bool :=
  let n := nat_of_ascii c in
  ((9 <=? n) && (n <=? 13) || (28 <=? n) && (n <=? 32))%nat.

(** The complement of the class [[^A-Za-z0-9_.-]]. *)
Definition is_safe_char (c : ascii) : bool :=
  let n := nat_of_ascii c in
  ((65 <=? n) && (n <=? 90) || (97 <=? n) && (n <=? 122)
   || (48 <=? n) && (n <=? 57)
   || (n =? 95) || (n =? 46) || (n =? 45))%nat.

Definition is_dot_or_underscore (c : ascii) : bool :=
  (Ascii.eqb c "." || Ascii.eqb c "_")%bool.

(** [s.replace("/", " ")] *)
Definition replace_sep (s : list ascii) : list ascii :=
  map (fun c => if Ascii.eqb c "/" then " "%char else c) s.

(** ["_".join(s.split())]: runs of white space become one ["_"],
    leading and trailing white space disappears. [pending] says that
    a word was already emitted and white space was seen since. *)
Fixpoint join_words (s : list ascii) (started pending : bool) : list ascii :=
  match s with
  | [] => []
  | c :: s' =>
      if is_space c then join_words s' started started
      else if pending then "_"%char :: c :: join_words s' true false
      else c :: join_words s' true false
  end.

Fixpoint lstrip (s : list ascii) : list ascii :=
  match s with
  | [] => []
  | c :: s' => if is_dot_or_underscore c then lstrip s' else s
  end.

(** [s.strip("._")] *)
Definition strip (s : list ascii) : list ascii :=
  rev (lstrip (rev (lstrip s))).

Definition secure_filename `{Normalizer} (filename : string) : string :=
  let s := list_ascii_of_string (nfkd_ascii filename) in
  let s := replace_sep s in
  let s := join_words s false false in
  let s := List.filter is_safe_char s in
  string_of_list_ascii (strip s).

End Werkzeug.

(** On a name made of ASCII characters only the Unicode step changes
    nothing; used for concrete file names. *)
Definition ascii_names : Normalizer := fun s => s.

(** ** The [file_shares] table *)

Module Db.

(** One row of [file_shares]; the JSON text columns [files] and
    [downloaded_files] are kept decoded. *)
Record Row : Type := mkRow {
  token : string;
  recipient_email : string;
  files : list string;
  created_at : Z;
  expires_at : Z;
  downloaded : bool;
  download_count : Z;
  downloaded_files : list string;
  last_download_attempt : option Z;
  last_download_completed : option Z;
  bytes_transferred : option Z
}.

(** SQLite's [datetime(x)]: the instant in whole seconds. *)
Definition datetime (t : Z) : Z := t / 1000000.

Definition has_token (tok : string) (r : Row) : bool :=
  String.eqb (token r) tok.

(** [SELECT ... WHERE token = ?] followed by [fetchone()] *)
Definition select_by_token (tok : string) (tbl : list Row) : option Row :=
  find (has_token tok) tbl.

(** [UPDATE file_shares SET ... WHERE token = ?] *)
Definition update_where_token (tok : string) (f : Row -> Row)
    (tbl : list Row) : list Row :=
  map (fun r => if has_token tok r then f r else r) tbl.

(** [DELETE FROM file_shares WHERE token = ?] *)
Definition delete_where_token (tok : string) (tbl : list Row) : list Row :=
  List.filter (fun r => negb (has_token tok r)) tbl.

(** [ORDER BY created_at DESC], as a stable insertion sort. *)
Fixpoint insert_desc (r : Row) (l : list Row) : list Row :=
  match l with
  | [] => [r]
  | r' :: l' =>
      if created_at r' <=? created_at r then r :: l
      else r' :: insert_desc r l'
  end.

Definition order_by_created_desc (l : list Row) : list Row :=
  foldr insert_desc [] l.

(** The [WHERE] clause of [get_all_active] and [get_active_count]:
    [datetime(expires_at) > datetime('now')]. *)
Definition where_active (now : Z) (r : Row) : bool :=
  datetime (expires_at r) >? datetime now.

(** The [WHERE] clause of [get_expired_shares]. *)
Definition where_expired (now : Z) (r : Row) : bool :=
  (datetime (expires_at r) <=? datetime now) && Py.truthy (recipient_email r).

(** The [WHERE] clause of [FileShare.cleanup_expired_files]. *)
Definition where_past (now : Z) (r : Row) : bool :=
  datetime (expires_at r) <? datetime now.

End Db.

(** ** Names joined to a directory *)

Module Path.

(** [os.path.join(dir, name)] names an entry of [dir] itself when
    [name] is one path component: not empty, not ["."], not [".."],
    without ["/"] and without NUL. Any other name makes the joined
    path another directory, a path below or outside [dir], or an
    error of the system call. *)
Definition plain (name : string) : bool :=
  Py.truthy name && negb (String.eqb name ".") && negb (String.eqb name "..")
  && forallb (fun c => negb (Ascii.eqb c "/") && negb (Ascii.eqb c Ascii.zero))
             (list_ascii_of_string name).

End Path.

(** ** The world: database, upload folder, staging area *)

(** An entry of the upload folder. Token directories are flat. *)
Inductive Entry : Type :=
| RegularFile (content : bytes)
| Directory (listing : gmap string bytes).

Record World : Type := mkWorld {
  (** every use of the database raises [sqlite3.Error] *)
  db_down : bool;
  file_shares : list Db.Row;
  (** [UPLOAD_FOLDER]: name -> entry. A folder that does not exist and an
      empty one are the same map; the code treats them alike. *)
  uploads : gmap string Entry;
  (** [<tmp>/chunked_uploads]: file id -> name -> content *)
  staging : gmap string (gmap string bytes);
  (** entries of the upload folder whose removal raises [OSError] *)
  rm_fails : gset string
}.

Definition set_file_shares (tbl : list Db.Row) (w : World) : World :=
  mkWorld (db_down w) tbl (uploads w) (staging w) (rm_fails w).

Definition set_uploads (u : gmap string Entry) (w : World) : World :=
  mkWorld (db_down w) (file_shares w) u (staging w) (rm_fails w).

Definition set_staging (st : gmap string (gmap string bytes)) (w : World) : World :=
  mkWorld (db_down w) (file_shares w) (uploads w) st (rm_fails w).

Module Database.

(** [get_db_connection()]; a store that is down raises here. *)
Definition get_db_connection : M World unit :=
  fun w => if db_down w then (Raise SqliteError, w) else (Ok tt, w).

(** [conn.execute(SELECT ...)] *)
Definition query {A} (q : list Db.Row -> A) : M World A :=
  gets (fun w => q (file_shares w)).

(** [conn.execute(UPDATE/DELETE ...); conn.commit()] *)
Definition execute (f : list Db.Row -> list Db.Row) : M World unit :=
  modify (fun w => set_file_shares (f (file_shares w)) w).

End Database.

(** The functions of [Os] take the name of an entry of the upload
    folder: a plain name, as [generate_token] and [os.listdir] give it.
    [delete_by_token], whose token comes with the request, tests the
    name before it uses them. *)
Module Os.

(** [os.path.exists(os.path.join(uploads_dir, name))] for the entry
    [name] of the upload folder. *)
Definition exists_in_uploads (name : string) : M World bool :=
  gets (fun w => bool_decide (is_Some (uploads w !! name))).

(** [shutil.rmtree(os.path.join(uploads_dir, name))] *)
Definition rmtree (name : string) : M World unit :=
  fun w =>
    match uploads w !! name with
    | None => (Raise FileNotFoundError, w)
    | Some (RegularFile _) => (Raise NotADirectoryError, w)
    | Some (Directory _) =>
        if bool_decide (name ∈ rm_fails w) then (Raise OSError, w)
        else (Ok tt, set_uploads (delete name (uploads w)) w)
    end.

(** [os.makedirs(os.path.join(uploads_dir, name), exist_ok=True)] *)
Definition makedirs (name : string) : M World unit :=
  fun w =>
    match uploads w !! name with
    | None => (Ok tt, set_uploads (<[name := Directory ∅]> (uploads w)) w)
    | Some (RegularFile _) => (Raise FileExistsError, w)
    | Some (Directory _) => (Ok tt, w)
    end.

End Os.

(** ** [app/models/file_share.py] *)

Module FileShare.

Import Database.

(** A [FileShare] object. [expires_at] may be [None] in Python. *)
Record t : Type := mk {
  token : string;
  recipient_email : string;
  files : list string;
  created_at : Z;
  expires_at : option Z;
  downloaded : bool;
  download_count : Z;
  downloaded_files : list string
}.

Definition set_files (l : list string) (s : t) : t :=
  mk (token s) (recipient_email s) l (created_at s) (expires_at s)
     (downloaded s) (download_count s) (downloaded_files s).

Definition set_expires_at (e : option Z) (s : t) : t :=
  mk (token s) (recipient_email s) (files s) (created_at s) e
     (downloaded s) (download_count s) (downloaded_files s).

Definition set_recipient_email (r : string) (s : t) : t :=
  mk (token s) r (files s) (created_at s) (expires_at s)
     (downloaded s) (download_count s) (downloaded_files s).

Definition set_downloaded (b : bool) (s : t) : t :=
  mk (token s) (recipient_email s) (files s) (created_at s) (expires_at s)
     b (download_count s) (downloaded_files s).

Definition set_download_count (n : Z) (s : t) : t :=
  mk (token s) (recipient_email s) (files s) (created_at s) (expires_at s)
     (downloaded s) n (downloaded_files s).

Definition set_downloaded_files (l : list string) (s : t) : t :=
  mk (token s) (recipient_email s) (files s) (created_at s) (expires_at s)
     (downloaded s) (download_count s) l.

(** The object built from a fetched row (the eight selected columns). *)
Definition of_row (r : Db.Row) : t :=
  mk (Db.token r) (Db.recipient_email r) (Db.files r) (Db.created_at r)
     (Some (Db.expires_at r)) (Db.downloaded r) (Db.download_count r)
     (Db.downloaded_files r).

(** [get_expired_shares] selects seven columns: [downloaded_files]
    takes the constructor's default. *)
Definition of_row7 (r : Db.Row) : t :=
  mk (Db.token r) (Db.recipient_email r) (Db.files r) (Db.created_at r)
     (Some (Db.expires_at r)) (Db.downloaded r) (Db.download_count r) [].

(** [timedelta(hours=h)] *)
Definition timedelta_hours (h : Z) : Z := h * 3600000000.

(** [create]; [tok] is the value drawn by [generate_token()] and
    [now] the reading of [datetime.utcnow()]. *)
Definition create (tok : string) (now : Z) (recipient : string)
    (fs : list string) (retention_hours : Z) : M World t :=
  let created := now in
  let expires := created + timedelta_hours retention_hours in
  let* _ := get_db_connection in
  let* taken := query (Db.select_by_token tok) in
  let* _ := match taken with
            | Some _ => raise IntegrityError
            | None =>
                execute (fun tbl =>
                  tbl ++ [Db.mkRow tok recipient fs created expires
                                   false 0 [] None None None])
            end in
  let* row := query (Db.select_by_token tok) in
  match row with
  | Some r => ret (mk tok recipient fs (Db.created_at r)
                      (Some (Db.expires_at r)) false 0 [])
  | None => ret (mk tok recipient fs created (Some expires) false 0 [])
  end.

(** [save]: writes five columns of the object over its row. A [None]
    in [expires_at] violates the column's [NOT NULL]. *)
Definition save : M (t * World) unit :=
  let* self := gets fst in
  lift_snd
    (let* _ := get_db_connection in
     let* row := query (Db.select_by_token (token self)) in
     match row, expires_at self with
     | None, _ => ret tt
     | Some _, None => raise IntegrityError
     | Some _, Some e =>
         execute (Db.update_where_token (token self) (fun r =>
           Db.mkRow (Db.token r) (Db.recipient_email r) (files self)
                    (Db.created_at r) e (downloaded self)
                    (download_count self) (downloaded_files self)
                    (Db.last_download_attempt r)
                    (Db.last_download_completed r)
                    (Db.bytes_transferred r)))
     end).

(** [get]: every exception is caught and answered with [None]. *)
Definition get (tok : string) : M World (option t) :=
  try_except
    (let* _ := get_db_connection in
     let* row := query (Db.select_by_token tok) in
     ret (option_map of_row row))
    (fun _ => ret None).

Definition get_all_active (now : Z) : M World (list t) :=
  try_except
    (let* _ := get_db_connection in
     let* rows := query (fun tbl =>
       Db.order_by_created_desc (List.filter (Db.where_active now) tbl)) in
     ret (map of_row rows))
    (fun _ => ret []).

Definition get_total_count : M World Z :=
  try_except
    (let* _ := get_db_connection in
     query (fun tbl => Z.of_nat (length tbl)))
    (fun _ => ret 0).

Definition get_active_count (now : Z) : M World Z :=
  try_except
    (let* _ := get_db_connection in
     query (fun tbl =>
       Z.of_nat (length (List.filter (Db.where_active now) tbl))))
    (fun _ => ret 0).

Definition get_expired_shares (now : Z) : M World (list t) :=
  try_except
    (let* _ := get_db_connection in
     let* rows := query (List.filter (Db.where_expired now)) in
     ret (map of_row7 rows))
    (fun _ => ret []).

(** [delete_by_token]; the delete route hands it the token of the URL
    as it is. Joined to the upload folder a plain token names the
    share's directory; any other token (["."], [".."], a path) names
    another directory, and the model stops. *)
Definition delete_by_token (tok : string) : M World bool :=
  if negb (Path.plain tok) then raise NotModelled
  else
    try_except
      (let* present := Os.exists_in_uploads tok in
       let* _ := if present then Os.rmtree tok else ret tt in
       let* _ := get_db_connection in
       let* _ := execute (Db.delete_where_token tok) in
       ret true)
      (fun _ => ret false).

Definition is_expired (now : Z) (self : t) : bool :=
  if negb (Py.truthy (recipient_email self)) then false
  else match expires_at self with
       | None => false
       | Some e => now >? e
       end.

Definition mark_downloaded (now : Z) : M (t * World) unit :=
  let* _ := modify (fun sw : t * World =>
              (set_download_count (download_count (fst sw) + 1)
                 (set_downloaded true (fst sw)), snd sw)) in
  let* self := gets fst in
  try_except
    (lift_snd
       (let* _ := get_db_connection in
        execute (Db.update_where_token (token self) (fun r =>
          Db.mkRow (Db.token r) (Db.recipient_email r) (Db.files r)
                   (Db.created_at r) (Db.expires_at r) (downloaded self)
                   (download_count self) (downloaded_files self)
                   (Db.last_download_attempt r) (Some now)
                   (Db.bytes_transferred r)))))
    (fun _ => ret tt).

Definition mark_file_downloaded (filename : string) : M (t * World) unit :=
  let* self := gets fst in
  if negb (Py.contains filename (downloaded_files self)) then
    let* _ := modify (fun sw : t * World =>
                (set_downloaded_files (downloaded_files (fst sw) ++ [filename])
                   (fst sw), snd sw)) in
    save
  else ret tt.

Definition mark_download_attempt (now : Z) : M (t * World) unit :=
  let* self := gets fst in
  try_except
    (lift_snd
       (let* _ := get_db_connection in
        execute (Db.update_where_token (token self) (fun r =>
          Db.mkRow (Db.token r) (Db.recipient_email r) (Db.files r)
                   (Db.created_at r) (Db.expires_at r) (Db.downloaded r)
                   (Db.download_count r) (Db.downloaded_files r)
                   (Some now) (Db.last_download_completed r)
                   (Db.bytes_transferred r)))))
    (fun _ => ret tt).

Definition set_recipient (now : Z) (recipient : string)
    (retention_hours : Z) : M (t * World) unit :=
  let e := now + timedelta_hours retention_hours in
  let* _ := modify (fun sw : t * World =>
              (set_expires_at (Some e) (set_recipient_email recipient (fst sw)),
               snd sw)) in
  let* self := gets fst in
  lift_snd
    (let* _ := get_db_connection in
     execute (Db.update_where_token (token self) (fun r =>
       Db.mkRow (Db.token r) recipient (Db.files r)
                (Db.created_at r) e (Db.downloaded r)
                (Db.download_count r) (Db.downloaded_files r)
                (Db.last_download_attempt r)
                (Db.last_download_completed r)
                (Db.bytes_transferred r)))).

(** The static [FileShare.cleanup_expired_files]: one connection, one
    [try] per token around both deletions. *)
Definition cleanup_one (tok : string) : M World Z :=
  try_except
    (let* present := Os.exists_in_uploads tok in
     let* _ := if present then Os.rmtree tok else ret tt in
     let* _ := execute (Db.delete_where_token tok) in
     ret 1)
    (fun _ => ret 0).

Fixpoint cleanup_loop (toks : list string) (deleted_count : Z) : M World Z :=
  match toks with
  | [] => ret deleted_count
  | tok :: rest =>
      let* k := cleanup_one tok in
      cleanup_loop rest (deleted_count + k)
  end.

Definition cleanup_expired_files (auto_cleanup : bool) (now : Z) : M World Z :=
  if negb auto_cleanup then ret 0
  else
    try_except
      (let* _ := get_db_connection in
       let* expired_tokens := query (fun tbl =>
         map Db.token (List.filter (Db.where_past now) tbl)) in
       cleanup_loop expired_tokens 0)
      (fun _ => ret 0).

End FileShare.

(** Running a method on an object from static code: the mutated object
    is handed back with the result. *)
Definition call {O S A} (self : O) (m : M (O * S) A) : M S (A * O) :=
  fun s => match m (self, s) with
           | (Ok a, (self', s')) => (Ok (a, self'), s')
           | (Raise e, (_, s')) => (Raise e, s')
           end.

(** ** [app/utils/cleanup.py] *)

Module Cleanup.

(** [os.path.isdir(os.path.join(uploads_dir, name))] *)
Definition isdir (name : string) : M World bool :=
  gets (fun w => match uploads w !! name with
                 | Some (Directory _) => true
                 | _ => false
                 end).

(** [os.listdir(uploads_dir)] *)
Definition listdir : M World (list string) :=
  gets (fun w => (map_to_list (uploads w)).*1).

(** The [try: shutil.rmtree(..); cleaned_count += 1  except: log] of
    both branches. *)
Definition try_rmtree (token_dir : string) : M World Z :=
  try_except
    (let* _ := Os.rmtree token_dir in ret 1)
    (fun _ => ret 0).

(** The body of the [for] loop; the result is the increment of
    [cleaned_count]. The clock is read once per sweep. *)
Definition sweep_one (now : Z) (token_dir : string) : M World Z :=
  let* d := isdir token_dir in
  if negb d then ret 0
  else
    let* file_share := FileShare.get token_dir in
    match file_share with
    | Some fs =>
        if FileShare.is_expired now fs then try_rmtree token_dir
        else ret 0
    | None => try_rmtree token_dir
    end.

Fixpoint sweep (now : Z) (names : list string) (cleaned_count : Z) : M World Z :=
  match names with
  | [] => ret cleaned_count
  | token_dir :: rest =>
      let* k := sweep_one now token_dir in
      sweep now rest (cleaned_count + k)
  end.

Definition cleanup_expired_files (now : Z) : M World Z :=
  let* names := listdir in
  sweep now names 0.

Definition manual_cleanup (now : Z) : M World Z := cleanup_expired_files now.

End Cleanup.

(** ** [app/utils/file_utils.py] *)

Module FileUtils.

(** The listing of a token directory ([∅] when it is not one). *)
Definition listing (tok : string) (w : World) : gmap string bytes :=
  match uploads w !! tok with
  | Some (Directory d) => d
  | _ => ∅
  end.

(** [file.save(os.path.join(token_dir, filename))] *)
Definition write_file (tok filename : string) (content : bytes) : M World unit :=
  fun w =>
    match uploads w !! tok with
    | Some (Directory d) =>
        (Ok tt, set_uploads (<[tok := Directory (<[filename := content]> d)]>
                               (uploads w)) w)
    | _ => (Raise FileNotFoundError, w)
    end.

(** The [while os.path.exists(file_path)] loop: the first name not in
    [dir] among [filename], [name_1ext], [name_2ext], ... *)
Fixpoint free_name (fuel : nat) (dir : gmap string bytes)
    (original_filename filename : string) (counter : Z) : option string :=
  match fuel with
  | O => None
  | S fuel' =>
      if bool_decide (is_Some (dir !! filename)) then
        let (name, ext) := Py.splitext original_filename in
        free_name fuel' dir original_filename
          (name +:+ "_" +:+ Py.str counter +:+ ext) (counter + 1)
      else Some filename
  end.

Definition save_one `{Normalizer} (tok : string) (file : string * bytes)
    : M World (list string) :=
  if Py.truthy (fst file) then
    let filename := Werkzeug.secure_filename (fst file) in
    if Py.truthy filename then
      let* dir := gets (listing tok) in
      match free_name (size dir + 2) dir filename filename 1 with
      | None => raise LoopBound
      | Some stored =>
          let* _ := write_file tok stored (snd file) in
          ret [stored]
      end
    else ret []
  else ret [].

Fixpoint save_loop `{Normalizer} (tok : string) (files : list (string * bytes))
    (saved_files : list string) : M World (list string) :=
  match files with
  | [] => ret saved_files
  | file :: rest =>
      let* s := save_one tok file in
      save_loop tok rest (saved_files ++ s)
  end.

Definition save_uploaded_files `{Normalizer} (files : list (string * bytes))
    (tok : string) : M World (list string) :=
  let* _ := Os.makedirs tok in
  save_loop tok files [].

End FileUtils.

(** ** [app/web/admin.py]: the chunked upload handler *)

Module Admin.

(** The form of a [POST /admin/upload-chunk], after [int()]. *)
Record ChunkRequest : Type := mkReq {
  chunkNumber : Z;
  totalChunks : Z;
  fileId : string;
  filename : string;
  share_token : string;
  chunk : bytes
}.

Inductive Response : Type :=
| Json200 (done : bool) (token : option string)
| Json400                 (* 'Invalid share token' *)
| Json500 (e : Exn).      (* the handler's [except Exception] *)

(** [f"chunk_{i:05d}"] *)
Definition chunk_name (i : Z) : string := "chunk_" +:+ Py.fmt05d i.

(** What the session directory of [file_id] holds ([∅] when it does
    not exist). *)
Definition temp_dir (file_id : string) (w : World) : gmap string bytes :=
  default ∅ (staging w !! file_id).

(** The handler joins [file_id] to [<tmp>/chunked_uploads] as the
    request gives it, without sanitising it. For a plain [file_id] the
    joined path is the session directory, an entry of the staging area
    that only this handler writes to: the model follows the code. For
    any other [file_id] (empty, absolute, with ["/"] or [".."]) the
    path is some other place of the file system, the upload folder
    included, and the model stops with [NotModelled]. *)
Definition in_session {A} (file_id : string) (m : M World A) : M World A :=
  if Path.plain file_id then m else raise NotModelled.

(** [os.makedirs(temp_dir, exist_ok=True)] *)
Definition make_temp_dir (file_id : string) : M World unit :=
  in_session file_id
    (modify (fun w =>
       set_staging (<[file_id := temp_dir file_id w]> (staging w)) w)).

(** Writing (and overwriting) a file of the session directory:
    [chunk.save(chunk_path)] and the writes to the output file. *)
Definition put_temp (file_id name : string) (content : bytes) : M World unit :=
  in_session file_id
    (modify (fun w =>
       set_staging (<[file_id := <[name := content]> (temp_dir file_id w)]>
                      (staging w)) w)).

(** [open(path, 'rb').read()] *)
Definition read_temp (file_id name : string) : M World bytes :=
  in_session file_id
    (fun w => match temp_dir file_id w !! name with
              | Some b => (Ok b, w)
              | None => (Raise FileNotFoundError, w)
              end).

(** [open(assembled_path, 'wb')]: the file is created or truncated;
    an empty name denotes the session directory itself. *)
Definition open_wb (file_id name : string) : M World unit :=
  in_session file_id
    (if Py.truthy name then put_temp file_id name []
     else raise IsADirectoryError).

(** [outfile.write(infile.read())] for the parts in turn; writes reach
    the file at once. *)
Fixpoint assemble (file_id name : string) (parts : list Z) : M World unit :=
  match parts with
  | [] => ret tt
  | i :: rest =>
      let* part := read_temp file_id (chunk_name i) in
      let* sofar := read_temp file_id name in
      let* _ := put_temp file_id name (sofar ++ part) in
      assemble file_id name rest
  end.

(** [shutil.move(assembled_path, final_path)]: the target name is
    taken as it is, an existing file is replaced. *)
Definition move_to_uploads (file_id name tok : string) : M World unit :=
  let* blob := read_temp file_id name in
  let* _ := in_session file_id (modify (fun w =>
    set_staging (<[file_id := delete name (temp_dir file_id w)]> (staging w)) w)) in
  FileUtils.write_file tok name blob.

(** [os.remove] of every chunk, each failure ignored. *)
Definition remove_chunks (file_id : string) (parts : list Z) : M World unit :=
  in_session file_id
    (modify (fun w =>
       set_staging
         (<[file_id := foldr (fun i d => delete (chunk_name i) d)
                             (temp_dir file_id w) parts]> (staging w)) w)).

(** [os.rmdir(temp_dir)], failure ignored: only an empty directory
    goes away. *)
Definition rmdir_temp (file_id : string) : M World unit :=
  in_session file_id
    (modify (fun w =>
       if bool_decide (temp_dir file_id w = ∅)
       then set_staging (delete file_id (staging w)) w
       else w)).

Definition upload_chunk `{Normalizer} (req : ChunkRequest) : M World Response :=
  try_except
    (let chunk_number := chunkNumber req in
     let total_chunks := totalChunks req in
     let file_id := fileId req in
     let filename := Werkzeug.secure_filename (filename req) in
     let* share := FileShare.get (share_token req) in
     match share with
     | None => ret Json400
     | Some share =>
         let* _ := make_temp_dir file_id in
         let* _ := put_temp file_id (chunk_name chunk_number) (chunk req) in
         if chunk_number =? total_chunks then
           let* _ := open_wb file_id filename in
           let* _ := assemble file_id filename (Py.range1 total_chunks) in
           let* _ := Os.makedirs (FileShare.token share) in
           let* _ := move_to_uploads file_id filename (FileShare.token share) in
           let share :=
             if Py.contains filename (FileShare.files share) then share
             else FileShare.set_files (FileShare.files share ++ [filename]) share in
           let* _ := call share FileShare.save in
           let* _ := remove_chunks file_id (Py.range1 total_chunks) in
           let* _ := rmdir_temp file_id in
           ret (Json200 true (Some (FileShare.token share)))
         else ret (Json200 false None)
     end)
    (fun e => match e with
              | NotModelled => raise NotModelled
              | _ => ret (Json500 e)
              end).

(** A run of requests, oldest first, with the answers in order. The
    handler answers every exception itself; only [NotModelled] leaves
    it, and there the model does not follow the run any further. *)
Fixpoint serve `{Normalizer} (reqs : list ChunkRequest) (w : World)
    : list Response * World :=
  match reqs with
  | [] => ([], w)
  | req :: rest =>
      match upload_chunk req w with
      | (Ok r, w') => let (rs, w'') := serve rest w' in (r :: rs, w'')
      | (Raise _, w') => ([], w')
      end
  end.

End Admin.

(** ** Relations between states *)

Module Rel.


(** The [counter]-th name tried by the collision loop. *)
Definition candidate (original_filename : string) (counter : Z) : string :=
  let (name, ext) := Py.splitext original_filename in
  name +:+ "_" +:+ Py.str counter +:+ ext.


(** [m] relates every state to the state it leaves behind, whether it
    returns or raises. *)
Definition preserves {A} (R : World -> World -> Prop) (m : M World A) : Prop :=
  forall w, R w (snd (m w)).




(** What the sweep decides for an entry of the upload folder when the
    store answers: a directory goes when it has no record or an expired
    one. *)
Definition evicted (now : Z) (w : World) (name : string) : bool :=
  match uploads w !! name with
  | Some (Directory _) =>
      match Db.select_by_token name (file_shares w) with
      | None => true
      | Some r => FileShare.is_expired now (FileShare.of_row r)
      end
  | _ => false
  end.

End Rel.


(** ** Sample states *)

Module Sample.

Definition b (s : string) : bytes := String.list_byte_of_string s.

Definition second : Z := 1000000.
Definition hour : Z := 3600 * second.

(** A fresh row as [create] inserts it. *)
Definition row (tok recipient : string) (fs : list string)
    (created expires : Z) : Db.Row :=
  Db.mkRow tok recipient fs created expires false 0 [] None None None.

(** The store of the sweep scenario, observed at [25 * hour]:
    [tokA] expired with a recipient, [tokB] still running, [tokC]
    pending with no file and no recipient, [tokD] a directory without
    a record. *)
Definition sweep_world : World :=
  mkWorld false
    [ row "tokA" "ann@example.org" ["report.pdf"] 0 (24 * hour);
      row "tokB" "bob@example.org" ["notes.txt"] hour (48 * hour);
      row "tokC" "" [] (2 * hour) (26 * hour) ]
    (<["tokA" := Directory {["report.pdf" := b "A"]}]>
      (<["tokB" := Directory {["notes.txt" := b "B"]}]>
        (<["tokC" := Directory ∅]>
          (<["tokD" := Directory {["stray.bin" := b "D"]}]> ∅))))
    ∅ ∅.

(** The same store while the database is down. *)
Definition sweep_world_down : World :=
  mkWorld true (file_shares sweep_world) (uploads sweep_world) ∅ ∅.

(** One share without recipient whose stored [expires_at] is over. *)
Definition pinned_world : World :=
  mkWorld false [ row "tokP" "" ["x.bin"] 0 hour ]
    (<["tokP" := Directory {["x.bin" := b "P"]}]> ∅) ∅ ∅.

(** The same registry behind a database that is down, and an empty
    registry that is up. *)
Definition down_world : World :=
  mkWorld true [ row "tokP" "" ["x.bin"] 0 hour ] ∅ ∅ ∅.

Definition empty_world : World := mkWorld false [] ∅ ∅ ∅.

(** A share that already holds ["a.txt"]. *)
Definition taken_world : World :=
  mkWorld false [ row "tokT" "" ["a.txt"] 0 hour ]
    (<["tokT" := Directory {["a.txt" := b "old"]}]> ∅) ∅ ∅.

Definition share_P : FileShare.t :=
  FileShare.mk "tokP" "" ["x.bin"] 0 (Some hour) false 0 [].

Definition req (i n : Z) (name : string) (tok : string) (c : string)
    : Admin.ChunkRequest :=
  Admin.mkReq i n "sess1" name tok (b c).

End Sample.

(** ** [app/models/file_share.py]: listing by page, sizes *)

Module Paging.

(** The local class [Pagination] of [get_all_paginated]. *)
Record Pagination : Type := mkPagination {
  page : Z;
  per_page : Z;
  total : Z;
  items : list FileShare.t;
  pages : Z;
  has_prev : bool;
  has_next : bool;
  prev_num : option Z;
  next_num : option Z
}.

(** What a call ends in: a page, or the exception that leaves the
    function. *)
Inductive Outcome : Type :=
| Page (p : Pagination)
| ZeroDivisionError
| UnboundLocalError.

(** [Pagination.__init__]; [None] is the [ZeroDivisionError] of
    [(total + per_page - 1) // per_page]. *)
Definition init (pg per tot : Z) (its : list FileShare.t) : option Pagination :=
  if per =? 0 then None
  else
    let pgs := (tot + per - 1) / per in
    let hp := pg >? 1 in
    let hn := pg <? pgs in
    Some (mkPagination pg per tot its pgs hp hn
            (if hp then Some (pg - 1) else None)
            (if hn then Some (pg + 1) else None)).

(** SQLite's [LIMIT ? OFFSET ?]: a negative limit is no limit, a
    negative offset is none. *)
Definition limit_offset {A} (limit offset : Z) (l : list A) : list A :=
  let rest := drop (Z.to_nat offset) l in
  if limit <? 0 then rest else take (Z.to_nat limit) rest.

(** [get_all_paginated]. The class is defined at the end of the [try]
    block: a handler that runs after a failed connection finds the
    name unbound, and a handler that runs after a failed [__init__]
    calls [__init__] with the same [per_page]. *)
Definition get_all_paginated (pg per : Z) (w : World) : Outcome :=
  if db_down w then UnboundLocalError
  else
    let offset := (pg - 1) * per in
    let shares :=
      map FileShare.of_row
        (limit_offset per offset (Db.order_by_created_desc (file_shares w))) in
    let tot := Z.of_nat (length (file_shares w)) in
    match init pg per tot shares with
    | Some p => Page p
    | None =>
        match init 1 per 0 [] with
        | Some p => Page p
        | None => ZeroDivisionError
        end
    end.

(** [get_total_size_bytes]: the sizes of the listed files that exist. *)
Definition get_total_size_bytes (self : FileShare.t) (w : World) : Z :=
  match uploads w !! FileShare.token self with
  | Some (Directory d) =>
      fold_left
        (fun total_size filename =>
           match d !! filename with
           | Some c => total_size + Z.of_nat (length c)
           | None => total_size
           end)
        (FileShare.files self) 0
  | _ => 0
  end.

End Paging.

(** ** [app/utils/cleanup.py]: orphaned directories *)

Module Orphans.

(** The body of the loop of [cleanup_orphaned_directories]. *)
Definition orphan_one (item : string) : M World Z :=
  let* d := Cleanup.isdir item in
  if negb d then ret 0
  else
    let* share := FileShare.get item in
    match share with
    | Some _ => ret 0
    | None => Cleanup.try_rmtree item
    end.

Fixpoint orphan_loop (items : list string) (cleaned_count : Z) : M World Z :=
  match items with
  | [] => ret cleaned_count
  | item :: rest =>
      let* k := orphan_one item in
      orphan_loop rest (cleaned_count + k)
  end.

Definition cleanup_orphaned_directories : M World Z :=
  try_except
    (let* items := Cleanup.listdir in
     orphan_loop items 0)
    (fun _ => ret 0).

End Orphans.

(** ** [app/web/admin.py]: reactivation *)

Module Routes.

Inductive Flash : Type :=
| NotFound          (* 'File share not found!' *)
| AlreadyActive     (* 'File share is already active!' *)
| Reactivated.      (* 'File share reactivated successfully!' *)

(** [reactivate_share]; [retention_hours] is the value of the setting
    [file_retention_hours]. *)
Definition reactivate_share (now retention_hours : Z) (tok : string)
    : M World Flash :=
  let* share := FileShare.get tok in
  match share with
  | None => ret NotFound
  | Some share =>
      if negb (FileShare.is_expired now share) then ret AlreadyActive
      else
        let share :=
          FileShare.set_expires_at
            (Some (now + FileShare.timedelta_hours retention_hours)) share in
        let* _ := call share FileShare.save in
        ret Reactivated
  end.

End Routes.

(** ** [app/web/main.py]: downloads *)

Module Main.

Inductive Response : Type :=
| SendFile (content : bytes) (download_name : string)
| Abort (status : Z).

(** [download_file]; the clock is read once per request. [Abort]
    stands for [abort(status)], which leaves the handler with the HTTP
    exception of that status; an exception raised by [save] leaves the
    handler as it is. *)
Definition download_file (now : Z) (tok filename : string) : M World Response :=
  let* share := FileShare.get tok in
  match share with
  | None => ret (Abort 404)
  | Some share =>
      if FileShare.is_expired now share then ret (Abort 410)
      else if negb (Py.contains filename (FileShare.files share))
      then ret (Abort 404)
      else
        let* found := gets (fun w =>
          FileUtils.listing (FileShare.token share) w !! filename) in
        match found with
        | None => ret (Abort 404)
        | Some content =>
            let* _ := call share
              (let* _ := FileShare.mark_file_downloaded filename in
               FileShare.mark_downloaded now) in
            ret (SendFile content filename)
        end
  end.

End Main.

(** ** [app/web/api.py]: the external upload *)

Module Api.

Inductive Response : Type :=
| Json200 (token : string)
| Json400       (* 'No files uploaded' *)
| Json401.      (* 'Invalid API key' *)

(** [f.save(os.path.join(share_dir, filename))]: no test for an empty
    name, no test for a taken one. *)
Definition save_as (tok filename : string) (content : bytes) : M World unit :=
  if Py.truthy filename then FileUtils.write_file tok filename content
  else raise IsADirectoryError.

Fixpoint save_loop `{Normalizer} (tok : string) (files : list (string * bytes))
    (saved : list string) : M World (list string) :=
  match files with
  | [] => ret saved
  | f :: rest =>
      if negb (Py.truthy (fst f)) then save_loop tok rest saved
      else
        let filename := Werkzeug.secure_filename (fst f) in
        let* _ := save_as tok filename (snd f) in
        save_loop tok rest (saved ++ [filename])
  end.

(** [upload_api] up to its answer. [header_key] is the [X-API-Key]
    header, [configured_key] the value of [Settings.get_api_key()],
    [retention] the setting [file_retention_hours], [tok] the token
    drawn by [generate_token()]. The notification mail that follows
    [share.save()] has no part in the state modelled here. *)
Definition upload_api `{Normalizer} (header_key configured_key : string)
    (files : list (string * bytes)) (retention : Z) (tok : string) (now : Z)
    : M World Response :=
  if negb (Py.truthy header_key) || negb (String.eqb header_key configured_key)
  then ret Json401
  else if negb (existsb (fun f => Py.truthy (fst f)) files)
  then ret Json400
  else
    let* share := FileShare.create tok now "" [] retention in
    let* _ := Os.makedirs (FileShare.token share) in
    let* saved := save_loop (FileShare.token share) files [] in
    let share := FileShare.set_files saved share in
    let* _ := call share FileShare.save in
    ret (Json200 (FileShare.token share)).

End Api.

(** ** Invariants of the registry *)

Module Inv.

(** No two rows carry the same token (the column is [UNIQUE]). *)
Definition unique_tokens (w : World) : Prop :=
  NoDup (map Db.token (file_shares w)).

(** The rows are the same in number, order and token. *)
Definition same_tokens (w w' : World) : Prop :=
  map Db.token (file_shares w') = map Db.token (file_shares w).

(** The registry is the same. *)
Definition same_registry (w w' : World) : Prop :=
  file_shares w' = file_shares w.

End Inv.

(** Uniqueness of the tokens survives the step from [w] to [w']. *)
Definition keeps_unique_tokens (w w' : World) : Prop :=
  Inv.unique_tokens w -> Inv.unique_tokens w'.

(** The items of a page, empty when the call raises. *)
Definition page_items (pg per : Z) (w : World) : list FileShare.t :=
  match Paging.get_all_paginated pg per w with
  | Paging.Page p => Paging.items p
  | _ => []
  end.

(** ** What the sweeps decide *)

Module Decide.

(** The removal of the entry [name] raises. *)
Definition stuck (w : World) (name : string) : bool :=
  bool_decide (name ∈ rm_fails w).

(** The sweep of [cleanup_expired_files] removes [name]: a directory
    without record or with an expired record, whose removal succeeds. *)
Definition swept (now : Z) (w : World) (name : string) : bool :=
  Rel.evicted now w name && negb (stuck w name).

(** [cleanup_orphaned_directories] removes [name]: a directory without
    record, whose removal succeeds. *)
Definition orphan_removed (w : World) (name : string) : bool :=
  match uploads w !! name with
  | Some (Directory _) =>
      match Db.select_by_token name (file_shares w) with
      | None => negb (stuck w name)
      | Some _ => false
      end
  | _ => false
  end.

End Decide.

(** A submitted file that [save_uploaded_files] stores: it has a name
    and the name does not sanitise to nothing. *)
Definition accepted `{Normalizer} (file : string * bytes) : bool :=
  Py.truthy (fst file) && Py.truthy (Werkzeug.secure_filename (fst file)).

(** [n] is the name the collision loop settles on for [wanted] in
    [dir]: [wanted] when it is free, else the free candidate with the
    least number. *)
Definition first_free (dir : gmap string bytes) (wanted n : string) : Prop :=
  dir !! n = None
  /\ ((n = wanted)
      \/ exists k, 1 <= k /\ n = Rel.candidate wanted k
           /\ is_Some (dir !! wanted)
           /\ forall j, 1 <= j < k -> is_Some (dir !! Rel.candidate wanted j)).

(** The static [FileShare.cleanup_expired_files] cannot remove the
    entry [tok]: [shutil.rmtree] raises on it. *)
Definition blocked (w : World) (tok : string) : bool :=
  match uploads w !! tok with
  | None => false
  | Some (RegularFile _) => true
  | Some (Directory _) => bool_decide (tok ∈ rm_fails w)
  end.

(** The rows the static cleanup deletes: stored expiry in the past, and
    nothing in the way of removing the directory. *)
Definition purged (now : Z) (w : World) (r : Db.Row) : bool :=
  Db.where_past now r && negb (blocked w (Db.token r)).

(** What the loop of [upload_api] leaves in a directory that held [d]:
    every named file written under its sanitised name, in order. *)
Definition stored `{Normalizer} (files : list (string * bytes))
    (d : gmap string bytes) : gmap string bytes :=
  fold_left
    (fun d f =>
       if Py.truthy (fst f)
       then <[Werkzeug.secure_filename (fst f) := snd f]> d else d)
    files d.

(** The names the loop of [upload_api] appends to [saved]. *)
Definition saved_names `{Normalizer} (files : list (string * bytes))
    : list string :=
  map (fun f => Werkzeug.secure_filename (fst f))
      (List.filter (fun f => Py.truthy (fst f)) files).

(** Every named file keeps a name after sanitising. *)
Definition all_storable `{Normalizer} (files : list (string * bytes)) : Prop :=
  forall f, In f files -> Py.truthy (fst f) = true ->
    Py.truthy (Werkzeug.secure_filename (fst f)) = true.

(** ** [app/models/settings.py] and [app/utils/security.py] *)

Module Json.

(** The values the application stores as settings. *)
Inductive Value : Type :=
| Null
| Bool (b : bool)
| Int (n : Z)
| Str (s : string).

(** Truth value of a Python object of one of these types. *)
Definition truthy (v : Value) : bool :=
  match v with
  | Null => false
  | Bool b => b
  | Int n => negb (n =? 0)
  | Str s => Py.truthy s
  end.

End Json.

(** [json.dumps] and [json.loads]; [None] is a [JSONDecodeError]. *)
Class Codec : Type := {
  dumps : Json.Value -> string;
  loads : string -> option Json.Value
}.

(** One run of [Fernet.encrypt] with its base64 wrapping, and the body
    of the [try] of [decrypt_data], which answers [""] on every
    exception. *)
Class Cipher : Type := {
  encrypt : string -> string;
  decrypt : string -> string
}.

(** The table [settings]: [key] is its primary key, the columns kept
    are [value] and [description]. *)
Record SettingsDb : Type := mkSettingsDb {
  settings_down : bool;
  settings : gmap string (string * option string)
}.

Module Security.

(** [encrypt_data] *)
Definition encrypt_data `{Cipher} (data : string) : string :=
  if negb (Py.truthy data) then EmptyString else encrypt data.

(** [decrypt_data]; an argument that is no [str] fails in the [try]. *)
Definition decrypt_data `{Cipher} (encrypted_data : Json.Value) : string :=
  if negb (Json.truthy encrypted_data) then EmptyString
  else match encrypted_data with
       | Json.Str s => decrypt s
       | _ => EmptyString
       end.

Definition code (c : ascii) : N := N_of_ascii c.

(** [c.isupper()], [c.islower()], [c.isdigit()] on an ASCII character. *)
Definition isupper (c : ascii) : bool := ((65 <=? code c) && (code c <=? 90))%N.
Definition islower (c : ascii) : bool := ((97 <=? code c) && (code c <=? 122))%N.
Definition isdigit (c : ascii) : bool := ((48 <=? code c) && (code c <=? 57))%N.

Definition special_characters : string := "!@#$%^&*()_+-=[]{}|;:,.<>?".

Definition is_special (c : ascii) : bool :=
  existsb (Ascii.eqb c) (list_ascii_of_string special_characters).

(** [password.lower()] on ASCII. *)
Definition lower_char (c : ascii) : ascii :=
  if isupper c then ascii_of_N (code c + 32) else c.

Fixpoint lower (s : string) : string :=
  match s with
  | EmptyString => EmptyString
  | String c s' => String (lower_char c) (lower s')
  end.

Definition weak_passwords : list string :=
  ["password"; "123456"; "admin"; "password123"; "qwerty"].

Inductive Issue : Type :=
| TooShort      (* 'Password must be at least 12 characters long' *)
| NoUppercase
| NoLowercase
| NoNumber
| NoSpecial
| TooCommon.    (* 'Password is too common' *)

Definition any (p : ascii -> bool) (s : string) : bool :=
  existsb p (list_ascii_of_string s).

(** [is_password_secure] on a password of ASCII characters. *)
Definition is_password_secure (password : string) : bool * list Issue :=
  let issues := [] in
  let issues := if (String.length password <? 12)%nat
                then issues ++ [TooShort] else issues in
  let issues := if negb (any isupper password)
                then issues ++ [NoUppercase] else issues in
  let issues := if negb (any islower password)
                then issues ++ [NoLowercase] else issues in
  let issues := if negb (any isdigit password)
                then issues ++ [NoNumber] else issues in
  let issues := if negb (any is_special password)
                then issues ++ [NoSpecial] else issues in
  let issues := if Py.contains (lower password) weak_passwords
                then issues ++ [TooCommon] else issues in
  ((length issues =? 0)%nat, issues).

(** Every character is below 128. *)
Definition ascii_only (s : string) : bool :=
  forallb (fun c => (code c <? 128)%N) (list_ascii_of_string s).

End Security.

Module Settings.

Definition get_db_connection : M SettingsDb unit :=
  fun s => if settings_down s then (Raise SqliteError, s) else (Ok tt, s).

(** [Settings.get(key, default)] *)
Definition get `{Codec} (key : string) (default : Json.Value)
    : M SettingsDb Json.Value :=
  try_except
    (let* _ := get_db_connection in
     let* row := gets (fun s => settings s !! key) in
     match row with
     | Some (text, _) =>
         ret (match loads text with
              | Some v => v
              | None => Json.Str text
              end)
     | None => ret default
     end)
    (fun _ => ret default).

(** [Settings.set(key, value, description)]; [INSERT OR REPLACE]
    writes over the row of the key. *)
Definition set `{Codec} (key : string) (value : Json.Value)
    (description : option string) : M SettingsDb bool :=
  try_except
    (let* _ := get_db_connection in
     let* description :=
       match description with
       | None =>
           gets (fun s => match settings s !! key with
                          | Some (_, d) => d
                          | None => Some key
                          end)
       | Some d => ret (Some d)
       end in
     let* _ := modify (fun s =>
       mkSettingsDb (settings_down s)
         (<[key := (dumps value, description)]> (settings s))) in
     ret true)
    (fun _ => ret false).

Definition encrypted_key (key : string) : string := "encrypted_" +:+ key.

(** [Settings.set_encrypted(key, value, description)]; a value that
    is no [str] fails in [encrypt_data], inside the [try]. *)
Definition set_encrypted `{Codec} `{Cipher} (key : string) (value : Json.Value)
    (description : option string) : M SettingsDb bool :=
  if negb (Json.truthy value) then set key (Json.Str EmptyString) description
  else match value with
       | Json.Str s =>
           set (encrypted_key key) (Json.Str (Security.encrypt_data s))
             description
       | _ => ret false
       end.

(** [Settings.get_encrypted(key, default)] *)
Definition get_encrypted `{Codec} `{Cipher} (key : string) (default : string)
    : M SettingsDb string :=
  let* encrypted_value := get (encrypted_key key) (Json.Str EmptyString) in
  if negb (Json.truthy encrypted_value) then ret default
  else
    let decrypted_value := Security.decrypt_data encrypted_value in
    ret (if Py.truthy decrypted_value then decrypted_value else default).

(** [Settings.migrate_to_encrypted(key)] *)
Definition migrate_to_encrypted `{Codec} `{Cipher} (key : string)
    : M SettingsDb bool :=
  try_except
    (let* plain_value := get key (Json.Str EmptyString) in
     if negb (Json.truthy plain_value) then ret true
     else
       let* success := set_encrypted key plain_value None in
       if success then
         let* _ := get_db_connection in
         let* _ := modify (fun s =>
           mkSettingsDb (settings_down s) (delete key (settings s))) in
         ret true
       else ret false)
    (fun _ => ret false).

(** [Settings.get_api_key()] *)
Definition get_api_key `{Codec} `{Cipher} : M SettingsDb string :=
  get_encrypted "api_key" EmptyString.

End Settings.

(** ** [app/__init__.py]: the defaults written at start-up *)

Module Startup.

Definition default_settings : list (string * Json.Value * string) :=
  [ ("file_retention_hours", Json.Int 24, "File retention period in hours");
    ("max_file_size_gb", Json.Int 5, "Maximum file size in GB");
    ("max_total_upload_gb", Json.Int 20, "Maximum total upload size in GB");
    ("max_files_per_upload", Json.Int 10, "Maximum files per upload");
    ("require_email", Json.Bool true, "Require email for file sharing");
    ("auto_cleanup", Json.Bool true, "Automatic cleanup of expired files");
    ("cleanup_interval_minutes", Json.Int 60, "Cleanup interval in minutes");
    ("mailjet_from_name", Json.Str "Secure File Share",
     "Default from name for emails") ].

(** The loop [for key, default_value, description in default_settings]
    of [initialize_database]. *)
Fixpoint set_defaults `{Codec} (l : list (string * Json.Value * string))
    : M SettingsDb unit :=
  match l with
  | [] => ret tt
  | (key, default_value, description) :: rest =>
      let* current := Settings.get key Json.Null in
      let* _ := if negb (Json.truthy current)
                then Settings.set key default_value (Some description)
                else ret false in
      set_defaults rest
  end.

End Startup.

(** The setting [key] as [Settings.get] reads it, [None] without row. *)
Definition stored_value `{Codec} (s : SettingsDb) (key : string)
    : option Json.Value :=
  match settings s !! key with
  | Some (text, _) => Some (match loads text with
                            | Some v => v
                            | None => Json.Str text
                            end)
  | None => None
  end.

(** A codec and a cipher for the examples: JSON scalars whose strings
    need no escape, and a reversible marking of the text. *)
Definition quote : ascii := ascii_of_nat 34.
Definition backslash : ascii := ascii_of_nat 92.

Definition plain_dumps (v : Json.Value) : string :=
  match v with
  | Json.Null => "null"
  | Json.Bool true => "true"
  | Json.Bool false => "false"
  | Json.Int n => Py.str n
  | Json.Str s => String quote (s +:+ String quote EmptyString)
  end.

Definition plain_loads (t : string) : option Json.Value :=
  if (t =? "null")%string then Some Json.Null
  else if (t =? "true")%string then Some (Json.Bool true)
  else if (t =? "false")%string then Some (Json.Bool false)
  else match t with
       | EmptyString => None
       | String c rest =>
           if Ascii.eqb c quote then
             match rev (list_ascii_of_string rest) with
             | q :: body =>
                 if Ascii.eqb q quote
                    && forallb (fun x => negb (Ascii.eqb x quote)
                                         && negb (Ascii.eqb x backslash)) body
                 then Some (Json.Str (string_of_list_ascii (rev body)))
                 else None
             | [] => None
             end
           else if Ascii.eqb c "-"
           then option_map (fun n => Json.Int (- Z.of_N n)) (Py.parse_N rest)
           else option_map (fun n => Json.Int (Z.of_N n)) (Py.parse_N t)
       end.

Definition plain_json : Codec := {| dumps := plain_dumps; loads := plain_loads |}.

Definition marking : Cipher := {|
  encrypt := fun s => "enc:" +:+ s;
  decrypt := fun s =>
    if String.prefix "enc:" s
    then String.substring 4 (String.length s - 4) s else EmptyString
|}.

(** * Properties *)

(** ** The monad and the table primitives *)

Ltac unfold_monad :=
  unfold bind, ret, raise, try_except, gets, modify, lift_snd, call,
    Database.get_db_connection, Database.query, Database.execute in *.

Lemma bind_ok {S A B} (m : M S A) (k : A -> M S B) (s s' : S) (a : A) :
  m s = (Ok a, s') -> bind m k s = k a s'.
Proof. intros Hm. unfold bind. by rewrite Hm. Qed.

Lemma set_file_shares_id (w : World) : set_file_shares (file_shares w) w = w.
Proof. by destruct w. Qed.

Lemma set_uploads_id (w : World) : set_uploads (uploads w) w = w.
Proof. by destruct w. Qed.

Lemma contains_In (x : string) (l : list string) :
  Py.contains x l = true <-> In x l.
Proof.
  unfold Py.contains. rewrite existsb_exists. split.
  - intros (y & Hy & Heq). apply String.eqb_eq in Heq. by subst.
  - intros Hx. exists x. split; [done | apply String.eqb_refl].
Qed.

Lemma contains_false_count (x : string) (l : list string) :
  Py.contains x l = false -> count_occ string_dec l x = 0%nat.
Proof.
  intros Hc. apply count_occ_not_In. intros Hin.
  apply contains_In in Hin. congruence.
Qed.

Lemma truthy_empty (s : string) : Py.truthy s = false <-> s = "".
Proof. destruct s; simpl; split; congruence. Qed.

Lemma delete_where_token_absent (tok : string) (tbl : list Db.Row) :
  Db.select_by_token tok tbl = None -> Db.delete_where_token tok tbl = tbl.
Proof.
  unfold Db.select_by_token, Db.delete_where_token.
  induction tbl as [|r tbl IH]; simpl; [done |].
  destruct (Db.has_token tok r); simpl; [done |].
  intros H. by rewrite IH.
Qed.

Lemma select_after_delete (tok : string) (tbl : list Db.Row) :
  Db.select_by_token tok (Db.delete_where_token tok tbl) = None.
Proof.
  unfold Db.select_by_token, Db.delete_where_token.
  induction tbl as [|r tbl IH]; simpl; [done |].
  destruct (Db.has_token tok r) eqn:E; simpl; [done |].
  by rewrite E.
Qed.

Lemma get_up (tok : string) (w : World) :
  db_down w = false ->
  FileShare.get tok w =
    (Ok (option_map FileShare.of_row (Db.select_by_token tok (file_shares w))), w).
Proof. intros Hup. unfold FileShare.get. unfold_monad. by rewrite Hup. Qed.

Lemma get_down (tok : string) (w : World) :
  db_down w = true -> FileShare.get tok w = (Ok None, w).
Proof. intros Hd. unfold FileShare.get. unfold_monad. by rewrite Hd. Qed.

(** ** Expiry *)

(** C2. A share whose recipient is empty is not expired, at every
    instant and for every stored [expires_at] (also a missing one). *)
Theorem no_recipient_never_expires (now : Z) (s : FileShare.t) :
  FileShare.recipient_email s = "" ->
  FileShare.is_expired now s = false.
Proof.
  intros Hr. unfold FileShare.is_expired. by rewrite Hr.
Qed.

Lemma no_recipient_never_expires_witness :
  FileShare.is_expired (1000 * Sample.hour) Sample.share_P = false.
Proof.
  apply (no_recipient_never_expires (1000 * Sample.hour) Sample.share_P).
  reflexivity.
Defined.

(** The same through the registry: whatever [get] returns for a row
    without recipient is not expired. *)
Lemma fetched_without_recipient_not_expired (now : Z) (tok : string)
    (w : World) (r : Db.Row) :
  db_down w = false ->
  Db.select_by_token tok (file_shares w) = Some r ->
  Db.recipient_email r = "" ->
  exists s, FileShare.get tok w = (Ok (Some s), w)
            /\ FileShare.is_expired now s = false.
Proof.
  intros Hup Hsel Hr. exists (FileShare.of_row r). split.
  - rewrite get_up by done. by rewrite Hsel.
  - unfold FileShare.is_expired. simpl. by rewrite Hr.
Qed.

(** With a recipient, expiry is the strict comparison with the clock. *)
Lemma with_recipient_expiry (now e : Z) (s : FileShare.t) :
  FileShare.recipient_email s <> "" ->
  FileShare.expires_at s = Some e ->
  FileShare.is_expired now s = true <-> e < now.
Proof.
  intros Hr He. unfold FileShare.is_expired. rewrite He.
  destruct (Py.truthy (FileShare.recipient_email s)) eqn:E.
  - simpl. rewrite Z.gtb_ltb, Z.ltb_lt. done.
  - apply truthy_empty in E. done.
Qed.

(** ** Download marks *)

Lemma update_keeps_counts (tok : string) (n : Z) (f : Db.Row -> Db.Row)
    (tbl : list Db.Row) :
  (forall r, In r tbl -> Db.token r = tok -> Db.download_count r = n) ->
  (forall r, Db.download_count (f r) = n) ->
  map Db.download_count (Db.update_where_token tok f tbl)
  = map Db.download_count tbl.
Proof.
  intros Hsync Hf. unfold Db.update_where_token.
  induction tbl as [|r tbl IH]; simpl; [done |].
  rewrite IH by (intros; apply Hsync; simpl; auto).
  f_equal. unfold Db.has_token. destruct (String.eqb_spec (Db.token r) tok).
  - rewrite Hf. symmetry. apply Hsync; simpl; auto.
  - done.
Qed.

(** What [save] does to the world never touches the object, and keeps
    the stored counters of an object that agrees with its row. *)
Lemma save_keeps_counts (s : FileShare.t) (w : World) :
  (forall r, In r (file_shares w) -> Db.token r = FileShare.token s ->
             Db.download_count r = FileShare.download_count s) ->
  exists res w',
    FileShare.save (s, w) = (res, (s, w'))
    /\ map Db.download_count (file_shares w')
       = map Db.download_count (file_shares w).
Proof.
  intros Hsync. unfold FileShare.save. unfold_monad. simpl.
  destruct (db_down w); [by eexists _, _ |].
  destruct (Db.select_by_token _ _); [| by eexists _, _].
  destruct (FileShare.expires_at s); [| by eexists _, _].
  eexists _, _. split; [done |]. simpl.
  by apply (update_keeps_counts _ (FileShare.download_count s)).
Qed.

(** [mark_download_attempt] writes one column only. *)
Lemma mark_download_attempt_keeps_counts (now : Z) (s : FileShare.t) (w : World) :
  exists w',
    FileShare.mark_download_attempt now (s, w) = (Ok tt, (s, w'))
    /\ map Db.download_count (file_shares w')
       = map Db.download_count (file_shares w).
Proof.
  unfold FileShare.mark_download_attempt. unfold_monad. simpl.
  destruct (db_down w); [by eexists |].
  eexists. split; [done |]. simpl. unfold Db.update_where_token.
  rewrite map_map. apply map_ext. intros r. by destruct (Db.has_token _ r).
Qed.

(** ** Deleting a share *)

Lemma delete_by_token_not_plain (tok : string) (w : World) :
  Path.plain tok = false ->
  FileShare.delete_by_token tok w = (Raise NotModelled, w).
Proof. intros Hp. unfold FileShare.delete_by_token. by rewrite Hp. Qed.

Lemma delete_by_token_result (tok : string) (w : World) :
  Path.plain tok = true ->
  FileShare.delete_by_token tok w =
    match uploads w !! tok with
    | None =>
        if db_down w then (Ok false, w)
        else (Ok true,
              set_file_shares (Db.delete_where_token tok (file_shares w)) w)
    | Some (RegularFile _) => (Ok false, w)
    | Some (Directory _) =>
        if bool_decide (tok ∈ rm_fails w) then (Ok false, w)
        else if db_down w
             then (Ok false, set_uploads (delete tok (uploads w)) w)
             else (Ok true,
                   set_file_shares (Db.delete_where_token tok (file_shares w))
                     (set_uploads (delete tok (uploads w)) w))
    end.
Proof.
  intros Hp.
  unfold FileShare.delete_by_token, Os.exists_in_uploads, Os.rmtree.
  rewrite Hp. unfold_monad. cbn [negb].
  destruct (uploads w !! tok) as [[c|d]|] eqn:E.
  - rewrite bool_decide_eq_true_2 by (by eexists). by rewrite E.
  - rewrite bool_decide_eq_true_2 by (by eexists). rewrite E.
    destruct (bool_decide (tok ∈ rm_fails w)); [done |].
    simpl. by destruct (db_down w).
  - rewrite bool_decide_eq_false_2 by (by intros [? ?]).
    by destruct (db_down w).
Qed.

(** C10. Deleting a token (a plain name, as every token the
    application hands out) that has neither a record nor a directory
    succeeds and changes nothing; [False] is returned only when the
    removal of the directory or the database raised; the call never
    raises itself, and repeating a successful delete succeeds again
    without any change. *)
Theorem delete_by_token_missing_is_success (tok : string) (w : World) :
  Path.plain tok = true ->
  Db.select_by_token tok (file_shares w) = None ->
  uploads w !! tok = None ->
  (db_down w = false -> FileShare.delete_by_token tok w = (Ok true, w))
  /\ (forall w0 : World,
        fst (FileShare.delete_by_token tok w0) = Ok false ->
        (is_Some (uploads w0 !! tok)
         /\ exists e, fst (Os.rmtree tok w0) = Raise e)
        \/ exists e, fst (Database.get_db_connection w0) = Raise e)
  /\ (forall w0 : World,
        fst (FileShare.delete_by_token tok w0) = Ok true
        \/ fst (FileShare.delete_by_token tok w0) = Ok false)
  /\ (forall w0 w1 : World,
        FileShare.delete_by_token tok w0 = (Ok true, w1) ->
        Db.select_by_token tok (file_shares w1) = None
        /\ uploads w1 !! tok = None
        /\ FileShare.delete_by_token tok w1 = (Ok true, w1)).
Proof.
  intros Hplain Hrec Hdir.
  assert (Hmiss : forall v : World,
            Db.select_by_token tok (file_shares v) = None ->
            uploads v !! tok = None -> db_down v = false ->
            FileShare.delete_by_token tok v = (Ok true, v)).
  { intros v Hr Hd Hup. rewrite delete_by_token_result, Hd, Hup by done.
    by rewrite delete_where_token_absent, set_file_shares_id. }
  split; [by apply Hmiss |]. split; [| split].
  - intros w0. rewrite delete_by_token_result by done.
    unfold Os.rmtree, Database.get_db_connection.
    destruct (uploads w0 !! tok) as [[c|d]|] eqn:E; simpl.
    + intros _. left. split; [eauto |]. by eexists.
    + destruct (bool_decide (tok ∈ rm_fails w0)); simpl.
      * intros _. left. split; [eauto |]. by eexists.
      * destruct (db_down w0); simpl; [| done].
        intros _. right. by eexists.
    + destruct (db_down w0); simpl; [| done].
      intros _. right. by eexists.
  - intros w0. rewrite delete_by_token_result by done.
    destruct (uploads w0 !! tok) as [[c|d]|]; simpl; auto;
      repeat (match goal with |- context [if ?b then _ else _] => destruct b end;
              simpl; auto).
  - intros w0 w1. rewrite delete_by_token_result by done.
    destruct (uploads w0 !! tok) as [[c|d]|] eqn:E; simpl.
    + done.
    + destruct (bool_decide (tok ∈ rm_fails w0)); [done |].
      destruct (db_down w0) eqn:Hd; [done |].
      intros [= <-]. simpl.
      assert (Hs := select_after_delete tok (file_shares w0)).
      assert (Hu : delete tok (uploads w0) !! tok = None)
        by apply lookup_delete_eq.
      split; [done |]. split; [done |]. by apply Hmiss.
    + destruct (db_down w0) eqn:Hd; [done |].
      intros [= <-]. simpl.
      assert (Hs := select_after_delete tok (file_shares w0)).
      split; [done |]. split; [done |]. by apply Hmiss.
Qed.

Lemma delete_by_token_missing_is_success_witness :
  FileShare.delete_by_token "never-created" Sample.pinned_world
  = (Ok true, Sample.pinned_world).
Proof.
  apply (delete_by_token_missing_is_success "never-created" Sample.pinned_world);
    reflexivity.
Defined.

(** A record or a directory that does exist is removed by a successful
    delete, and nothing else is. *)
Lemma delete_by_token_removes_both (tok : string) (w w' : World) :
  Path.plain tok = true ->
  FileShare.delete_by_token tok w = (Ok true, w') ->
  file_shares w' = Db.delete_where_token tok (file_shares w)
  /\ uploads w' = delete tok (uploads w).
Proof.
  intros Hplain. rewrite delete_by_token_result by done.
  destruct (uploads w !! tok) as [[c|d]|] eqn:E; simpl.
  - done.
  - destruct (bool_decide (tok ∈ rm_fails w)); [done |].
    destruct (db_down w); [done |]. by intros [= <-].
  - destruct (db_down w); [done |]. intros [= <-]. simpl.
    split; [done |]. symmetry. by apply delete_id.
Qed.

(** ** Storage errors *)

(** C9, as the code has it. With the store down, [create], [save],
    [set_recipient] and [mark_file_downloaded] of a new name raise to
    the caller; [get], the listing of the active shares
    ([get_all_active]), the listing of the expired ones
    ([get_expired_shares]), the two counts, [mark_downloaded] and
    [mark_download_attempt] catch the error and return [None], the empty
    list, [0] or nothing, and [delete_by_token] of a plain token answers
    [False]. The [None] of [get] is the answer it gives, with the store
    up, for a token that has no row. The paged listing
    [get_all_paginated] is no part of the statement. *)
Theorem storage_error_policy (w : World) (tok : string) (now : Z)
    (s : FileShare.t) (filename recipient : string) (fs : list string)
    (hours : Z) :
  db_down w = true ->
  (* raised to the caller *)
  (FileShare.create tok now recipient fs hours w = (Raise SqliteError, w)
  /\ FileShare.save (s, w) = (Raise SqliteError, (s, w))
  /\ fst (FileShare.set_recipient now recipient hours (s, w)) = Raise SqliteError
  /\ (Py.contains filename (FileShare.downloaded_files s) = false ->
      fst (FileShare.mark_file_downloaded filename (s, w)) = Raise SqliteError)
  (* caught inside the registry *)
  /\ FileShare.get tok w = (Ok None, w)
  /\ FileShare.get_all_active now w = (Ok [], w)
  /\ FileShare.get_expired_shares now w = (Ok [], w)
  /\ FileShare.get_active_count now w = (Ok 0, w)
  /\ FileShare.get_total_count w = (Ok 0, w)
  /\ fst (FileShare.mark_downloaded now (s, w)) = Ok tt
  /\ snd (snd (FileShare.mark_downloaded now (s, w))) = w
  /\ FileShare.mark_download_attempt now (s, w) = (Ok tt, (s, w))
  /\ (Path.plain tok = true ->
      fst (FileShare.delete_by_token tok w) = Ok false))
  (* the answer of [get] for a token without a row *)
  /\ (forall w0 : World,
        db_down w0 = false ->
        Db.select_by_token tok (file_shares w0) = None ->
        FileShare.get tok w0 = (Ok None, w0)).
Proof.
  intros Hd. split;
    [| intros w0 Hup Hnone; rewrite get_up by done; by rewrite Hnone].
  unfold FileShare.create, FileShare.save, FileShare.set_recipient,
    FileShare.mark_file_downloaded, FileShare.get, FileShare.get_all_active,
    FileShare.get_expired_shares, FileShare.get_active_count,
    FileShare.get_total_count, FileShare.mark_downloaded,
    FileShare.mark_download_attempt, FileShare.save.
  unfold_monad. simpl. rewrite Hd. simpl.
  repeat split; try done.
  - intros ->. simpl. by rewrite Hd.
  - intros Hplain. rewrite delete_by_token_result, Hd by done.
    destruct (uploads w !! tok) as [[c|d]|]; simpl; try done.
    by destruct (bool_decide (tok ∈ rm_fails w)).
Qed.

Lemma storage_error_policy_witness :
  FileShare.get "tokP" Sample.down_world = (Ok None, Sample.down_world)
  /\ FileShare.create "tokQ" 0 "" [] 24 Sample.down_world
     = (Raise SqliteError, Sample.down_world).
Proof.
  destruct (storage_error_policy Sample.down_world "tokP" 0 Sample.share_P
              "x.bin" "" [] 24) as ((_ & _ & _ & _ & Hget & _) & _);
    [reflexivity |].
  destruct (storage_error_policy Sample.down_world "tokQ" 0 Sample.share_P
              "x.bin" "" [] 24) as ((Hcreate & _) & _); [reflexivity |].
  split; [exact Hget | exact Hcreate].
Defined.

(** C9, the claim at a concrete store: a [get] that hits a storage error
    gives no error result; its answer is the one [get] gives for a token
    that does not exist, although the share is in the table; and
    [mark_downloaded] returns normally while the stored count stays
    behind the object's. *)
Lemma storage_error_swallowed :
  fst (FileShare.get "tokP" Sample.down_world) = Ok None
  /\ fst (FileShare.get "tokP" Sample.empty_world) = Ok None
  /\ Db.select_by_token "tokP" (file_shares Sample.down_world) <> None
  /\ (forall e, fst (FileShare.get "tokP" Sample.down_world) <> Raise e)
  /\ fst (FileShare.mark_downloaded 0 (Sample.share_P, Sample.down_world)) = Ok tt
  /\ map Db.download_count
       (file_shares (snd (snd (FileShare.mark_downloaded 0
                                 (Sample.share_P, Sample.down_world))))) = [0]
  /\ FileShare.download_count
       (fst (snd (FileShare.mark_downloaded 0
                    (Sample.share_P, Sample.down_world)))) = 1.
Proof. repeat split; try done. Qed.

(** ** The active listing *)

Lemma In_insert_desc (r x : Db.Row) (l : list Db.Row) :
  In x (Db.insert_desc r l) <-> x = r \/ In x l.
Proof.
  induction l as [|r' l IH]; simpl.
  - intuition.
  - destruct (Db.created_at r' <=? Db.created_at r); simpl; [intuition |].
    rewrite IH. intuition.
Qed.

Lemma In_order_by_created_desc (x : Db.Row) (l : list Db.Row) :
  In x (Db.order_by_created_desc l) <-> In x l.
Proof.
  unfold Db.order_by_created_desc. induction l as [|r l IH]; simpl; [done |].
  rewrite In_insert_desc, IH. intuition.
Qed.

(** What the listing and the count return when the store is up: the
    rows that pass the [WHERE] clause, and nothing about recipients. *)
Lemma get_all_active_rows (now : Z) (w : World) :
  db_down w = false ->
  exists rows,
    FileShare.get_all_active now w = (Ok (map FileShare.of_row rows), w)
    /\ (forall r, In r rows <->
                  In r (file_shares w) /\ Db.where_active now r = true)
    /\ FileShare.get_active_count now w
       = (Ok (Z.of_nat (length
                (List.filter (Db.where_active now) (file_shares w)))), w).
Proof.
  intros Hup. unfold FileShare.get_all_active, FileShare.get_active_count.
  unfold_monad. rewrite Hup. simpl.
  eexists. split; [reflexivity |]. split; [| done].
  intros r. rewrite In_order_by_created_desc. apply filter_In.
Qed.

(** Every share the listing returns is indeed not expired; the converse
    is what fails. *)
Lemma active_rows_not_expired (now : Z) (r : Db.Row) :
  Db.where_active now r = true ->
  FileShare.is_expired now (FileShare.of_row r) = false.
Proof.
  unfold Db.where_active, Db.datetime, FileShare.is_expired. simpl.
  intros Ha. destruct (Py.truthy (Db.recipient_email r)); [| done]. simpl.
  apply Z.gtb_lt in Ha. rewrite Z.gtb_ltb. apply Z.ltb_ge.
  destruct (Z_le_gt_dec now (Db.expires_at r)) as [Hle | Hgt]; [done |].
  assert (Db.expires_at r / 1000000 <= now / 1000000)
    by (apply Z.div_le_mono; lia).
  lia.
Qed.

(** C3, evaluated. The share [tokP] has no recipient and a stored
    [expires_at] of one hour; at two hours it is not expired, yet the
    active listing and the active count leave it out. The expired
    listing, which does test the recipient, leaves it out as well. *)
Theorem active_listing_misses_pinned_share :
  let now := 2 * Sample.hour in
  (exists s, FileShare.get "tokP" Sample.pinned_world
             = (Ok (Some s), Sample.pinned_world)
             /\ FileShare.recipient_email s = ""
             /\ FileShare.is_expired now s = false)
  /\ fst (FileShare.get_all_active now Sample.pinned_world) = Ok []
  /\ fst (FileShare.get_active_count now Sample.pinned_world) = Ok 0
  /\ fst (FileShare.get_total_count Sample.pinned_world) = Ok 1
  /\ fst (FileShare.get_expired_shares now Sample.pinned_world) = Ok [].
Proof.
  simpl. split.
  - eexists. split; [reflexivity |]. split; reflexivity.
  - repeat split; reflexivity.
Qed.

(** ** The eviction sweep *)

Lemma get_world (tok : string) (w : World) : snd (FileShare.get tok w) = w.
Proof. unfold FileShare.get. unfold_monad. by destruct (db_down w). Qed.

Lemma try_rmtree_cases (name : string) (w : World) :
  Cleanup.try_rmtree name w = (Ok 0, w)
  \/ Cleanup.try_rmtree name w
     = (Ok 1, set_uploads (delete name (uploads w)) w).
Proof.
  unfold Cleanup.try_rmtree, Os.rmtree. unfold_monad.
  destruct (uploads w !! name) as [[c|d]|]; auto.
  destruct (bool_decide (name ∈ rm_fails w)); auto.
Qed.

Lemma sweep_one_cases (now : Z) (name : string) (w : World) :
  exists k w', Cleanup.sweep_one now name w = (Ok k, w')
               /\ file_shares w' = file_shares w
               /\ db_down w' = db_down w.
Proof.
  unfold Cleanup.sweep_one, Cleanup.isdir. unfold_monad.
  destruct (match uploads w !! name with
            | Some (Directory _) => true | _ => false end); simpl;
    [| by eexists _, _].
  pose proof (get_world name w) as Hw.
  destruct (FileShare.get name w) as [[o|e] w1] eqn:Hget; simpl in Hw; subst w1.
  - assert (Hrm : exists k w', Cleanup.try_rmtree name w = (Ok k, w')
                               /\ file_shares w' = file_shares w
                               /\ db_down w' = db_down w).
    { destruct (try_rmtree_cases name w) as [-> | ->]; by eexists _, _. }
    destruct o as [fs|]; [| exact Hrm].
    destruct (FileShare.is_expired now fs); [exact Hrm | by eexists _, _].
  - unfold FileShare.get in Hget. unfold_monad.
    by destruct (db_down w).
Qed.

(** No sweep ever changes the registry. *)
Lemma sweep_keeps_registry (now : Z) (names : list string) (cnt : Z) (w : World) :
  exists k w', Cleanup.sweep now names cnt w = (Ok k, w')
               /\ file_shares w' = file_shares w.
Proof.
  revert cnt w. induction names as [|name names IH]; intros cnt w; simpl.
  - by eexists _, _.
  - unfold bind.
    destruct (sweep_one_cases now name w) as (k & w1 & -> & Hfs & _).
    destruct (IH (cnt + k) w1) as (k' & w' & -> & Hfs').
    eexists _, _. split; [done |]. congruence.
Qed.

Lemma cleanup_keeps_registry (now : Z) (w : World) :
  exists k w', Cleanup.cleanup_expired_files now w = (Ok k, w')
               /\ file_shares w' = file_shares w.
Proof.
  unfold Cleanup.cleanup_expired_files, Cleanup.listdir. unfold_monad.
  apply sweep_keeps_registry.
Qed.

Lemma sweep_one_evicts (now : Z) (name : string) (w : World) :
  db_down w = false -> rm_fails w = ∅ ->
  Cleanup.sweep_one now name w =
    if Rel.evicted now w name
    then (Ok 1, set_uploads (delete name (uploads w)) w)
    else (Ok 0, w).
Proof.
  intros Hup Hrm.
  unfold Cleanup.sweep_one, Cleanup.isdir, Rel.evicted, bind, gets.
  assert (Hrmtree : forall d, uploads w !! name = Some (Directory d) ->
            Cleanup.try_rmtree name w
            = (Ok 1, set_uploads (delete name (uploads w)) w)).
  { intros d Hd. unfold Cleanup.try_rmtree, Os.rmtree. unfold_monad.
    rewrite Hd, Hrm. by rewrite bool_decide_eq_false_2 by set_solver. }
  destruct (uploads w !! name) as [[c|d]|] eqn:E; simpl; try done.
  rewrite get_up by done.
  destruct (Db.select_by_token name (file_shares w)) as [r|]; simpl.
  - destruct (FileShare.is_expired now (FileShare.of_row r)); [| done].
    by apply (Hrmtree d).
  - by apply (Hrmtree d).
Qed.

Lemma evicted_after_delete (now : Z) (a name : string) (w : World) :
  name <> a ->
  Rel.evicted now (set_uploads (delete a (uploads w)) w) name
  = Rel.evicted now w name.
Proof.
  intros Hne. unfold Rel.evicted. simpl. by rewrite lookup_delete_ne.
Qed.

(** The sweep over a list of distinct names, store up and every removal
    succeeding: the listed directories without record or with an
    expired record go, everything else stays, and the count is the
    number of directories removed. *)
Lemma sweep_evicts (now : Z) (names : list string) :
  forall (cnt : Z) (w : World),
    NoDup names -> db_down w = false -> rm_fails w = ∅ ->
    exists w',
      Cleanup.sweep now names cnt w
        = (Ok (cnt + Z.of_nat (length (List.filter (Rel.evicted now w) names))), w')
      /\ file_shares w' = file_shares w
      /\ forall name,
           uploads w' !! name =
             if bool_decide (name ∈ names) && Rel.evicted now w name
             then None else uploads w !! name.
Proof.
  induction names as [|a names IH]; intros cnt w Hnd Hup Hrm.
  - exists w. simpl. unfold ret. split; [do 2 f_equal; lia |]. split; [done |].
    intros name. done.
  - apply NoDup_cons in Hnd as [Ha Hnd]. simpl.
    set (w1 := if Rel.evicted now w a
               then set_uploads (delete a (uploads w)) w else w).
    assert (Hone : Cleanup.sweep_one now a w
                   = (Ok (if Rel.evicted now w a then 1 else 0), w1)).
    { rewrite sweep_one_evicts by done. unfold w1.
      by destruct (Rel.evicted now w a). }
    rewrite (bind_ok _ _ _ _ _ Hone).
    assert (Hw1 : db_down w1 = false /\ rm_fails w1 = ∅
                  /\ file_shares w1 = file_shares w
                  /\ (forall name, name <> a ->
                        uploads w1 !! name = uploads w !! name
                        /\ Rel.evicted now w1 name = Rel.evicted now w name)
                  /\ uploads w1 !! a
                     = if Rel.evicted now w a then None else uploads w !! a).
    { unfold w1. destruct (Rel.evicted now w a); simpl; repeat split; try done.
      - by rewrite lookup_delete_ne.
      - by apply evicted_after_delete.
      - apply lookup_delete_eq. }
    destruct Hw1 as (Hup1 & Hrm1 & Hfs1 & Hother & Hself).
    destruct (IH (cnt + (if Rel.evicted now w a then 1 else 0)) w1 Hnd Hup1 Hrm1)
      as (w' & Hrun & Hfs' & Hlook).
    exists w'. split; [| split; [congruence |]].
    + rewrite Hrun. do 2 f_equal.
      rewrite (filter_ext_in (Rel.evicted now w1) (Rel.evicted now w)).
      * destruct (Rel.evicted now w a); simpl; lia.
      * intros x Hx. apply Hother. intros ->. apply Ha.
        by apply list_elem_of_In.
    + intros name. rewrite Hlook.
      destruct (decide (name = a)) as [-> | Hne].
      * rewrite (bool_decide_eq_false_2 (a ∈ names)) by done.
        rewrite (bool_decide_eq_true_2 (a ∈ a :: names)) by (by left).
        simpl. exact Hself.
      * destruct (Hother name Hne) as [Hu He]. rewrite Hu, He.
        destruct (bool_decide (name ∈ names)) eqn:Eb.
        -- apply bool_decide_eq_true_1 in Eb.
           by rewrite (bool_decide_eq_true_2 (name ∈ a :: names)) by (by right).
        -- apply bool_decide_eq_false_1 in Eb.
           by rewrite (bool_decide_eq_false_2 (name ∈ a :: names))
             by (by intros [? | ?]%elem_of_cons).
Qed.

(** One whole sweep, store up and every removal succeeding. *)
Lemma cleanup_evicts (now : Z) (w : World) :
  db_down w = false -> rm_fails w = ∅ ->
  exists k w',
    Cleanup.cleanup_expired_files now w = (Ok k, w')
    /\ file_shares w' = file_shares w
    /\ (forall name, uploads w' !! name =
                       if Rel.evicted now w name then None else uploads w !! name).
Proof.
  intros Hup Hrm. unfold Cleanup.cleanup_expired_files, Cleanup.listdir.
  erewrite (bind_ok _ _ w) by reflexivity.
  destruct (sweep_evicts now (map_to_list (uploads w)).*1 0 w)
    as (w' & Hrun & Hfs & Hlook); [apply NoDup_fst_map_to_list | done | done |].
  eexists _, w'. split; [exact Hrun |]. split; [done |].
  intros name. rewrite Hlook.
  destruct (bool_decide (name ∈ (map_to_list (uploads w)).*1)) eqn:Eb; [done |].
  apply bool_decide_eq_false_1 in Eb. simpl.
  assert (Hnone : uploads w !! name = None).
  { destruct (uploads w !! name) as [e|] eqn:E; [| done].
    exfalso. apply Eb. apply list_elem_of_fmap. exists (name, e).
    split; [done |]. by apply elem_of_map_to_list. }
  unfold Rel.evicted. by rewrite Hnone.
Qed.

(** While the store is down [get] answers [None] for every token, so
    the sweep takes every directory for an orphan: the running share
    and the pending one lose their files too. *)
Lemma sweep_with_store_down_removes_every_directory :
  Cleanup.cleanup_expired_files (25 * Sample.hour) Sample.sweep_world_down
  = (Ok 4, set_uploads ∅ Sample.sweep_world_down).
Proof. vm_compute. reflexivity. Qed.

(** C1, evaluated on the store of the scenario at [25 * hour]. The sweep
    reports two removals and the directories left are exactly those of
    [tokB] and [tokC]; the record of the expired [tokA] is still in the
    registry afterwards. [delete_by_token] and the static
    [FileShare.cleanup_expired_files] remove directory and record. *)
Theorem sweep_leaves_expired_record :
  let now := 25 * Sample.hour in
  let w' := snd (Cleanup.cleanup_expired_files now Sample.sweep_world) in
  fst (Cleanup.cleanup_expired_files now Sample.sweep_world) = Ok 2
  /\ (map_to_list (uploads w')).*1 = ["tokC"; "tokB"]
  /\ uploads w' !! "tokB" = uploads Sample.sweep_world !! "tokB"
  /\ uploads w' !! "tokC" = uploads Sample.sweep_world !! "tokC"
  /\ uploads w' !! "tokA" = None
  /\ uploads w' !! "tokD" = None
  /\ map Db.token (file_shares w') = ["tokA"; "tokB"; "tokC"]
  /\ (exists s, FileShare.get "tokA" w' = (Ok (Some s), w')
                /\ FileShare.is_expired now s = true)
  /\ map Db.token (file_shares
       (snd (FileShare.delete_by_token "tokA" Sample.sweep_world)))
     = ["tokB"; "tokC"]
  /\ map Db.token (file_shares
       (snd (FileShare.cleanup_expired_files true now Sample.sweep_world)))
     = ["tokB"; "tokC"].
Proof.
  vm_compute. repeat split; try reflexivity.
  eexists. split; reflexivity.
Qed.

(** ** Strings and decimal numerals *)

Lemma chars_app (a b : string) :
  list_ascii_of_string (a +:+ b)
  = list_ascii_of_string a ++ list_ascii_of_string b.
Proof. induction a as [|c a IH]; [done |]. cbn. by rewrite <- IH. Qed.

Lemma chars_inj (a b : string) :
  list_ascii_of_string a = list_ascii_of_string b -> a = b.
Proof.
  intros Hab. rewrite <- (string_of_list_ascii_of_string a),
    <- (string_of_list_ascii_of_string b). by rewrite Hab.
Qed.

Lemma append_inv_head (p a b : string) : p +:+ a = p +:+ b -> a = b.
Proof.
  intros Hab. apply chars_inj. apply (f_equal list_ascii_of_string) in Hab.
  rewrite !chars_app in Hab. by apply app_inv_head in Hab.
Qed.

Lemma append_inv_tail (a b q : string) : a +:+ q = b +:+ q -> a = b.
Proof.
  intros Hab. apply chars_inj. apply (f_equal list_ascii_of_string) in Hab.
  rewrite !chars_app in Hab. by apply app_inv_tail in Hab.
Qed.

Lemma parse_str_N (n : N) : Py.parse_N (Py.str_N n) = Some n.
Proof.
  unfold Py.parse_N, Py.str_N. rewrite NilEmpty.usu. simpl.
  by rewrite DecimalN.Unsigned.of_to.
Qed.

Lemma parse_zeros (k : nat) (s : string) :
  Py.parse_N (Py.zeros k +:+ s) = Py.parse_N s.
Proof.
  induction k as [|k IH]; [done |].
  rewrite <- IH. unfold Py.parse_N.
  change (Py.zeros (S k) +:+ s) with (String "0" (Py.zeros k +:+ s)).
  simpl. by destruct (NilEmpty.uint_of_string (Py.zeros k +:+ s)).
Qed.

Lemma str_N_inj (m n : N) : Py.str_N m = Py.str_N n -> m = n.
Proof.
  intros Hmn. apply (f_equal Py.parse_N) in Hmn.
  rewrite !parse_str_N in Hmn. congruence.
Qed.

Lemma str_inj_nonneg (i j : Z) : 0 <= i -> 0 <= j -> Py.str i = Py.str j -> i = j.
Proof.
  intros Hi Hj. unfold Py.str.
  rewrite !(proj2 (Z.ltb_ge _ 0)) by done.
  intros Hij. apply str_N_inj in Hij. lia.
Qed.

Lemma fmt05d_inj (i j : Z) :
  0 <= i -> 0 <= j -> Py.fmt05d i = Py.fmt05d j -> i = j.
Proof.
  intros Hi Hj. unfold Py.fmt05d, Py.zfill.
  rewrite !(proj2 (Z.ltb_ge _ 0)) by done.
  intros Hij. apply (f_equal Py.parse_N) in Hij.
  rewrite !parse_zeros, !parse_str_N in Hij.
  injection Hij. lia.
Qed.

Lemma chunk_name_inj (i j : Z) :
  0 <= i -> 0 <= j -> Admin.chunk_name i = Admin.chunk_name j -> i = j.
Proof.
  intros Hi Hj. unfold Admin.chunk_name. intros Hij.
  apply append_inv_head in Hij. by apply fmt05d_inj.
Qed.

(** ** The chunked upload, one request at a time *)

Lemma select_by_token_token (tok : string) (tbl : list Db.Row) (r : Db.Row) :
  Db.select_by_token tok tbl = Some r -> Db.token r = tok.
Proof.
  unfold Db.select_by_token. intros Hf. apply find_some in Hf as [_ Ht].
  by apply String.eqb_eq in Ht.
Qed.

Lemma temp_dir_set_staging (fid : string) (d : gmap string bytes)
    (st : gmap string (gmap string bytes)) (w : World) :
  Admin.temp_dir fid (set_staging (<[fid := d]> st) w) = d.
Proof. unfold Admin.temp_dir. simpl. by rewrite lookup_insert_eq. Qed.

(** On a plain file id the model follows the code. *)
Lemma in_session_plain {A} (fid : string) (m : M World A) :
  Path.plain fid = true -> Admin.in_session fid m = m.
Proof. intros Hp. unfold Admin.in_session. by rewrite Hp. Qed.

Lemma in_session_not_plain {A} (fid : string) (m : M World A) (w : World) :
  Path.plain fid = false -> Admin.in_session fid m w = (Raise NotModelled, w).
Proof. intros Hp. unfold Admin.in_session. by rewrite Hp. Qed.

(** Unfolding the steps on the session directory of a plain file id. *)
Ltac in_session Hp :=
  unfold Admin.open_wb, Admin.make_temp_dir, Admin.put_temp, Admin.read_temp,
    Admin.remove_chunks, Admin.rmdir_temp, Admin.in_session;
  match type of Hp with
  | Path.plain ?fid = true =>
      let E := fresh "E" in
      destruct (Path.plain fid) eqn:E; [clear Hp; rename E into Hp | congruence]
  end.

Section ChunkedUpload.
Context `{Normalizer}.

(** A token without record (or a store that is down) is answered with
    400 before anything is written. *)
Lemma upload_chunk_unknown_token (req : Admin.ChunkRequest) (w : World) :
  db_down w = true
  \/ Db.select_by_token (Admin.share_token req) (file_shares w) = None ->
  Admin.upload_chunk req w = (Ok Admin.Json400, w).
Proof.
  intros Hcase. unfold Admin.upload_chunk, try_except, bind.
  destruct (db_down w) eqn:Hd.
  - by rewrite get_down.
  - destruct Hcase as [? | Hsel]; [done |].
    rewrite get_up by done. by rewrite Hsel.
Qed.

(** A request whose index differs from the total: the chunk is
    written to the session directory and the answer is
    [{done: false}], whatever the two numbers are. *)
Lemma upload_chunk_pending (req : Admin.ChunkRequest) (w : World) (r : Db.Row) :
  db_down w = false ->
  Db.select_by_token (Admin.share_token req) (file_shares w) = Some r ->
  Path.plain (Admin.fileId req) = true ->
  Admin.chunkNumber req <> Admin.totalChunks req ->
  Admin.upload_chunk req w =
    (Ok (Admin.Json200 false None),
     set_staging
       (<[Admin.fileId req :=
            <[Admin.chunk_name (Admin.chunkNumber req) := Admin.chunk req]>
              (Admin.temp_dir (Admin.fileId req) w)]> (staging w)) w).
Proof.
  intros Hup Hsel Hplain Hne. unfold Admin.upload_chunk, try_except, bind.
  rewrite get_up by done. rewrite Hsel. simpl.
  in_session Hplain. unfold modify.
  rewrite (proj2 (Z.eqb_neq _ _) Hne). unfold ret.
  rewrite temp_dir_set_staging. simpl. by rewrite insert_insert_eq.
Qed.

End ChunkedUpload.

(** ** Chunk numbers out of range *)

(** C6, as the code has it. A request whose index exceeds the total, or
    whose total is not positive and differs from the index, is not
    refused: for a known token and a session id that is a plain name
    it is answered [{done: false}] with status 200 and its chunk is
    written to the session directory; no assembly takes place, upload
    folder and registry stay as they are. *)
Theorem chunk_index_is_not_validated `{Normalizer}
    (req : Admin.ChunkRequest) (w : World) (r : Db.Row) :
  db_down w = false ->
  Db.select_by_token (Admin.share_token req) (file_shares w) = Some r ->
  Path.plain (Admin.fileId req) = true ->
  Admin.totalChunks req < Admin.chunkNumber req
  \/ (Admin.totalChunks req <= 0
      /\ Admin.chunkNumber req <> Admin.totalChunks req) ->
  exists w',
    Admin.upload_chunk req w = (Ok (Admin.Json200 false None), w')
    /\ Admin.temp_dir (Admin.fileId req) w'
         !! Admin.chunk_name (Admin.chunkNumber req) = Some (Admin.chunk req)
    /\ uploads w' = uploads w
    /\ file_shares w' = file_shares w.
Proof.
  intros Hup Hsel Hplain Hrange.
  assert (Hne : Admin.chunkNumber req <> Admin.totalChunks req) by lia.
  eexists. split; [by apply (upload_chunk_pending req w r) |].
  rewrite temp_dir_set_staging, lookup_insert_eq. done.
Qed.

Lemma chunk_index_is_not_validated_witness :
  exists w',
    @Admin.upload_chunk ascii_names (Sample.req 5 2 "a.txt" "tokP" "late")
      Sample.pinned_world = (Ok (Admin.Json200 false None), w')
    /\ Admin.temp_dir "sess1" w' !! Admin.chunk_name 5 = Some (Sample.b "late").
Proof.
  destruct (@chunk_index_is_not_validated ascii_names
              (Sample.req 5 2 "a.txt" "tokP" "late") Sample.pinned_world
              (Sample.row "tokP" "" ["x.bin"] 0 Sample.hour))
    as (w' & Hrun & Hchunk & _).
  - reflexivity.
  - reflexivity.
  - reflexivity.
  - left. simpl. lia.
  - exists w'. split; [exact Hrun | exact Hchunk].
Defined.

(** C6, the claim at concrete requests. Chunk 5 of 2 is answered with
    status 200 and stored; chunk 0 of 0 sets off the assembly of an
    empty file, which is added to the share. No request is refused for
    its numbers. *)
Lemma out_of_range_chunk_accepted :
  let w5 := snd (@Admin.upload_chunk ascii_names
                   (Sample.req 5 2 "a.txt" "tokP" "late") Sample.pinned_world) in
  let w0 := snd (@Admin.upload_chunk ascii_names
                   (Sample.req 0 0 "a.txt" "tokP" "zero") Sample.pinned_world) in
  fst (@Admin.upload_chunk ascii_names
         (Sample.req 5 2 "a.txt" "tokP" "late") Sample.pinned_world)
  = Ok (Admin.Json200 false None)
  /\ Admin.temp_dir "sess1" w5 !! "chunk_00005" = Some (Sample.b "late")
  /\ fst (@Admin.upload_chunk ascii_names
            (Sample.req 0 0 "a.txt" "tokP" "zero") Sample.pinned_world)
     = Ok (Admin.Json200 true (Some "tokP"))
  /\ FileUtils.listing "tokP" w0 !! "a.txt" = Some []
  /\ map Db.files (file_shares w0) = [["x.bin"; "a.txt"]].
Proof. vm_compute. repeat split; reflexivity. Qed.

(** ** Name collisions *)

(** C5, evaluated on a share that already holds ["a.txt"]. The direct
    save stores two further files of that name as ["a_1.txt"] and
    ["a_2.txt"] and keeps the old content. The chunked upload moves the
    assembled file onto ["a.txt"]: the old content is gone and no
    suffixed name appears. *)
Theorem chunked_upload_overwrites_existing_name :
  let direct := @FileUtils.save_uploaded_files ascii_names
                  [("a.txt", Sample.b "new"); ("a.txt", Sample.b "newer")]
                  "tokT" Sample.taken_world in
  let chunked := @Admin.upload_chunk ascii_names
                   (Sample.req 1 1 "a.txt" "tokT" "new") Sample.taken_world in
  FileUtils.listing "tokT" Sample.taken_world !! "a.txt" = Some (Sample.b "old")
  /\ fst direct = Ok ["a_1.txt"; "a_2.txt"]
  /\ FileUtils.listing "tokT" (snd direct) !! "a.txt" = Some (Sample.b "old")
  /\ FileUtils.listing "tokT" (snd direct) !! "a_1.txt" = Some (Sample.b "new")
  /\ FileUtils.listing "tokT" (snd direct) !! "a_2.txt" = Some (Sample.b "newer")
  /\ fst chunked = Ok (Admin.Json200 true (Some "tokT"))
  /\ FileUtils.listing "tokT" (snd chunked) !! "a.txt" = Some (Sample.b "new")
  /\ FileUtils.listing "tokT" (snd chunked) !! "a_1.txt" = None
  /\ (map_to_list (FileUtils.listing "tokT" (snd chunked))).*1 = ["a.txt"].
Proof. vm_compute. repeat split; reflexivity. Qed.

(** ** Sanitised names *)










Section Sanitised.
Context `{Normalizer}.




End Sanitised.

(** ** The collision loop *)





Lemma candidate_inj (orig : string) (a b : Z) :
  0 <= a -> 0 <= b -> Rel.candidate orig a = Rel.candidate orig b -> a = b.
Proof.
  intros Ha Hb. unfold Rel.candidate.
  destruct (Py.splitext orig) as [name ext]. intros Hab.
  apply append_inv_head in Hab. apply append_inv_head in Hab.
  apply append_inv_tail in Hab. by apply str_inj_nonneg.
Qed.

Lemma free_name_step (fuel : nat) (dir : gmap string bytes)
    (orig fn : string) (c : Z) :
  FileUtils.free_name (S fuel) dir orig fn c =
    if bool_decide (is_Some (dir !! fn))
    then FileUtils.free_name fuel dir orig (Rel.candidate orig c) (c + 1)
    else Some fn.
Proof.
  simpl. unfold Rel.candidate. by destruct (Py.splitext orig).
Qed.

(** The name found is not taken; it is the wanted one or a later
    candidate. *)
Lemma free_name_Some (fuel : nat) (dir : gmap string bytes)
    (orig fn n : string) (c : Z) :
  FileUtils.free_name fuel dir orig fn c = Some n ->
  dir !! n = None /\ (n = fn \/ exists k, c <= k /\ n = Rel.candidate orig k).
Proof.
  revert fn c. induction fuel as [|fuel IH]; intros fn c; [done |].
  rewrite free_name_step. case_bool_decide as Hin.
  - intros Hf. apply IH in Hf as [Hfree [-> | (k & Hk & ->)]].
    + split; [done |]. right. exists c. split; [lia | done].
    + split; [done |]. right. exists k. split; [lia | done].
  - intros [= <-]. split; [| by left].
    destruct (dir !! fn) eqn:E; [| done]. exfalso. apply Hin. by eexists.
Qed.

(** The loop stops at the first free name: the wanted name and every
    candidate numbered below the chosen one are taken. *)
Lemma free_name_first (fuel : nat) (dir : gmap string bytes)
    (orig fn n : string) (c : Z) :
  FileUtils.free_name fuel dir orig fn c = Some n ->
  (n = fn /\ dir !! fn = None)
  \/ exists k, c <= k /\ n = Rel.candidate orig k
               /\ is_Some (dir !! fn)
               /\ forall j, c <= j < k -> is_Some (dir !! Rel.candidate orig j).
Proof.
  revert fn c. induction fuel as [|fuel IH]; intros fn c; [done |].
  rewrite free_name_step. case_bool_decide as Hin.
  - intros Hf. right. apply IH in Hf as [[-> Hfree] | (k & Hk & -> & Hc & Hlt)].
    + exists c. repeat split; try done; lia.
    + exists k. repeat split; try done; [lia |].
      intros j Hj. destruct (decide (j = c)) as [-> | Hne]; [done |].
      apply Hlt. lia.
  - intros [= <-]. left. split; [done |].
    destruct (dir !! fn) eqn:E; [| done]. exfalso. apply Hin. by eexists.
Qed.

(** A loop that used up its bound met a taken name at every round. *)
Lemma free_name_None (fuel : nat) (dir : gmap string bytes)
    (orig fn : string) (c : Z) :
  FileUtils.free_name fuel dir orig fn c = None ->
  forall j : nat, (S j < fuel)%nat ->
    is_Some (dir !! Rel.candidate orig (c + Z.of_nat j)).
Proof.
  assert (Hgen : forall fuel fn c,
            FileUtils.free_name fuel dir orig fn c = None ->
            ((0 < fuel)%nat -> is_Some (dir !! fn))
            /\ forall j : nat, (S j < fuel)%nat ->
                 is_Some (dir !! Rel.candidate orig (c + Z.of_nat j))).
  { clear. induction fuel as [|fuel IH]; intros fn c.
    - intros _. split; intros; lia.
    - rewrite free_name_step. case_bool_decide as Hin; [| done].
      intros Hf. apply IH in Hf as [Hhead Htail].
      split; [done |]. intros [|j] Hj.
      + replace (c + Z.of_nat 0) with c by lia. apply Hhead. lia.
      + replace (c + Z.of_nat (S j)) with (c + 1 + Z.of_nat j) by lia.
        apply Htail. lia. }
  intros Hf. by apply Hgen in Hf as [_ ?].
Qed.

(** The bound [size dir + 2] is never reached: the loop of
    [save_uploaded_files] ends with a name. *)
Lemma free_name_total (dir : gmap string bytes) (orig : string) :
  is_Some (FileUtils.free_name (size dir + 2) dir orig orig 1).
Proof.
  destruct (FileUtils.free_name _ _ _ _ _) eqn:Hf; [by eexists |].
  exfalso.
  pose proof (free_name_None _ _ _ _ _ Hf) as Htaken.
  set (l := map (fun j : nat => Rel.candidate orig (1 + Z.of_nat j))
                (seq 0 (S (size dir)))).
  assert (Hnd : NoDup l).
  { apply NoDup_fmap_2_strong; [| apply NoDup_seq].
    intros a b _ _ Hab. apply candidate_inj in Hab; lia. }
  assert (Hsub : list_to_set l ⊆ dom dir).
  { intros x Hx. apply elem_of_list_to_set in Hx.
    apply list_elem_of_fmap in Hx as (j & -> & Hj).
    apply elem_of_seq in Hj. apply elem_of_dom, Htaken. lia. }
  apply subseteq_size in Hsub.
  rewrite size_list_to_set, size_dom in Hsub by done.
  unfold l in Hsub. rewrite length_map, length_seq in Hsub. lia.
Qed.

(** ** The direct save *)



Lemma listing_set_uploads (tok : string) (d : gmap string bytes)
    (u : gmap string Entry) (w : World) :
  FileUtils.listing tok (set_uploads (<[tok := Directory d]> u) w) = d.
Proof. unfold FileUtils.listing. simpl. by rewrite lookup_insert_eq. Qed.



Section DirectSave.
Context `{Normalizer}.



End DirectSave.

(** ** What a computation leaves alone *)

Section Preserves.
Context {R : World -> World -> Prop}.
Hypothesis Rrefl : forall w, R w w.
Hypothesis Rtrans : forall a b c, R a b -> R b c -> R a c.

Lemma preserves_ret {A} (a : A) : Rel.preserves R (ret a).
Proof. intros w. apply Rrefl. Qed.

Lemma preserves_raise {A} (e : Exn) : Rel.preserves R (@raise World A e).
Proof. intros w. apply Rrefl. Qed.


Lemma preserves_unchanged {A} (m : M World A) :
  (forall w, snd (m w) = w) -> Rel.preserves R m.
Proof. intros Hm w. rewrite Hm. apply Rrefl. Qed.

Lemma preserves_bind_post {A B} (Q : A -> Prop) (m : M World A)
    (k : A -> M World B) :
  Rel.preserves R m ->
  (forall w a w1, m w = (Ok a, w1) -> Q a) ->
  (forall a, Q a -> Rel.preserves R (k a)) ->
  Rel.preserves R (bind m k).
Proof.
  intros Hm HQ Hk w. unfold bind. specialize (Hm w).
  destruct (m w) as [[a|e] w1] eqn:E; simpl in *; [| done].
  eapply Rtrans; [exact Hm |]. apply Hk. by eapply HQ.
Qed.

Lemma preserves_bind {A B} (m : M World A) (k : A -> M World B) :
  Rel.preserves R m -> (forall a, Rel.preserves R (k a)) ->
  Rel.preserves R (bind m k).
Proof.
  intros Hm Hk. apply (preserves_bind_post (fun _ => True)); auto.
Qed.

Lemma preserves_try_except {A} (m : M World A) (h : Exn -> M World A) :
  Rel.preserves R m -> (forall e, Rel.preserves R (h e)) ->
  Rel.preserves R (try_except m h).
Proof.
  intros Hm Hh w. unfold try_except. specialize (Hm w).
  destruct (m w) as [[a|e] w1] eqn:E; simpl in *; [done |].
  eapply Rtrans; [exact Hm |]. apply Hh.
Qed.

End Preserves.






(** The steps of [upload_chunk], one by one. *)

Lemma get_preserves (R : World -> World -> Prop) (tok : string) :
  (forall w, R w w) -> Rel.preserves R (FileShare.get tok).
Proof. intros Hr. apply preserves_unchanged; [done |]. apply get_world. Qed.












Section ChunkedFrame.
Context `{Normalizer}.




End ChunkedFrame.

(** ** Path traversal *)




(** ** The request that carries the last index *)

Lemma In_range1 (n i : Z) : In i (Py.range1 n) <-> 1 <= i <= n.
Proof.
  unfold Py.range1. rewrite in_map_iff. split.
  - intros (k & <- & Hk). apply in_seq in Hk. lia.
  - intros Hi. exists (Z.to_nat (i - 1)). split; [lia |].
    apply in_seq. lia.
Qed.

Lemma bind_raise {S A B} (m : M S A) (k : A -> M S B) (s s' : S) (e : Exn) :
  m s = (Raise e, s') -> bind m k s = (Raise e, s').
Proof. intros Hm. unfold bind. by rewrite Hm. Qed.

Lemma read_temp_plain (fid name : string) (w : World) :
  Path.plain fid = true ->
  Admin.read_temp fid name w
  = match Admin.temp_dir fid w !! name with
    | Some b => (Ok b, w)
    | None => (Raise FileNotFoundError, w)
    end.
Proof. intros Hp. unfold Admin.read_temp. by rewrite in_session_plain. Qed.

Lemma put_temp_plain (fid name : string) (c : bytes) (w : World) :
  Path.plain fid = true ->
  Admin.put_temp fid name c w
  = (Ok tt,
     set_staging (<[fid := <[name := c]> (Admin.temp_dir fid w)]> (staging w)) w).
Proof. intros Hp. unfold Admin.put_temp. by rewrite in_session_plain. Qed.

(** Reading the parts in turn appends them to the output file. *)
Lemma assemble_ok (fid sname : string) (c : Z -> bytes) (parts : list Z) :
  Path.plain fid = true ->
  forall (acc : bytes) (w : World),
    (forall i, In i parts -> sname <> Admin.chunk_name i) ->
    Admin.temp_dir fid w !! sname = Some acc ->
    (forall i, In i parts ->
       Admin.temp_dir fid w !! Admin.chunk_name i = Some (c i)) ->
    exists w',
      Admin.assemble fid sname parts w = (Ok tt, w')
      /\ Admin.temp_dir fid w' !! sname = Some (acc ++ concat (map c parts))
      /\ uploads w' = uploads w
      /\ file_shares w' = file_shares w
      /\ db_down w' = db_down w.
Proof.
  intros Hp.
  induction parts as [|i parts IH]; intros acc w Hne Hacc Hparts; simpl.
  - exists w. by rewrite app_nil_r.
  - assert (Hi : Admin.temp_dir fid w !! Admin.chunk_name i = Some (c i))
      by (apply Hparts; simpl; auto).
    rewrite (bind_ok _ _ w w (c i))
      by (rewrite read_temp_plain by done; by rewrite Hi).
    rewrite (bind_ok _ _ w w acc)
      by (rewrite read_temp_plain by done; by rewrite Hacc).
    erewrite (bind_ok _ _ w) by (by apply put_temp_plain).
    set (w1 := set_staging _ w).
    destruct (IH (acc ++ c i) w1) as (w' & Hrun & Hres & Hu & Hfs & Hd).
    + intros j Hj. apply Hne. simpl. auto.
    + unfold w1. rewrite temp_dir_set_staging. by rewrite lookup_insert_eq.
    + intros j Hj. unfold w1. rewrite temp_dir_set_staging.
      rewrite lookup_insert_ne by (apply Hne; simpl; auto).
      apply Hparts. simpl. auto.
    + exists w'. split; [done |]. split; [by rewrite Hres, <- app_assoc |].
      done.
Qed.

(** Reading a part that is not there ends the assembly; only the
    output file was written until then. *)
Lemma assemble_missing (fid sname : string) (i : Z) (parts : list Z) :
  Path.plain fid = true ->
  forall w : World,
    is_Some (Admin.temp_dir fid w !! sname) ->
    In i parts ->
    Admin.temp_dir fid w !! Admin.chunk_name i = None ->
    sname <> Admin.chunk_name i ->
    exists w',
      Admin.assemble fid sname parts w = (Raise FileNotFoundError, w')
      /\ uploads w' = uploads w
      /\ file_shares w' = file_shares w
      /\ (forall k, k <> sname ->
            Admin.temp_dir fid w' !! k = Admin.temp_dir fid w !! k).
Proof.
  intros Hp.
  induction parts as [|j parts IH]; intros w Hout Hin Hmiss Hne; [done |].
  simpl.
  destruct (Admin.temp_dir fid w !! Admin.chunk_name j) as [part|] eqn:Ej.
  - rewrite (bind_ok _ _ w w part)
      by (rewrite read_temp_plain by done; by rewrite Ej).
    destruct Hout as [sofar Hsofar].
    rewrite (bind_ok _ _ w w sofar)
      by (rewrite read_temp_plain by done; by rewrite Hsofar).
    erewrite (bind_ok _ _ w) by (by apply put_temp_plain).
    set (w1 := set_staging _ w).
    assert (Hd1 : Admin.temp_dir fid w1
                  = <[sname := sofar ++ part]> (Admin.temp_dir fid w))
      by (unfold w1; by rewrite temp_dir_set_staging).
    destruct (IH w1) as (w' & Hrun & Hu & Hfs & Hkeep).
    + rewrite Hd1, lookup_insert_eq. by eexists.
    + destruct Hin as [-> | Hin]; [congruence | done].
    + rewrite Hd1. by rewrite lookup_insert_ne.
    + done.
    + exists w'. split; [done |]. split; [done |]. split; [done |].
      intros k Hk. rewrite Hkeep by done.
      rewrite Hd1. by rewrite lookup_insert_ne.
  - exists w. split; [| done].
    apply bind_raise. rewrite read_temp_plain by done. by rewrite Ej.
Qed.

Lemma makedirs_ok (tok : string) (w : World) :
  (forall x, uploads w !! tok <> Some (RegularFile x)) ->
  exists w' d,
    Os.makedirs tok w = (Ok tt, w')
    /\ uploads w' !! tok = Some (Directory d)
    /\ staging w' = staging w
    /\ file_shares w' = file_shares w
    /\ db_down w' = db_down w.
Proof.
  intros Hnf. unfold Os.makedirs.
  destruct (uploads w !! tok) as [[x|d]|] eqn:E.
  - by destruct (Hnf x).
  - by exists w, d.
  - eexists _, ∅. split; [done |]. simpl. by rewrite lookup_insert_eq.
Qed.

Lemma move_to_uploads_ok (fid name tok : string) (blob : bytes)
    (d : gmap string bytes) (w : World) :
  Path.plain fid = true ->
  Admin.temp_dir fid w !! name = Some blob ->
  uploads w !! tok = Some (Directory d) ->
  exists w',
    Admin.move_to_uploads fid name tok w = (Ok tt, w')
    /\ FileUtils.listing tok w' !! name = Some blob
    /\ file_shares w' = file_shares w
    /\ db_down w' = db_down w.
Proof.
  intros Hp Hblob Hdir. unfold Admin.move_to_uploads.
  rewrite (bind_ok _ _ w w blob)
    by (rewrite read_temp_plain by done; by rewrite Hblob).
  rewrite in_session_plain by done.
  erewrite (bind_ok _ _ w) by reflexivity.
  unfold FileUtils.write_file. simpl. rewrite Hdir.
  eexists. split; [done |]. rewrite listing_set_uploads.
  by rewrite lookup_insert_eq.
Qed.

Lemma save_ok (share : FileShare.t) (e : Z) (w : World) :
  db_down w = false ->
  FileShare.expires_at share = Some e ->
  exists w',
    call share FileShare.save w = (Ok (tt, share), w')
    /\ uploads w' = uploads w.
Proof.
  intros Hup He. unfold call, FileShare.save. unfold_monad. simpl.
  rewrite Hup, He.
  destruct (Db.select_by_token _ _); by eexists.
Qed.

Section Completion.
Context `{Normalizer}.

(** The request whose index equals the total, arriving when the
    session directory holds every lower index: the parts are
    concatenated in index order, the file is moved into the token's
    directory and the answer is [{done: true, token}]. *)
Lemma upload_chunk_completes (req : Admin.ChunkRequest) (w : World)
    (r : Db.Row) (c : Z -> bytes) :
  let sname := Werkzeug.secure_filename (Admin.filename req) in
  let tok := Admin.share_token req in
  let n := Admin.totalChunks req in
  db_down w = false ->
  Db.select_by_token tok (file_shares w) = Some r ->
  (forall x, uploads w !! tok <> Some (RegularFile x)) ->
  Path.plain (Admin.fileId req) = true ->
  Py.truthy sname = true ->
  (forall i, 1 <= i <= n -> sname <> Admin.chunk_name i) ->
  Admin.chunkNumber req = n ->
  1 <= n ->
  (forall i, 1 <= i < n ->
     Admin.temp_dir (Admin.fileId req) w !! Admin.chunk_name i = Some (c i)) ->
  c n = Admin.chunk req ->
  exists w',
    Admin.upload_chunk req w = (Ok (Admin.Json200 true (Some tok)), w')
    /\ FileUtils.listing tok w' !! sname = Some (concat (map c (Py.range1 n))).
Proof.
  intros sname tok n Hup Hsel Hnf Hplain Ht Hne Hcn Hn Hchunks Hlast.
  assert (Htok : Db.token r = tok) by by apply select_by_token_token in Hsel.
  unfold Admin.upload_chunk, try_except.
  fold sname. fold tok. fold n.
  erewrite (bind_ok _ _ w)
    by (rewrite get_up by done; fold tok; by rewrite Hsel).
  unfold option_map. cbv beta iota zeta.
  in_session Hplain.
  erewrite (bind_ok _ _ w) by reflexivity.
  erewrite (bind_ok _ _ _) by reflexivity.
  rewrite Hcn. fold n. rewrite Z.eqb_refl.
  rewrite Ht.
  erewrite (bind_ok _ _ _) by reflexivity.
  match goal with
  | |- context [bind (Admin.assemble _ _ _) _ ?x] => set (w3 := x)
  end.
  assert (Hd3 : Admin.temp_dir (Admin.fileId req) w3
                = <[sname := []]>
                    (<[Admin.chunk_name n := Admin.chunk req]>
                       (Admin.temp_dir (Admin.fileId req) w))).
  { unfold w3. by rewrite !temp_dir_set_staging. }
  destruct (assemble_ok (Admin.fileId req) sname c (Py.range1 n) Hplain [] w3)
    as (w4 & Hasm & Hblob & Hu4 & Hfs4 & Hd4).
  { intros i Hi. apply Hne. by apply In_range1. }
  { rewrite Hd3. by rewrite lookup_insert_eq. }
  { intros i Hi. apply In_range1 in Hi. rewrite Hd3.
    rewrite lookup_insert_ne by (by apply Hne).
    destruct (decide (i = n)) as [-> | Hin].
    - by rewrite lookup_insert_eq, Hlast.
    - rewrite lookup_insert_ne.
      + apply Hchunks. lia.
      + intros E. apply chunk_name_inj in E; lia. }
  rewrite (bind_ok _ _ _ _ _ Hasm). simpl in Hblob.
  destruct (makedirs_ok tok w4) as (w5 & d & Hmk & Hdir & Hst5 & Hfs5 & Hd5).
  { intros x. rewrite Hu4. apply Hnf. }
  replace (FileShare.token (FileShare.of_row r)) with tok by done.
  rewrite (bind_ok _ _ _ _ _ Hmk).
  destruct (move_to_uploads_ok (Admin.fileId req) sname tok
              (concat (map c (Py.range1 n))) d w5 Hplain)
    as (w6 & Hmv & Hlist & Hfs6 & Hd6).
  { unfold Admin.temp_dir. rewrite Hst5. exact Hblob. }
  { exact Hdir. }
  rewrite (bind_ok _ _ _ _ _ Hmv).
  match goal with
  | |- context [call ?s FileShare.save] =>
      destruct (save_ok s (Db.expires_at r) w6) as (w7 & Hsave & Hu7)
  end.
  { rewrite Hd6, Hd5, Hd4. done. }
  { by destruct (Py.contains sname (FileShare.files (FileShare.of_row r))). }
  rewrite (bind_ok _ _ _ _ _ Hsave).
  erewrite (bind_ok _ _ _) by reflexivity.
  erewrite (bind_ok _ _ _) by reflexivity.
  unfold ret.
  eexists. split.
  - f_equal. f_equal. f_equal.
    destruct (Py.contains sname (FileShare.files (FileShare.of_row r)));
      simpl; by rewrite Htok.
  - unfold modify. simpl.
    destruct (bool_decide _); unfold FileUtils.listing in *; simpl;
      by rewrite Hu7.
Qed.

(** The request whose index equals the total, arriving while a lower
    index is missing from the session directory: the read of that part
    fails, the handler answers 500 and nothing reaches the upload
    folder or the registry. *)
Lemma upload_chunk_missing_part (req : Admin.ChunkRequest) (w : World)
    (r : Db.Row) (i : Z) :
  let sname := Werkzeug.secure_filename (Admin.filename req) in
  let fid := Admin.fileId req in
  let n := Admin.totalChunks req in
  db_down w = false ->
  Db.select_by_token (Admin.share_token req) (file_shares w) = Some r ->
  Path.plain fid = true ->
  Admin.chunkNumber req = n ->
  Py.truthy sname = true ->
  1 <= i < n ->
  Admin.temp_dir fid w !! Admin.chunk_name i = None ->
  sname <> Admin.chunk_name i ->
  exists w',
    Admin.upload_chunk req w = (Ok (Admin.Json500 FileNotFoundError), w')
    /\ uploads w' = uploads w
    /\ file_shares w' = file_shares w
    /\ (forall k, k <> sname ->
          Admin.temp_dir fid w' !! k
          = <[Admin.chunk_name n := Admin.chunk req]> (Admin.temp_dir fid w) !! k).
Proof.
  intros sname fid n Hup Hsel Hplain Hcn Ht Hi Hmiss Hne.
  unfold Admin.upload_chunk, try_except. fold sname. fold fid. fold n.
  erewrite (bind_ok _ _ w)
    by (rewrite get_up by done; by rewrite Hsel).
  unfold option_map. cbv beta iota zeta.
  in_session Hplain.
  erewrite (bind_ok _ _ w) by reflexivity.
  erewrite (bind_ok _ _ _) by reflexivity.
  rewrite Hcn. fold n. rewrite Z.eqb_refl.
  rewrite Ht.
  erewrite (bind_ok _ _ _) by reflexivity.
  match goal with
  | |- context [bind (Admin.assemble _ _ _) _ ?x] => set (w3 := x)
  end.
  assert (Hd3 : Admin.temp_dir fid w3
                = <[sname := []]>
                    (<[Admin.chunk_name n := Admin.chunk req]>
                       (Admin.temp_dir fid w))).
  { unfold w3. by rewrite !temp_dir_set_staging. }
  destruct (assemble_missing fid sname i (Py.range1 n) Hplain w3)
    as (w' & Hasm & Hu & Hr & Hkeep).
  - rewrite Hd3, lookup_insert_eq. by eexists.
  - apply In_range1. lia.
  - rewrite Hd3. rewrite lookup_insert_ne by done.
    rewrite lookup_insert_ne; [done |].
    intros E. apply chunk_name_inj in E; lia.
  - done.
  - rewrite (bind_raise _ _ _ _ _ Hasm). unfold ret.
    exists w'. split; [done |].
    split; [exact Hu |]. split; [exact Hr |].
    intros k Hk. rewrite Hkeep by done. rewrite Hd3.
    by rewrite lookup_insert_ne.
Qed.

End Completion.

(** C4, as the code has it. Completion is decided by the index of the
    request. For a known token and a session whose id is a plain name:
    a request whose index differs from the total is answered
    [{done: false}] and only adds its chunk to the session directory,
    whatever that directory holds then; a request whose index is the
    total is answered [{done: true, token}] exactly when the session
    directory holds every lower index, in whatever order and how often
    they arrived, and the file stored under the sanitised name is then
    the concatenation of the parts in index order; when a lower index
    is missing it is answered with the 500 of a file not found, and
    neither the upload folder nor the registry changes. *)
Theorem last_index_decides_completion `{Normalizer}
    (req : Admin.ChunkRequest) (w : World) (r : Db.Row) :
  let sname := Werkzeug.secure_filename (Admin.filename req) in
  let tok := Admin.share_token req in
  let fid := Admin.fileId req in
  let n := Admin.totalChunks req in
  let run := Admin.upload_chunk req w in
  let part k := if k =? n then Admin.chunk req
                else default [] (Admin.temp_dir fid w !! Admin.chunk_name k) in
  db_down w = false ->
  Db.select_by_token tok (file_shares w) = Some r ->
  (forall x, uploads w !! tok <> Some (RegularFile x)) ->
  Path.plain fid = true ->
  Py.truthy sname = true ->
  (forall k, 1 <= k <= n -> sname <> Admin.chunk_name k) ->
  1 <= n ->
  (Admin.chunkNumber req <> n ->
     fst run = Ok (Admin.Json200 false None)
     /\ uploads (snd run) = uploads w
     /\ file_shares (snd run) = file_shares w
     /\ Admin.temp_dir fid (snd run)
        = <[Admin.chunk_name (Admin.chunkNumber req) := Admin.chunk req]>
            (Admin.temp_dir fid w))
  /\ (Admin.chunkNumber req = n ->
      (forall k, 1 <= k < n ->
         is_Some (Admin.temp_dir fid w !! Admin.chunk_name k)) ->
      fst run = Ok (Admin.Json200 true (Some tok))
      /\ FileUtils.listing tok (snd run) !! sname
         = Some (concat (map part (Py.range1 n))))
  /\ (Admin.chunkNumber req = n ->
      forall k, 1 <= k < n ->
        Admin.temp_dir fid w !! Admin.chunk_name k = None ->
        fst run = Ok (Admin.Json500 FileNotFoundError)
        /\ uploads (snd run) = uploads w
        /\ file_shares (snd run) = file_shares w)
  /\ (fst run = Ok (Admin.Json200 true (Some tok)) <->
      Admin.chunkNumber req = n
      /\ forall k, 1 <= k < n ->
           is_Some (Admin.temp_dir fid w !! Admin.chunk_name k)).
Proof.
  intros sname tok fid n run part Hup Hsel Hnf Hplain Ht Hne Hn.
  assert (Hpending : Admin.chunkNumber req <> n ->
            fst run = Ok (Admin.Json200 false None)
            /\ uploads (snd run) = uploads w
            /\ file_shares (snd run) = file_shares w
            /\ Admin.temp_dir fid (snd run)
               = <[Admin.chunk_name (Admin.chunkNumber req) := Admin.chunk req]>
                   (Admin.temp_dir fid w)).
  { intros Hi. unfold run.
    rewrite (upload_chunk_pending req w r) by done. simpl.
    by rewrite temp_dir_set_staging. }
  assert (Hcomplete : Admin.chunkNumber req = n ->
            (forall k, 1 <= k < n ->
               is_Some (Admin.temp_dir fid w !! Admin.chunk_name k)) ->
            fst run = Ok (Admin.Json200 true (Some tok))
            /\ FileUtils.listing tok (snd run) !! sname
               = Some (concat (map part (Py.range1 n)))).
  { intros Hi Hall.
    destruct (upload_chunk_completes req w r part)
      as (w' & Hrun & Hblob); try done.
    - intros k Hk. unfold part.
      rewrite (proj2 (Z.eqb_neq k n)) by lia.
      destruct (Hall k Hk) as [x Hx]. by rewrite Hx.
    - unfold part. by rewrite Z.eqb_refl.
    - unfold run. by rewrite Hrun. }
  assert (Hmissing : Admin.chunkNumber req = n ->
            forall k, 1 <= k < n ->
              Admin.temp_dir fid w !! Admin.chunk_name k = None ->
              fst run = Ok (Admin.Json500 FileNotFoundError)
              /\ uploads (snd run) = uploads w
              /\ file_shares (snd run) = file_shares w).
  { intros Hi k Hk Hnone.
    destruct (upload_chunk_missing_part req w r k)
      as (w' & Hrun & Hu & Hfs & _); try done.
    - apply Hne. lia.
    - unfold run. by rewrite Hrun. }
  split; [exact Hpending |]. split; [exact Hcomplete |].
  split; [exact Hmissing |]. split.
  - intros Hdone.
    destruct (Z.eq_dec (Admin.chunkNumber req) n) as [Hi | Hi].
    + split; [exact Hi |]. intros k Hk.
      destruct (Admin.temp_dir fid w !! Admin.chunk_name k) eqn:Ek; [done |].
      destruct (Hmissing Hi k Hk Ek) as (Herr & _). congruence.
    + destruct (Hpending Hi) as (Hfalse & _). congruence.
  - intros [Hi Hall]. by apply Hcomplete.
Qed.

(** Chunks 2 and 1 of 3 have arrived, in that order; chunk 3 of 3
    completes the upload. *)
Lemma last_index_decides_completion_witness :
  let w21 := snd (@Admin.serve ascii_names
                    [Sample.req 2 3 "a.txt" "tokP" "cd";
                     Sample.req 1 3 "a.txt" "tokP" "ab"] Sample.pinned_world) in
  let run := @Admin.upload_chunk ascii_names
               (Sample.req 3 3 "a.txt" "tokP" "ef") w21 in
  fst run = Ok (Admin.Json200 true (Some "tokP"))
  /\ FileUtils.listing "tokP" (snd run) !! "a.txt" = Some (Sample.b "abcdef").
Proof.
  intros w21 run.
  destruct (@last_index_decides_completion ascii_names
              (Sample.req 3 3 "a.txt" "tokP" "ef") w21
              (Sample.row "tokP" "" ["x.bin"] 0 Sample.hour))
    as (_ & Hcomplete & _).
  - reflexivity.
  - reflexivity.
  - intros x. vm_compute. discriminate.
  - reflexivity.
  - reflexivity.
  - intros k _ E. vm_compute in E. discriminate.
  - simpl. lia.
  - destruct Hcomplete as [Hdone Hblob].
    + reflexivity.
    + intros k Hk. simpl in Hk.
      assert (Hcases : k = 1 \/ k = 2) by lia.
      destruct Hcases as [-> | ->]; vm_compute; by eexists.
    + split; [exact Hdone |]. vm_compute in Hblob. vm_compute. exact Hblob.
Defined.

(** C4, the claim on an arrival out of order. Chunk 2 of 2 comes
    first: the session directory lacks index 1, yet the answer is an
    error, not [{done: false}]. Chunk 1 of 2 follows: now the session
    directory holds indices 1 and 2, yet the answer is [{done: false}],
    no [{done: true}] is ever given and nothing is assembled. *)
Lemma out_of_order_upload_never_completes :
  let run := @Admin.serve ascii_names
               [Sample.req 2 2 "a.txt" "tokP" "cd";
                Sample.req 1 2 "a.txt" "tokP" "ab"] Sample.pinned_world in
  fst run = [Admin.Json500 FileNotFoundError; Admin.Json200 false None]
  /\ Admin.temp_dir "sess1" (snd run) !! Admin.chunk_name 1 = Some (Sample.b "ab")
  /\ Admin.temp_dir "sess1" (snd run) !! Admin.chunk_name 2 = Some (Sample.b "cd")
  /\ FileUtils.listing "tokP" (snd run) !! "a.txt" = None
  /\ uploads (snd run) = uploads Sample.pinned_world.
Proof. vm_compute. repeat split; reflexivity. Qed.

(** * Further properties of the registry *)

Lemma select_app_fresh (tok : string) (tbl : list Db.Row) (r : Db.Row) :
  Db.select_by_token tok tbl = None -> Db.token r = tok ->
  Db.select_by_token tok (tbl ++ [r]) = Some r.
Proof.
  unfold Db.select_by_token. intros Hnone Htok.
  induction tbl as [|x tbl IH]; simpl in *.
  - unfold Db.has_token. rewrite Htok. by rewrite String.eqb_refl.
  - destruct (Db.has_token tok x); [done |]. by apply IH.
Qed.

Lemma select_app_other (t : string) (tbl : list Db.Row) (r : Db.Row) :
  Db.token r <> t ->
  Db.select_by_token t (tbl ++ [r]) = Db.select_by_token t tbl.
Proof.
  unfold Db.select_by_token. intros Hne.
  induction tbl as [|x tbl IH]; simpl.
  - unfold Db.has_token. by rewrite (proj2 (String.eqb_neq _ _) Hne).
  - by destruct (Db.has_token t x).
Qed.

Lemma select_none_not_in (tok : string) (tbl : list Db.Row) :
  Db.select_by_token tok tbl = None -> ~ In tok (map Db.token tbl).
Proof.
  unfold Db.select_by_token. intros Hnone Hin.
  apply in_map_iff in Hin as (r & Hr & Hin).
  eapply find_none in Hnone; [| exact Hin].
  unfold Db.has_token in Hnone. rewrite Hr, String.eqb_refl in Hnone. done.
Qed.

Lemma select_update (tok t : string) (f : Db.Row -> Db.Row) (tbl : list Db.Row) :
  (forall r, Db.token (f r) = Db.token r) ->
  Db.select_by_token t (Db.update_where_token tok f tbl)
  = option_map (fun r => if Db.has_token tok r then f r else r)
               (Db.select_by_token t tbl).
Proof.
  intros Hf. unfold Db.select_by_token, Db.update_where_token.
  induction tbl as [|x tbl IH]; simpl; [done |].
  assert (Hx : Db.has_token t (if Db.has_token tok x then f x else x)
               = Db.has_token t x).
  { unfold Db.has_token. destruct (Db.token x =? tok)%string; [| done].
    by rewrite Hf. }
  rewrite Hx. by destruct (Db.has_token t x).
Qed.

Lemma tokens_update (tok : string) (f : Db.Row -> Db.Row) (tbl : list Db.Row) :
  (forall r, Db.token (f r) = Db.token r) ->
  map Db.token (Db.update_where_token tok f tbl) = map Db.token tbl.
Proof.
  intros Hf. unfold Db.update_where_token. rewrite map_map.
  apply map_ext. intros r. destruct (Db.has_token tok r); [apply Hf | done].
Qed.

Lemma tokens_delete (tok : string) (tbl : list Db.Row) :
  map Db.token (Db.delete_where_token tok tbl)
  = List.filter (fun t => negb (String.eqb t tok)) (map Db.token tbl).
Proof.
  unfold Db.delete_where_token, Db.has_token.
  induction tbl as [|r tbl IH]; simpl; [done |].
  destruct (Db.token r =? tok)%string; simpl; by rewrite IH.
Qed.

Lemma NoDup_List_filter {A} (f : A -> bool) (l : list A) :
  NoDup l -> NoDup (List.filter f l).
Proof.
  induction 1 as [|x l Hx Hnd IH]; simpl; [constructor |].
  destruct (f x); [| done]. constructor; [| done].
  rewrite list_elem_of_In, filter_In. intros [Hin _].
  by apply Hx, list_elem_of_In.
Qed.

(** X1. A share that was created is found again, with the fields it
    was created with, a creation time of now and an expiry of now plus
    the retention, recipient or not; no other token is affected. *)
Theorem create_then_get (tok recipient : string) (fs : list string)
    (now hours : Z) (w : World) :
  db_down w = false ->
  Db.select_by_token tok (file_shares w) = None ->
  let s := FileShare.mk tok recipient fs now
             (Some (now + FileShare.timedelta_hours hours)) false 0 [] in
  exists w',
    FileShare.create tok now recipient fs hours w = (Ok s, w')
    /\ FileShare.get tok w' = (Ok (Some s), w')
    /\ (forall t, t <> tok -> fst (FileShare.get t w') = fst (FileShare.get t w))
    /\ uploads w' = uploads w
    /\ staging w' = staging w.
Proof.
  intros Hup Hfree s.
  set (row := Db.mkRow tok recipient fs now
                (now + FileShare.timedelta_hours hours) false 0 [] None None None).
  exists (set_file_shares (file_shares w ++ [row]) w).
  assert (Hsel : Db.select_by_token tok (file_shares w ++ [row]) = Some row)
    by by apply select_app_fresh.
  split; [| split; [| split; [| done]]].
  - unfold FileShare.create. unfold_monad. rewrite Hup. simpl.
    rewrite Hfree. simpl. fold row. by rewrite Hsel.
  - rewrite get_up by done. simpl. by rewrite Hsel.
  - intros t Ht. rewrite !get_up by done. simpl.
    by rewrite select_app_other.
Qed.

Lemma create_then_get_witness :
  exists w',
    FileShare.create "tokN" 5 "" ["a"] 24 Sample.pinned_world
    = (Ok (FileShare.mk "tokN" "" ["a"] 5
             (Some (5 + FileShare.timedelta_hours 24)) false 0 []), w')
    /\ FileShare.get "tokN" w'
       = (Ok (Some (FileShare.mk "tokN" "" ["a"] 5
                      (Some (5 + FileShare.timedelta_hours 24)) false 0 [])), w').
Proof.
  destruct (create_then_get "tokN" "" ["a"] 5 24 Sample.pinned_world)
    as (w' & Hc & Hg & _); [reflexivity | reflexivity |].
  exists w'. split; [exact Hc | exact Hg].
Defined.

(** A token that is taken is refused and the table keeps its rows. *)
Lemma create_taken (tok recipient : string) (fs : list string)
    (now hours : Z) (w : World) (r : Db.Row) :
  db_down w = false ->
  Db.select_by_token tok (file_shares w) = Some r ->
  FileShare.create tok now recipient fs hours w = (Raise IntegrityError, w).
Proof.
  intros Hup Hsel. unfold FileShare.create. unfold_monad.
  rewrite Hup. simpl. by rewrite Hsel.
Qed.

(** X4. What [save] wrote is what [get] reads: files, download flag,
    count, expiry and downloaded files come from the object, recipient
    and creation time stay those of the row. Saving an object whose row
    is gone succeeds and stores nothing. *)
Theorem save_then_get (s : FileShare.t) (e : Z) (w : World) :
  db_down w = false ->
  FileShare.expires_at s = Some e ->
  exists w',
    FileShare.save (s, w) = (Ok tt, (s, w'))
    /\ uploads w' = uploads w
    /\ (forall r, Db.select_by_token (FileShare.token s) (file_shares w) = Some r ->
          FileShare.get (FileShare.token s) w'
          = (Ok (Some (FileShare.mk (FileShare.token s) (Db.recipient_email r)
                         (FileShare.files s) (Db.created_at r) (Some e)
                         (FileShare.downloaded s) (FileShare.download_count s)
                         (FileShare.downloaded_files s))), w'))
    /\ (Db.select_by_token (FileShare.token s) (file_shares w) = None -> w' = w)
    /\ (forall t, t <> FileShare.token s ->
          fst (FileShare.get t w') = fst (FileShare.get t w)).
Proof.
  intros Hup He. unfold FileShare.save. unfold_monad. simpl.
  rewrite Hup, He.
  destruct (Db.select_by_token (FileShare.token s) (file_shares w)) as [r|] eqn:Hsel.
  - eexists. split; [reflexivity |]. split; [done |].
    split; [| split; [done |]].
    + intros r0 [= <-]. rewrite get_up by done. simpl.
      rewrite select_update by done. rewrite Hsel. simpl.
      pose proof (select_by_token_token _ _ _ Hsel) as Ht.
      unfold Db.has_token. rewrite Ht, String.eqb_refl. simpl.
      done.
    + intros t Ht. rewrite !get_up by done. simpl.
      rewrite select_update by done.
      destruct (Db.select_by_token t (file_shares w)) as [x|] eqn:Hx; [| done].
      simpl. pose proof (select_by_token_token _ _ _ Hx) as Hxt.
      unfold Db.has_token. rewrite Hxt.
      by rewrite (proj2 (String.eqb_neq _ _) Ht).
  - exists w. repeat split; try done.
Qed.

Lemma save_then_get_witness :
  exists w',
    FileShare.save (FileShare.set_files ["x.bin"; "y.bin"] Sample.share_P,
                    Sample.pinned_world)
    = (Ok tt, (FileShare.set_files ["x.bin"; "y.bin"] Sample.share_P, w'))
    /\ FileShare.get "tokP" w'
       = (Ok (Some (FileShare.set_files ["x.bin"; "y.bin"] Sample.share_P)), w').
Proof.
  destruct (save_then_get (FileShare.set_files ["x.bin"; "y.bin"] Sample.share_P)
              Sample.hour Sample.pinned_world)
    as (w' & Hs & _ & Hg & _); [reflexivity | reflexivity |].
  exists w'. split; [exact Hs |].
  exact (Hg _ eq_refl).
Defined.

(** X3. Assigning a recipient starts the clock: object and row carry
    the recipient and an expiry of now plus the retention, and with a
    recipient that is not empty the share is expired exactly at the
    instants after that expiry. *)
Theorem set_recipient_starts_the_clock (now hours : Z) (recipient : string)
    (s : FileShare.t) (w : World) :
  db_down w = false ->
  let e := now + FileShare.timedelta_hours hours in
  let s' := FileShare.set_expires_at (Some e)
              (FileShare.set_recipient_email recipient s) in
  exists w',
    FileShare.set_recipient now recipient hours (s, w) = (Ok tt, (s', w'))
    /\ uploads w' = uploads w
    /\ (forall r, Db.select_by_token (FileShare.token s) (file_shares w) = Some r ->
          exists r',
            Db.select_by_token (FileShare.token s) (file_shares w') = Some r'
            /\ Db.recipient_email r' = recipient
            /\ Db.expires_at r' = e
            /\ Db.files r' = Db.files r
            /\ Db.created_at r' = Db.created_at r
            /\ Db.download_count r' = Db.download_count r
            /\ Db.downloaded_files r' = Db.downloaded_files r)
    /\ (recipient <> "" ->
        forall t, FileShare.is_expired t s' = true <-> e < t).
Proof.
  intros Hup e s'. unfold FileShare.set_recipient. unfold_monad. simpl.
  rewrite Hup. eexists. split; [reflexivity |]. split; [done |]. split.
  - intros r Hsel. simpl. rewrite select_update by done. rewrite Hsel. simpl.
    pose proof (select_by_token_token _ _ _ Hsel) as Ht.
    unfold Db.has_token. rewrite Ht, String.eqb_refl.
    eexists. split; [reflexivity |]. done.
  - intros Hr t. by apply with_recipient_expiry.
Qed.

Lemma set_recipient_starts_the_clock_witness :
  FileShare.is_expired (30 * Sample.hour)
    (FileShare.set_expires_at
       (Some (5 * Sample.hour + FileShare.timedelta_hours 24))
       (FileShare.set_recipient_email "ann@example.org" Sample.share_P)) = true.
Proof.
  destruct (set_recipient_starts_the_clock (5 * Sample.hour) 24
              "ann@example.org" Sample.share_P Sample.pinned_world)
    as (w' & _ & _ & _ & Hexp); [reflexivity |].
  apply Hexp; [discriminate | reflexivity].
Defined.

(** * Token uniqueness *)

Lemma keeps_unique_refl (w : World) : keeps_unique_tokens w w.
Proof. by intros ?. Qed.

Lemma keeps_unique_trans (a b c : World) :
  keeps_unique_tokens a b -> keeps_unique_tokens b c -> keeps_unique_tokens a c.
Proof. unfold keeps_unique_tokens. auto. Qed.

Lemma same_registry_refl (w : World) : Inv.same_registry w w.
Proof. done. Qed.

Lemma same_registry_trans (a b c : World) :
  Inv.same_registry a b -> Inv.same_registry b c -> Inv.same_registry a c.
Proof. unfold Inv.same_registry. congruence. Qed.

Lemma same_registry_keeps_unique {A} (m : M World A) :
  Rel.preserves Inv.same_registry m -> Rel.preserves keeps_unique_tokens m.
Proof.
  intros Hm w Hu. specialize (Hm w). unfold Inv.same_registry in Hm.
  unfold Inv.unique_tokens. by rewrite Hm.
Qed.

Ltac registry_untouched :=
  let w := fresh "w" in
  intros w; unfold Inv.same_registry; cbv beta delta
    [Os.exists_in_uploads Os.rmtree Os.makedirs Cleanup.isdir Cleanup.listdir
     FileUtils.write_file Admin.make_temp_dir Admin.put_temp Admin.read_temp
     Admin.open_wb Admin.remove_chunks Admin.rmdir_temp Admin.in_session
     Api.save_as gets modify ret raise];
  repeat case_match; reflexivity.

Lemma rmtree_registry (name : string) :
  Rel.preserves Inv.same_registry (Os.rmtree name).
Proof. registry_untouched. Qed.

Lemma makedirs_registry (name : string) :
  Rel.preserves Inv.same_registry (Os.makedirs name).
Proof. registry_untouched. Qed.

Lemma write_file_registry (tok name : string) (c : bytes) :
  Rel.preserves Inv.same_registry (FileUtils.write_file tok name c).
Proof. registry_untouched. Qed.

Lemma make_temp_dir_registry (fid : string) :
  Rel.preserves Inv.same_registry (Admin.make_temp_dir fid).
Proof. registry_untouched. Qed.

Lemma put_temp_registry (fid name : string) (c : bytes) :
  Rel.preserves Inv.same_registry (Admin.put_temp fid name c).
Proof. registry_untouched. Qed.

Lemma read_temp_registry (fid name : string) :
  Rel.preserves Inv.same_registry (Admin.read_temp fid name).
Proof. registry_untouched. Qed.

Lemma open_wb_registry (fid name : string) :
  Rel.preserves Inv.same_registry (Admin.open_wb fid name).
Proof. registry_untouched. Qed.

Lemma remove_chunks_registry (fid : string) (parts : list Z) :
  Rel.preserves Inv.same_registry (Admin.remove_chunks fid parts).
Proof. registry_untouched. Qed.

Lemma rmdir_temp_registry (fid : string) :
  Rel.preserves Inv.same_registry (Admin.rmdir_temp fid).
Proof. registry_untouched. Qed.

Lemma save_as_registry (tok name : string) (c : bytes) :
  Rel.preserves Inv.same_registry (Api.save_as tok name c).
Proof. registry_untouched. Qed.

Ltac registry_step :=
  apply preserves_bind; [apply same_registry_trans | | intros ?].

Lemma assemble_registry (fid name : string) (parts : list Z) :
  Rel.preserves Inv.same_registry (Admin.assemble fid name parts).
Proof.
  induction parts as [|i parts IH]; simpl.
  - apply preserves_ret, same_registry_refl.
  - registry_step; [apply read_temp_registry |].
    registry_step; [apply read_temp_registry |].
    registry_step; [apply put_temp_registry |]. exact IH.
Qed.

Lemma move_to_uploads_registry (fid name tok : string) :
  Rel.preserves Inv.same_registry (Admin.move_to_uploads fid name tok).
Proof.
  unfold Admin.move_to_uploads.
  registry_step; [apply read_temp_registry |].
  registry_step; [| apply write_file_registry].
  intros w. unfold Admin.in_session. by destruct (Path.plain fid).
Qed.

(** A method that only updates rows in place. *)
Lemma save_keeps_unique (share : FileShare.t) :
  Rel.preserves keeps_unique_tokens (call share FileShare.save).
Proof.
  intros w Hu. unfold call, FileShare.save. unfold_monad. simpl.
  destruct (db_down w); [done |].
  destruct (Db.select_by_token _ _); [| done].
  destruct (FileShare.expires_at share); [| done]. simpl.
  unfold Inv.unique_tokens. simpl. by rewrite tokens_update.
Qed.

Lemma create_keeps_unique (tok recipient : string) (fs : list string)
    (now hours : Z) :
  Rel.preserves keeps_unique_tokens (FileShare.create tok now recipient fs hours).
Proof.
  intros w Hu. unfold FileShare.create. unfold_monad.
  destruct (db_down w); [done |]. simpl.
  destruct (Db.select_by_token tok (file_shares w)) eqn:Hsel; simpl; [done |].
  assert (Hu' : Inv.unique_tokens
                  (set_file_shares
                     (file_shares w ++
                      [Db.mkRow tok recipient fs now
                         (now + FileShare.timedelta_hours hours)
                         false 0 [] None None None]) w)).
  { unfold Inv.unique_tokens. simpl. rewrite map_app. simpl.
    apply NoDup_app. split; [exact Hu |]. split; [| apply NoDup_singleton].
    intros x Hx Hx2. inversion Hx2 as [| ? ? ? Hnil]; subst;
      [| inversion Hnil].
    apply list_elem_of_In in Hx. by apply select_none_not_in in Hsel. }
  destruct (Db.select_by_token tok (_ ++ _)); simpl; exact Hu'.
Qed.

Lemma delete_by_token_keeps_unique (tok : string) :
  Rel.preserves keeps_unique_tokens (FileShare.delete_by_token tok).
Proof.
  intros w Hu. destruct (Path.plain tok) eqn:Hp;
    [| by rewrite delete_by_token_not_plain].
  rewrite delete_by_token_result by done.
  unfold Inv.unique_tokens in *.
  destruct (uploads w !! tok) as [[c|d]|]; simpl;
    repeat case_match; simpl; rewrite ?tokens_delete;
    first [exact Hu | by apply NoDup_List_filter].
Qed.

Ltac unique_step :=
  apply preserves_bind; [apply keeps_unique_trans | | intros ?].

Tactic Notation "unique_step" "as" ident(x) :=
  apply preserves_bind; [apply keeps_unique_trans | | intros x].

Ltac unique_untouched lem :=
  apply same_registry_keeps_unique, lem.

Lemma get_keeps_unique (tok : string) :
  Rel.preserves keeps_unique_tokens (FileShare.get tok).
Proof. apply get_preserves, keeps_unique_refl. Qed.

Section UniqueUpload.
Context `{Normalizer}.

Lemma upload_chunk_keeps_unique (req : Admin.ChunkRequest) :
  Rel.preserves keeps_unique_tokens (Admin.upload_chunk req).
Proof.
  pose proof keeps_unique_refl as Hr. pose proof keeps_unique_trans as Ht.
  unfold Admin.upload_chunk.
  apply preserves_try_except; [done | | intros e; destruct e;
     by first [apply preserves_ret | apply preserves_raise]].
  unique_step as share; [apply get_keeps_unique |].
  destruct share as [share|]; [| by apply preserves_ret].
  unique_step; [unique_untouched make_temp_dir_registry |].
  unique_step; [unique_untouched put_temp_registry |].
  destruct (_ =? _); [| by apply preserves_ret].
  unique_step; [unique_untouched open_wb_registry |].
  unique_step; [unique_untouched assemble_registry |].
  unique_step; [unique_untouched makedirs_registry |].
  unique_step; [unique_untouched move_to_uploads_registry |].
  unique_step; [apply save_keeps_unique |].
  unique_step; [unique_untouched remove_chunks_registry |].
  unique_step; [unique_untouched rmdir_temp_registry |].
  by apply preserves_ret.
Qed.

Lemma api_save_loop_registry (tok : string) (files : list (string * bytes)) :
  forall saved, Rel.preserves Inv.same_registry (Api.save_loop tok files saved).
Proof.
  induction files as [|f files IH]; intros saved; simpl.
  - apply preserves_ret, same_registry_refl.
  - destruct (negb (Py.truthy (fst f))); [apply IH |].
    registry_step; [apply save_as_registry | apply IH].
Qed.

Lemma upload_api_keeps_unique (hk ck : string) (files : list (string * bytes))
    (retention : Z) (tok : string) (now : Z) :
  Rel.preserves keeps_unique_tokens
    (Api.upload_api hk ck files retention tok now).
Proof.
  pose proof keeps_unique_refl as Hr.
  unfold Api.upload_api.
  destruct (_ || _); [by apply preserves_ret |].
  destruct (negb _); [by apply preserves_ret |].
  unique_step; [apply create_keeps_unique |].
  unique_step; [unique_untouched makedirs_registry |].
  unique_step; [unique_untouched api_save_loop_registry |].
  unique_step; [apply save_keeps_unique |].
  by apply preserves_ret.
Qed.

End UniqueUpload.

Lemma method_keeps_unique (m : M (FileShare.t * World) unit) :
  (forall s w, map Db.token (file_shares (snd (snd (m (s, w)))))
               = map Db.token (file_shares w)) ->
  forall s, Rel.preserves keeps_unique_tokens (call s m).
Proof.
  intros Hm s w Hu. specialize (Hm s w). unfold call.
  destruct (m (s, w)) as [[[]|e] [s' w']]; simpl in *;
    unfold Inv.unique_tokens; by rewrite Hm.
Qed.

Lemma mark_downloaded_tokens (now : Z) (s : FileShare.t) (w : World) :
  map Db.token (file_shares (snd (snd (FileShare.mark_downloaded now (s, w)))))
  = map Db.token (file_shares w).
Proof.
  unfold FileShare.mark_downloaded. unfold_monad. simpl.
  destruct (db_down w); [done |]. simpl. by rewrite tokens_update.
Qed.

Lemma mark_download_attempt_tokens (now : Z) (s : FileShare.t) (w : World) :
  map Db.token (file_shares (snd (snd (FileShare.mark_download_attempt now (s, w)))))
  = map Db.token (file_shares w).
Proof.
  unfold FileShare.mark_download_attempt. unfold_monad. simpl.
  destruct (db_down w); [done |]. simpl. by rewrite tokens_update.
Qed.

Lemma save_tokens (s : FileShare.t) (w : World) :
  map Db.token (file_shares (snd (snd (FileShare.save (s, w)))))
  = map Db.token (file_shares w).
Proof.
  unfold FileShare.save. unfold_monad. simpl.
  destruct (db_down w); [done |].
  destruct (Db.select_by_token _ _); [| done].
  destruct (FileShare.expires_at s); [| done]. simpl. by rewrite tokens_update.
Qed.

Lemma mark_file_downloaded_tokens (f : string) (s : FileShare.t) (w : World) :
  map Db.token (file_shares (snd (snd (FileShare.mark_file_downloaded f (s, w)))))
  = map Db.token (file_shares w).
Proof.
  unfold FileShare.mark_file_downloaded. unfold bind at 1. unfold gets. simpl.
  destruct (negb _); [| done].
  unfold bind, modify. simpl. apply save_tokens.
Qed.

Lemma set_recipient_tokens (now hours : Z) (rcp : string) (s : FileShare.t)
    (w : World) :
  map Db.token (file_shares (snd (snd (FileShare.set_recipient now rcp hours (s, w)))))
  = map Db.token (file_shares w).
Proof.
  unfold FileShare.set_recipient. unfold_monad. simpl.
  destruct (db_down w); [done |]. simpl. by rewrite tokens_update.
Qed.

Lemma static_cleanup_keeps_unique (auto : bool) (now : Z) :
  Rel.preserves keeps_unique_tokens (FileShare.cleanup_expired_files auto now).
Proof.
  pose proof keeps_unique_refl as Hr. pose proof keeps_unique_trans as Ht.
  unfold FileShare.cleanup_expired_files.
  destruct (negb auto); [by apply preserves_ret |].
  apply preserves_try_except; [done | | intros e; destruct e;
     by first [apply preserves_ret | apply preserves_raise]].
  unique_step; [by intros w; unfold Database.get_db_connection; case_match |].
  unique_step as toks; [by intros w |].
  generalize 0. induction toks as [|tok toks IH]; intros cnt; simpl.
  - by apply preserves_ret.
  - unique_step; [| apply IH].
    unfold FileShare.cleanup_one.
    apply preserves_try_except; [done | | intros e; destruct e;
     by first [apply preserves_ret | apply preserves_raise]].
    unique_step as present; [by intros w |].
    unique_step.
    { destruct present;
        [unique_untouched rmtree_registry | by apply preserves_ret]. }
    unique_step; [| by apply preserves_ret].
    intros w Hu. unfold Database.execute, modify, Inv.unique_tokens. simpl.
    rewrite tokens_delete. by apply NoDup_List_filter.
Qed.

(** X2. No operation on the registry makes two rows share a token:
    creation, deletion, the chunked and the external upload, both
    sweeps and every method that writes a row keep the tokens
    distinct, whether they return or raise. *)
Theorem tokens_stay_unique `{Normalizer} (w : World) :
  Inv.unique_tokens w ->
  (forall tok now rcp fs hours,
     Inv.unique_tokens (snd (FileShare.create tok now rcp fs hours w)))
  /\ (forall tok, Inv.unique_tokens (snd (FileShare.delete_by_token tok w)))
  /\ (forall req, Inv.unique_tokens (snd (Admin.upload_chunk req w)))
  /\ (forall hk ck files retention tok now,
        Inv.unique_tokens (snd (Api.upload_api hk ck files retention tok now w)))
  /\ (forall now, Inv.unique_tokens (snd (Cleanup.cleanup_expired_files now w)))
  /\ (forall auto now,
        Inv.unique_tokens (snd (FileShare.cleanup_expired_files auto now w)))
  /\ (forall s now rcp hours f,
        Inv.unique_tokens (snd (snd (FileShare.save (s, w))))
        /\ Inv.unique_tokens (snd (snd (FileShare.set_recipient now rcp hours (s, w))))
        /\ Inv.unique_tokens (snd (snd (FileShare.mark_downloaded now (s, w))))
        /\ Inv.unique_tokens (snd (snd (FileShare.mark_file_downloaded f (s, w))))
        /\ Inv.unique_tokens (snd (snd (FileShare.mark_download_attempt now (s, w))))).
Proof.
  intros Hu. repeat split; intros.
  - by apply create_keeps_unique.
  - by apply delete_by_token_keeps_unique.
  - by apply upload_chunk_keeps_unique.
  - by apply upload_api_keeps_unique.
  - destruct (cleanup_keeps_registry now w) as (k & w' & -> & Hfs).
    unfold Inv.unique_tokens in *. simpl. by rewrite Hfs.
  - by apply static_cleanup_keeps_unique.
  - unfold Inv.unique_tokens. by rewrite save_tokens.
  - unfold Inv.unique_tokens. by rewrite set_recipient_tokens.
  - unfold Inv.unique_tokens. by rewrite mark_downloaded_tokens.
  - unfold Inv.unique_tokens. by rewrite mark_file_downloaded_tokens.
  - unfold Inv.unique_tokens. by rewrite mark_download_attempt_tokens.
Qed.

Lemma tokens_stay_unique_witness :
  Inv.unique_tokens
    (snd (FileShare.create "tokA" 0 "" [] 24 Sample.sweep_world))
  /\ Inv.unique_tokens
       (snd (FileShare.delete_by_token "tokB" Sample.sweep_world)).
Proof.
  destruct (@tokens_stay_unique ascii_names Sample.sweep_world)
    as (Hc & Hd & _).
  - unfold Inv.unique_tokens. simpl.
    repeat (constructor; [rewrite list_elem_of_In; simpl; intuition discriminate |]).
    constructor.
  - split; [apply Hc | apply Hd].
Defined.

(** * Listings *)

(** X5. The expired listing against [is_expired]: every row whose share
    is expired is listed; every share listed has a recipient and an
    expiry before the end of the current second; and the objects it
    returns carry no downloaded files, whatever the row holds. *)
Theorem expired_listing_covers_expired (now : Z) (w : World) :
  db_down w = false ->
  exists l,
    FileShare.get_expired_shares now w = (Ok l, w)
    /\ (forall r, In r (file_shares w) ->
          FileShare.is_expired now (FileShare.of_row r) = true ->
          In (FileShare.of_row7 r) l)
    /\ (forall s, In s l ->
          FileShare.downloaded_files s = []
          /\ exists r, In r (file_shares w)
               /\ s = FileShare.of_row7 r
               /\ Db.recipient_email r <> ""
               /\ Db.expires_at r < now + 1000000).
Proof.
  intros Hup. unfold FileShare.get_expired_shares. unfold_monad.
  rewrite Hup. simpl. eexists. split; [reflexivity |]. split.
  - intros r Hin Hexp. apply in_map, filter_In. split; [done |].
    unfold FileShare.is_expired in Hexp. simpl in Hexp.
    unfold Db.where_expired, Db.datetime.
    destruct (Py.truthy (Db.recipient_email r)); [| done]. simpl in *.
    rewrite andb_true_r. apply Z.leb_le, Z.div_le_mono; [lia |].
    apply Z.gtb_lt in Hexp. lia.
  - intros s Hs. apply in_map_iff in Hs as (r & <- & Hr).
    apply filter_In in Hr as [Hin Hwhere]. split; [done |].
    exists r. split; [done |]. split; [done |].
    unfold Db.where_expired, Db.datetime in Hwhere.
    apply andb_true_iff in Hwhere as [Hle Hrcp]. split.
    + intros E. by rewrite E in Hrcp.
    + apply Z.leb_le in Hle.
      pose proof (Z.div_mod (Db.expires_at r) 1000000 ltac:(lia)).
      pose proof (Z.mod_pos_bound (Db.expires_at r) 1000000 ltac:(lia)).
      pose proof (Z.div_mod now 1000000 ltac:(lia)).
      pose proof (Z.mod_pos_bound now 1000000 ltac:(lia)).
      lia.
Qed.

Lemma expired_listing_covers_expired_witness :
  exists l,
    FileShare.get_expired_shares (25 * Sample.hour) Sample.sweep_world
    = (Ok l, Sample.sweep_world)
    /\ forall s, In s l -> FileShare.downloaded_files s = [].
Proof.
  destruct (expired_listing_covers_expired (25 * Sample.hour) Sample.sweep_world)
    as (l & Hrun & _ & Hsound); [reflexivity |].
  exists l. split; [exact Hrun |]. intros s Hs. by destruct (Hsound s Hs).
Defined.

Lemma length_insert_desc (r : Db.Row) (l : list Db.Row) :
  length (Db.insert_desc r l) = S (length l).
Proof.
  induction l as [|x l IH]; simpl; [done |].
  destruct (_ <=? _); simpl; by rewrite ?IH.
Qed.

Lemma length_order_by_created_desc (l : list Db.Row) :
  length (Db.order_by_created_desc l) = length l.
Proof.
  unfold Db.order_by_created_desc. induction l as [|x l IH]; simpl; [done |].
  by rewrite length_insert_desc, IH.
Qed.

Lemma concat_pages {A} (n p : nat) (l : list A) :
  concat (map (fun k => take n (drop (k * n) l)) (seq 0 p)) = take (p * n) l.
Proof.
  induction p as [|p IH]; [done |].
  rewrite seq_S, map_app, concat_app, IH. simpl. rewrite app_nil_r.
  rewrite take_take_drop. f_equal. lia.
Qed.


(** X6. Paging with a positive page size and the store up: every call
    returns a page with the number of rows as total and the rounded-up
    quotient as page count, no page holds more than the page size, and
    the pages 1 to the last, one after the other, are the whole
    registry in the order of the listing. A store that is down or a
    page size of zero ends in an exception, never in the empty page of
    the handler. *)
Theorem pages_cover_registry (per : Z) (w : World) :
  db_down w = false ->
  0 < per ->
  let T := Z.of_nat (length (file_shares w)) in
  let P := (T + per - 1) / per in
  (forall pg, exists p,
     Paging.get_all_paginated pg per w = Paging.Page p
     /\ Paging.page p = pg
     /\ Paging.total p = T
     /\ Paging.pages p = P
     /\ (Z.of_nat (length (Paging.items p)) <= per)
     /\ Paging.has_next p = (pg <? P)
     /\ Paging.has_prev p = (pg >? 1))
  /\ concat (map (fun k : nat => page_items (Z.of_nat k + 1) per w)
                 (seq 0 (Z.to_nat P)))
     = map FileShare.of_row (Db.order_by_created_desc (file_shares w))
  /\ (forall pg v, db_down v = true ->
        Paging.get_all_paginated pg per v = Paging.UnboundLocalError)
  /\ (forall pg, Paging.get_all_paginated pg 0 w = Paging.ZeroDivisionError).
Proof.
  intros Hup Hper T P.
  assert (Hper0 : (per =? 0) = false) by (apply Z.eqb_neq; lia).
  assert (Hlim : (per <? 0) = false) by (apply Z.ltb_ge; lia).
  split; [| split; [| split]].
  - intros pg. unfold Paging.get_all_paginated, Paging.init.
    rewrite Hup, Hper0. eexists. split; [reflexivity |]. simpl.
    repeat split; try done.
    unfold Paging.limit_offset. rewrite Hlim, length_map, length_take. lia.
  - assert (Hitems : forall k : nat,
              page_items (Z.of_nat k + 1) per w
              = map FileShare.of_row
                  (take (Z.to_nat per)
                     (drop (k * Z.to_nat per)
                        (Db.order_by_created_desc (file_shares w))))).
    { intros k. unfold page_items, Paging.get_all_paginated, Paging.init.
      rewrite Hup, Hper0. simpl. unfold Paging.limit_offset. rewrite Hlim.
      do 3 f_equal. lia. }
    rewrite (map_ext _ _ Hitems).
    rewrite <- (map_map (fun k => take (Z.to_nat per)
                                   (drop (k * Z.to_nat per)
                                      (Db.order_by_created_desc (file_shares w))))
                        (map FileShare.of_row)).
    rewrite <- concat_map. f_equal. rewrite concat_pages.
    apply take_ge. rewrite length_order_by_created_desc.
    pose proof (Z.div_mod (T + per - 1) per ltac:(lia)) as Hdm.
    pose proof (Z.mod_pos_bound (T + per - 1) per ltac:(lia)) as Hmb.
    fold P in Hdm.
    assert (0 <= P) by (apply Z.div_pos; lia).
    assert (T <= P * per) by lia.
    unfold T in *. nia.
  - intros pg v Hd. unfold Paging.get_all_paginated. by rewrite Hd.
  - intros pg. unfold Paging.get_all_paginated, Paging.init. by rewrite Hup.
Qed.

Lemma pages_cover_registry_witness :
  concat (map (fun k : nat => page_items (Z.of_nat k + 1) 2 Sample.sweep_world)
              (seq 0 2))
  = map FileShare.of_row
      (Db.order_by_created_desc (file_shares Sample.sweep_world)).
Proof.
  destruct (pages_cover_registry 2 Sample.sweep_world)
    as (_ & Hcover & _); [reflexivity | lia |].
  exact Hcover.
Defined.

(** * The sweeps, removals that fail included *)

Section Loop.
Variable step : string -> M World Z.
Variable loop : list string -> Z -> M World Z.
Variable decide : World -> string -> bool.

Hypothesis loop_nil : forall c, loop [] c = ret c.
Hypothesis loop_cons : forall a l c,
  loop (a :: l) c = bind (step a) (fun k => loop l (c + k)).
Hypothesis step_decides : forall w name,
  db_down w = false ->
  step name w = if decide w name
                then (Ok 1, set_uploads (delete name (uploads w)) w)
                else (Ok 0, w).
Hypothesis decide_stable : forall a name w,
  name <> a ->
  decide (set_uploads (delete a (uploads w)) w) name = decide w name.

(** A loop whose step removes the directory of its own name or does
    nothing, by a decision that looks at that name only. *)
Lemma loop_removes_decided (names : list string) :
  forall (cnt : Z) (w : World),
    NoDup names -> db_down w = false ->
    exists w',
      loop names cnt w
        = (Ok (cnt + Z.of_nat (length (List.filter (decide w) names))), w')
      /\ file_shares w' = file_shares w
      /\ staging w' = staging w
      /\ db_down w' = db_down w
      /\ rm_fails w' = rm_fails w
      /\ forall name,
           uploads w' !! name =
             if bool_decide (name ∈ names) && decide w name
             then None else uploads w !! name.
Proof.
  induction names as [|a names IH]; intros cnt w Hnd Hup.
  - exists w. rewrite loop_nil. unfold ret. simpl.
    split; [do 2 f_equal; lia |]. done.
  - apply NoDup_cons in Hnd as [Ha Hnd]. rewrite loop_cons.
    set (w1 := if decide w a
               then set_uploads (delete a (uploads w)) w else w).
    assert (Hone : step a w = (Ok (if decide w a then 1 else 0), w1)).
    { rewrite step_decides by done. unfold w1. by destruct (decide w a). }
    rewrite (bind_ok _ _ _ _ _ Hone).
    assert (Hw1 : db_down w1 = false /\ rm_fails w1 = rm_fails w
                  /\ file_shares w1 = file_shares w
                  /\ staging w1 = staging w
                  /\ (forall name, name <> a ->
                        uploads w1 !! name = uploads w !! name
                        /\ decide w1 name = decide w name)
                  /\ uploads w1 !! a
                     = if decide w a then None else uploads w !! a).
    { unfold w1. destruct (decide w a); simpl; repeat split; try done.
      - by rewrite lookup_delete_ne.
      - by apply decide_stable.
      - apply lookup_delete_eq. }
    destruct Hw1 as (Hup1 & Hrm1 & Hfs1 & Hst1 & Hother & Hself).
    destruct (IH (cnt + (if decide w a then 1 else 0)) w1 Hnd Hup1)
      as (w' & Hrun & Hfs' & Hst' & Hd' & Hrm' & Hlook).
    exists w'. split; [| repeat split; try congruence].
    + rewrite Hrun. do 2 f_equal.
      rewrite (filter_ext_in (decide w1) (decide w)).
      * simpl. destruct (decide w a); simpl; lia.
      * intros x Hx. apply Hother. intros ->. apply Ha.
        by apply list_elem_of_In.
    + intros name. rewrite Hlook.
      destruct (String.eq_dec name a) as [-> | Hne].
      * rewrite (bool_decide_eq_false_2 (a ∈ names)) by done.
        rewrite (bool_decide_eq_true_2 (a ∈ a :: names)) by (by left).
        simpl. exact Hself.
      * destruct (Hother name Hne) as [Hu He]. rewrite Hu, He.
        destruct (bool_decide (name ∈ names)) eqn:Eb.
        -- apply bool_decide_eq_true_1 in Eb.
           by rewrite (bool_decide_eq_true_2 (name ∈ a :: names)) by (by right).
        -- apply bool_decide_eq_false_1 in Eb.
           by rewrite (bool_decide_eq_false_2 (name ∈ a :: names))
             by (by intros [? | ?]%elem_of_cons).
Qed.

End Loop.

Lemma try_rmtree_directory (name : string) (d : gmap string bytes) (w : World) :
  uploads w !! name = Some (Directory d) ->
  Cleanup.try_rmtree name w =
    if Decide.stuck w name then (Ok 0, w)
    else (Ok 1, set_uploads (delete name (uploads w)) w).
Proof.
  intros Hd. unfold Cleanup.try_rmtree, Os.rmtree, Decide.stuck. unfold_monad.
  rewrite Hd. by destruct (bool_decide (name ∈ rm_fails w)).
Qed.

Lemma sweep_one_swept (now : Z) (name : string) (w : World) :
  db_down w = false ->
  Cleanup.sweep_one now name w =
    if Decide.swept now w name
    then (Ok 1, set_uploads (delete name (uploads w)) w)
    else (Ok 0, w).
Proof.
  intros Hup.
  unfold Cleanup.sweep_one, Cleanup.isdir, Decide.swept, Rel.evicted, bind, gets.
  destruct (uploads w !! name) as [[c|d]|] eqn:E; simpl; try done.
  rewrite get_up by done.
  destruct (Db.select_by_token name (file_shares w)) as [r|]; simpl.
  - destruct (FileShare.is_expired now (FileShare.of_row r)); simpl; [| done].
    rewrite (try_rmtree_directory name d) by done.
    by destruct (Decide.stuck w name).
  - rewrite (try_rmtree_directory name d) by done.
    by destruct (Decide.stuck w name).
Qed.

Lemma orphan_one_removed (name : string) (w : World) :
  db_down w = false ->
  Orphans.orphan_one name w =
    if Decide.orphan_removed w name
    then (Ok 1, set_uploads (delete name (uploads w)) w)
    else (Ok 0, w).
Proof.
  intros Hup.
  unfold Orphans.orphan_one, Cleanup.isdir, Decide.orphan_removed, bind, gets.
  destruct (uploads w !! name) as [[c|d]|] eqn:E; simpl; try done.
  rewrite get_up by done.
  destruct (Db.select_by_token name (file_shares w)) as [r|]; simpl; [done |].
  rewrite (try_rmtree_directory name d) by done.
  by destruct (Decide.stuck w name).
Qed.

Lemma listed_or_absent (w : World) (name : string) :
  name ∉ (map_to_list (uploads w)).*1 -> uploads w !! name = None.
Proof.
  intros Hn. destruct (uploads w !! name) as [e|] eqn:E; [| done].
  exfalso. apply Hn. apply list_elem_of_fmap. exists (name, e).
  split; [done |]. by apply elem_of_map_to_list.
Qed.

(** X7. One sweep with the store up, whatever removals fail. A
    directory is removed exactly when it has no record or an expired
    one and its removal succeeds; one whose removal fails stays and the
    sweep goes on; regular files, the registry and the staging area are
    never touched; the number returned is the number of directories
    removed. *)
Theorem sweep_removes_what_it_can (now : Z) (w : World) :
  db_down w = false ->
  exists w',
    Cleanup.cleanup_expired_files now w
      = (Ok (Z.of_nat (length (List.filter (Decide.swept now w)
                                 (map_to_list (uploads w)).*1))), w')
    /\ file_shares w' = file_shares w
    /\ staging w' = staging w
    /\ (forall name,
          uploads w' !! name =
            if Decide.swept now w name then None else uploads w !! name).
Proof.
  intros Hup. unfold Cleanup.cleanup_expired_files, Cleanup.listdir.
  erewrite (bind_ok _ _ w) by reflexivity.
  destruct (loop_removes_decided (Cleanup.sweep_one now) (Cleanup.sweep now)
              (Decide.swept now)
              ltac:(done) ltac:(done) (fun v n => sweep_one_swept now n v)
              ltac:(intros a name v Hne; unfold Decide.swept, Decide.stuck;
                    by rewrite evicted_after_delete)
              (map_to_list (uploads w)).*1 0 w)
    as (w' & Hrun & Hfs & Hst & _ & _ & Hlook);
    [apply NoDup_fst_map_to_list | done |].
  exists w'. split; [exact Hrun |]. split; [done |]. split; [done |].
  intros name. rewrite Hlook.
  destruct (bool_decide (name ∈ (map_to_list (uploads w)).*1)) eqn:Eb; [done |].
  apply bool_decide_eq_false_1, listed_or_absent in Eb. simpl.
  unfold Decide.swept, Rel.evicted. by rewrite Eb.
Qed.

Lemma sweep_removes_what_it_can_witness :
  exists w',
    Cleanup.cleanup_expired_files (25 * Sample.hour) Sample.sweep_world
    = (Ok 2, w')
    /\ file_shares w' = file_shares Sample.sweep_world.
Proof.
  destruct (sweep_removes_what_it_can (25 * Sample.hour) Sample.sweep_world)
    as (w' & Hrun & Hfs & _); [reflexivity |].
  exists w'. split; [exact Hrun | exact Hfs].
Defined.

Lemma world_eq (a b : World) :
  db_down a = db_down b -> file_shares a = file_shares b ->
  uploads a = uploads b -> staging a = staging b -> rm_fails a = rm_fails b ->
  a = b.
Proof. destruct a, b. simpl. by intros -> -> -> -> ->. Qed.

Lemma filter_none {A} (f : A -> bool) (l : list A) :
  (forall x, In x l -> f x = false) -> List.filter f l = [].
Proof.
  induction l as [|x l IH]; intros Hf; simpl; [done |].
  rewrite (Hf x) by (simpl; auto). apply IH. intros y Hy. apply Hf. simpl. auto.
Qed.

Lemma orphan_stable (a name : string) (w : World) :
  name <> a ->
  Decide.orphan_removed (set_uploads (delete a (uploads w)) w) name
  = Decide.orphan_removed w name.
Proof.
  intros Hne. unfold Decide.orphan_removed. simpl. by rewrite lookup_delete_ne.
Qed.

(** The loops with every field of the state accounted for. *)
Lemma sweep_state (now : Z) (w : World) :
  db_down w = false ->
  exists w',
    Cleanup.cleanup_expired_files now w
      = (Ok (Z.of_nat (length (List.filter (Decide.swept now w)
                                 (map_to_list (uploads w)).*1))), w')
    /\ file_shares w' = file_shares w /\ staging w' = staging w
    /\ db_down w' = db_down w /\ rm_fails w' = rm_fails w
    /\ (forall name,
          uploads w' !! name =
            if Decide.swept now w name then None else uploads w !! name).
Proof.
  intros Hup. unfold Cleanup.cleanup_expired_files, Cleanup.listdir.
  erewrite (bind_ok _ _ w) by reflexivity.
  destruct (loop_removes_decided (Cleanup.sweep_one now) (Cleanup.sweep now)
              (Decide.swept now)
              ltac:(done) ltac:(done) (fun v n => sweep_one_swept now n v)
              ltac:(intros a name v Hne; unfold Decide.swept, Decide.stuck;
                    by rewrite evicted_after_delete)
              (map_to_list (uploads w)).*1 0 w)
    as (w' & Hrun & Hfs & Hst & Hd & Hrm & Hlook);
    [apply NoDup_fst_map_to_list | done |].
  exists w'. split; [exact Hrun |]. repeat split; try done.
  intros name. rewrite Hlook.
  destruct (bool_decide (name ∈ (map_to_list (uploads w)).*1)) eqn:Eb; [done |].
  apply bool_decide_eq_false_1, listed_or_absent in Eb. simpl.
  unfold Decide.swept, Rel.evicted. by rewrite Eb.
Qed.

Lemma orphans_state (w : World) :
  db_down w = false ->
  exists w',
    Orphans.cleanup_orphaned_directories w
      = (Ok (Z.of_nat (length (List.filter (Decide.orphan_removed w)
                                 (map_to_list (uploads w)).*1))), w')
    /\ file_shares w' = file_shares w /\ staging w' = staging w
    /\ db_down w' = db_down w /\ rm_fails w' = rm_fails w
    /\ (forall name,
          uploads w' !! name =
            if Decide.orphan_removed w name then None else uploads w !! name).
Proof.
  intros Hup.
  unfold Orphans.cleanup_orphaned_directories, Cleanup.listdir, try_except.
  erewrite (bind_ok _ _ w) by reflexivity.
  destruct (loop_removes_decided Orphans.orphan_one Orphans.orphan_loop
              Decide.orphan_removed
              ltac:(done) ltac:(done) (fun v n => orphan_one_removed n v)
              orphan_stable
              (map_to_list (uploads w)).*1 0 w)
    as (w' & Hrun & Hfs & Hst & Hd & Hrm & Hlook);
    [apply NoDup_fst_map_to_list | done |].
  exists w'. rewrite Hrun. split; [done |]. repeat split; try done.
  intros name. rewrite Hlook.
  destruct (bool_decide (name ∈ (map_to_list (uploads w)).*1)) eqn:Eb; [done |].
  apply bool_decide_eq_false_1, listed_or_absent in Eb. simpl.
  unfold Decide.orphan_removed. by rewrite Eb.
Qed.

(** X8. The orphan sweep with the store up removes exactly the
    directories that have no record and whose removal succeeds. A
    directory that has a record stays, expired or not, and the registry
    is not touched. *)
Theorem orphan_sweep_spares_recorded (w : World) :
  db_down w = false ->
  exists w',
    Orphans.cleanup_orphaned_directories w
      = (Ok (Z.of_nat (length (List.filter (Decide.orphan_removed w)
                                 (map_to_list (uploads w)).*1))), w')
    /\ file_shares w' = file_shares w
    /\ (forall name,
          uploads w' !! name =
            if Decide.orphan_removed w name then None else uploads w !! name)
    /\ (forall name r,
          Db.select_by_token name (file_shares w) = Some r ->
          uploads w' !! name = uploads w !! name).
Proof.
  intros Hup.
  destruct (orphans_state w Hup) as (w' & Hrun & Hfs & _ & _ & _ & Hlook).
  exists w'. repeat split; try done.
  intros name r Hsel. rewrite Hlook. unfold Decide.orphan_removed.
  rewrite Hsel. by destruct (uploads w !! name) as [[?|?]|].
Qed.

Lemma orphan_sweep_spares_recorded_witness :
  exists w',
    Orphans.cleanup_orphaned_directories Sample.sweep_world = (Ok 1, w')
    /\ uploads w' !! "tokA" = uploads Sample.sweep_world !! "tokA".
Proof.
  destruct (orphan_sweep_spares_recorded Sample.sweep_world)
    as (w' & Hrun & _ & _ & Hkeep); [reflexivity |].
  exists w'. split; [exact Hrun |].
  apply (Hkeep "tokA" (Sample.row "tokA" "ann@example.org" ["report.pdf"] 0
                         (24 * Sample.hour))).
  reflexivity.
Defined.

(** X9. A sweep leaves nothing behind for the same instant: run again
    at once it removes nothing and returns 0, and so does the orphan
    sweep, the state staying as the first sweep left it. *)
Theorem sweep_twice_removes_nothing_more (now : Z) (w : World) :
  db_down w = false ->
  exists k w',
    Cleanup.cleanup_expired_files now w = (Ok k, w')
    /\ Cleanup.cleanup_expired_files now w' = (Ok 0, w')
    /\ Orphans.cleanup_orphaned_directories w' = (Ok 0, w').
Proof.
  intros Hup.
  destruct (sweep_state now w Hup) as (w' & Hrun & Hfs & Hst & Hd & Hrm & Hlook).
  assert (Hup' : db_down w' = false) by congruence.
  assert (Hnone : forall name, Decide.swept now w' name = false).
  { intros name. unfold Decide.swept, Decide.stuck, Rel.evicted.
    rewrite Hlook, Hfs, Hrm.
    destruct (Decide.swept now w name) eqn:Es; [done |].
    unfold Decide.swept, Decide.stuck, Rel.evicted in Es. exact Es. }
  assert (Hnone' : forall name, Decide.orphan_removed w' name = false).
  { intros name. specialize (Hnone name).
    unfold Decide.swept, Rel.evicted in Hnone. unfold Decide.orphan_removed.
    destruct (uploads w' !! name) as [[c|d]|]; try done.
    by destruct (Db.select_by_token name (file_shares w')). }
  eexists _, w'. split; [exact Hrun |]. split.
  - destruct (sweep_state now w' Hup')
      as (w2 & Hrun2 & Hfs2 & Hst2 & Hd2 & Hrm2 & Hlook2).
    rewrite Hrun2. rewrite filter_none by (intros; apply Hnone). simpl.
    f_equal. apply world_eq; try done.
    apply map_eq. intros name. by rewrite Hlook2, Hnone.
  - destruct (orphans_state w' Hup')
      as (w2 & Hrun2 & Hfs2 & Hst2 & Hd2 & Hrm2 & Hlook2).
    rewrite Hrun2. rewrite filter_none by (intros; apply Hnone'). simpl.
    f_equal. apply world_eq; try done.
    apply map_eq. intros name. by rewrite Hlook2, Hnone'.
Qed.

Lemma sweep_twice_removes_nothing_more_witness :
  exists k w',
    Cleanup.cleanup_expired_files (25 * Sample.hour) Sample.sweep_world
    = (Ok k, w')
    /\ Cleanup.cleanup_expired_files (25 * Sample.hour) w' = (Ok 0, w').
Proof.
  destruct (sweep_twice_removes_nothing_more (25 * Sample.hour)
              Sample.sweep_world) as (k & w' & H1 & H2 & _); [reflexivity |].
  exists k, w'. split; [exact H1 | exact H2].
Defined.

(** * The direct save, file by file *)

Section SaveShape.
Context `{Normalizer}.

Lemma save_one_shape (tok : string) (file : string * bytes)
    (d : gmap string bytes) (w : World) :
  uploads w !! tok = Some (Directory d) ->
  (accepted file = false /\ FileUtils.save_one tok file w = (Ok [], w))
  \/ (accepted file = true
      /\ exists n,
           first_free d (Werkzeug.secure_filename (fst file)) n
           /\ FileUtils.save_one tok file w
              = (Ok [n],
                 set_uploads (<[tok := Directory (<[n := snd file]> d)]>
                                (uploads w)) w)).
Proof.
  intros Hdir. unfold accepted, FileUtils.save_one.
  destruct (Py.truthy (fst file)); simpl; [| by left].
  destruct (Py.truthy (Werkzeug.secure_filename (fst file))); simpl; [| by left].
  right. split; [done |].
  assert (Hl : FileUtils.listing tok w = d)
    by (unfold FileUtils.listing; by rewrite Hdir).
  unfold bind, gets. rewrite Hl.
  destruct (free_name_total d (Werkzeug.secure_filename (fst file))) as [n Hn].
  rewrite Hn. exists n. split.
  - pose proof (free_name_Some _ _ _ _ _ _ Hn) as [Hfree _].
    split; [done |].
    apply free_name_first in Hn as [[-> _] | (k & Hk & -> & Htaken & Hlt)];
      [by left |].
    right. by exists k.
  - unfold FileUtils.write_file, ret. by rewrite Hdir.
Qed.

Lemma save_loop_shape (tok : string) (files : list (string * bytes)) :
  forall (acc : list string) (d : gmap string bytes) (w : World),
    uploads w !! tok = Some (Directory d) ->
    NoDup acc ->
    (forall n, n ∈ acc -> is_Some (d !! n)) ->
    exists new d' w',
      FileUtils.save_loop tok files acc w = (Ok (acc ++ new), w')
      /\ uploads w' !! tok = Some (Directory d')
      /\ NoDup (acc ++ new)
      /\ (forall n, n ∈ acc ++ new -> is_Some (d' !! n))
      /\ length new = length (List.filter accepted files).
Proof.
  induction files as [|file files IH]; intros acc d w Hdir Hnd Hin; simpl.
  - exists [], d, w. rewrite app_nil_r. done.
  - unfold bind.
    destruct (save_one_shape tok file d w Hdir)
      as [[Hacc ->] | (Hacc & n & [Hfree _] & ->)]; rewrite Hacc.
    + rewrite app_nil_r. by apply (IH acc d w).
    + set (d1 := <[n := snd file]> d).
      destruct (IH (acc ++ [n]) d1
                  (set_uploads (<[tok := Directory d1]> (uploads w)) w))
        as (new & d' & w' & Hrun & Hdir' & Hnd' & Hin' & Hlen).
      * simpl. by rewrite lookup_insert_eq.
      * apply NoDup_app. split; [done |]. split; [| apply NoDup_singleton].
        intros x Hx Hx2. inversion Hx2 as [| ? ? ? Hnil]; subst;
          [| inversion Hnil].
        apply Hin in Hx as [c Hc]. congruence.
      * intros x Hx. unfold d1. apply elem_of_app in Hx as [Hx | Hx].
        -- destruct (String.eq_dec n x) as [-> | Hne].
           ++ rewrite lookup_insert_eq. by eexists.
           ++ rewrite lookup_insert_ne by done. by apply Hin.
        -- inversion Hx as [| ? ? ? Hnil]; subst; [| inversion Hnil].
           rewrite lookup_insert_eq. by eexists.
      * exists (n :: new), d', w'. rewrite Hrun.
        replace (acc ++ n :: new) with ((acc ++ [n]) ++ new)
          by (by rewrite <- app_assoc).
        repeat split; try done. simpl. by rewrite Hlen.
Qed.

End SaveShape.

(** X10. The direct save of one file into a token's directory stores
    it under the sanitised name when that is free, and else under the
    candidate with the least number that is free; the directory gains
    that one file and nothing else changes. *)
Theorem save_picks_first_free_name `{Normalizer} (raw : string)
    (content : bytes) (tok : string) (d : gmap string bytes) (w : World) :
  uploads w !! tok = Some (Directory d) ->
  accepted (raw, content) = true ->
  exists n,
    first_free d (Werkzeug.secure_filename raw) n
    /\ FileUtils.save_uploaded_files [(raw, content)] tok w
       = (Ok [n],
          set_uploads (<[tok := Directory (<[n := content]> d)]> (uploads w)) w).
Proof.
  intros Hdir Hacc. unfold FileUtils.save_uploaded_files.
  rewrite (bind_ok _ _ w w tt) by (unfold Os.makedirs; by rewrite Hdir).
  simpl. unfold bind.
  destruct (save_one_shape tok (raw, content) d w Hdir)
    as [[Hno _] | (_ & n & Hfirst & ->)]; [congruence |].
  exists n. by split.
Qed.

Lemma save_picks_first_free_name_witness :
  exists n,
    first_free {["a.txt" := Sample.b "old"]} "a.txt" n
    /\ fst (@FileUtils.save_uploaded_files ascii_names
              [("a.txt", Sample.b "new")] "tokT" Sample.taken_world) = Ok [n].
Proof.
  destruct (@save_picks_first_free_name ascii_names "a.txt" (Sample.b "new")
              "tokT" {["a.txt" := Sample.b "old"]} Sample.taken_world)
    as (n & Hfirst & Hrun); [reflexivity | reflexivity |].
  exists n. split; [exact Hfirst |]. by rewrite Hrun.
Defined.

(** X11. A direct save into a token whose path is not a regular file
    always returns; the names it reports are pairwise distinct, all
    present in the directory afterwards, and as many as the submitted
    files that have a name which does not sanitise to nothing. *)
Theorem saved_names_are_distinct `{Normalizer}
    (files : list (string * bytes)) (tok : string) (w : World) :
  (forall c, uploads w !! tok <> Some (RegularFile c)) ->
  exists saved w',
    FileUtils.save_uploaded_files files tok w = (Ok saved, w')
    /\ NoDup saved
    /\ (forall n, n ∈ saved -> is_Some (FileUtils.listing tok w' !! n))
    /\ length saved = length (List.filter accepted files).
Proof.
  intros Hnf. unfold FileUtils.save_uploaded_files.
  destruct (makedirs_ok tok w Hnf) as (w1 & d & Hmk & Hdir & _).
  rewrite (bind_ok _ _ _ _ _ Hmk).
  destruct (save_loop_shape tok files [] d w1 Hdir)
    as (new & d' & w' & Hrun & Hdir' & Hnd & Hin & Hlen).
  - constructor.
  - intros n Hn. inversion Hn.
  - exists new, w'. simpl in *. split; [done |]. split; [done |].
    split; [| done]. intros n Hn. unfold FileUtils.listing. rewrite Hdir'.
    by apply Hin.
Qed.

Lemma saved_names_are_distinct_witness :
  exists saved w',
    @FileUtils.save_uploaded_files ascii_names
      [("a.txt", Sample.b "1"); ("..", Sample.b "2"); ("a.txt", Sample.b "3")]
      "tokT" Sample.taken_world = (Ok saved, w')
    /\ NoDup saved /\ length saved = 2%nat.
Proof.
  destruct (@saved_names_are_distinct ascii_names
              [("a.txt", Sample.b "1"); ("..", Sample.b "2"); ("a.txt", Sample.b "3")]
              "tokT" Sample.taken_world)
    as (saved & w' & Hrun & Hnd & _ & Hlen).
  - intros c. vm_compute. discriminate.
  - exists saved, w'. split; [exact Hrun |]. split; [exact Hnd | exact Hlen].
Defined.

(** * The chunked upload: refusals, redelivery, missing parts *)

(** X12. A chunk for a token that has no record, or sent while the
    store is down, is answered with 400 before anything is written:
    the state is the same, staging included. *)
Theorem chunk_for_unknown_token_is_refused `{Normalizer}
    (req : Admin.ChunkRequest) (w : World) :
  db_down w = true
  \/ Db.select_by_token (Admin.share_token req) (file_shares w) = None ->
  Admin.upload_chunk req w = (Ok Admin.Json400, w).
Proof.
  intros Hcase. unfold Admin.upload_chunk, try_except.
  assert (Hget : FileShare.get (Admin.share_token req) w = (Ok None, w)).
  { destruct (db_down w) eqn:Hd; [by apply get_down |].
    destruct Hcase as [? | Hsel]; [done |].
    rewrite get_up by done. by rewrite Hsel. }
  by rewrite (bind_ok _ _ _ _ _ Hget).
Qed.

Lemma chunk_for_unknown_token_is_refused_witness :
  @Admin.upload_chunk ascii_names (Sample.req 1 3 "a.txt" "nobody" "ab")
    Sample.pinned_world = (Ok Admin.Json400, Sample.pinned_world).
Proof.
  apply (@chunk_for_unknown_token_is_refused ascii_names).
  right. reflexivity.
Defined.

(** X13. Delivering a pending chunk again, with the same or other
    bytes, in a session whose id is a plain name, is answered
    [{done: false}] both times and leaves the state that the second
    delivery alone would leave: the last bytes win. *)
Theorem redelivered_chunk_overwrites `{Normalizer}
    (q1 q2 : Admin.ChunkRequest) (w : World) (r : Db.Row) :
  db_down w = false ->
  Db.select_by_token (Admin.share_token q1) (file_shares w) = Some r ->
  Path.plain (Admin.fileId q1) = true ->
  Admin.share_token q2 = Admin.share_token q1 ->
  Admin.fileId q2 = Admin.fileId q1 ->
  Admin.chunkNumber q2 = Admin.chunkNumber q1 ->
  Admin.chunkNumber q1 <> Admin.totalChunks q1 ->
  Admin.chunkNumber q2 <> Admin.totalChunks q2 ->
  Admin.serve [q1; q2] w
  = ([Admin.Json200 false None; Admin.Json200 false None],
     snd (Admin.upload_chunk q2 w))
  /\ Admin.temp_dir (Admin.fileId q1) (snd (Admin.serve [q1; q2] w))
       !! Admin.chunk_name (Admin.chunkNumber q1) = Some (Admin.chunk q2).
Proof.
  intros Hup Hsel Hplain Htok Hfid Hnum Hp1 Hp2.
  assert (Hplain2 : Path.plain (Admin.fileId q2) = true) by by rewrite Hfid.
  assert (Hrun : Admin.serve [q1; q2] w
                 = ([Admin.Json200 false None; Admin.Json200 false None],
                    snd (Admin.upload_chunk q2 w))).
  { simpl. rewrite (upload_chunk_pending q1 w r) by done.
    rewrite (upload_chunk_pending q2 _ r) by (by rewrite ?Htok).
    rewrite (upload_chunk_pending q2 w r) by (by rewrite ?Htok).
    simpl. rewrite Hfid, Hnum, temp_dir_set_staging.
    by rewrite !insert_insert_eq. }
  split; [exact Hrun |]. rewrite Hrun. simpl.
  rewrite (upload_chunk_pending q2 w r) by (by rewrite ?Htok). simpl.
  rewrite Hfid, Hnum, temp_dir_set_staging. by rewrite lookup_insert_eq.
Qed.

Lemma redelivered_chunk_overwrites_witness :
  Admin.temp_dir "sess1"
    (snd (@Admin.serve ascii_names
            [Sample.req 1 3 "a.txt" "tokP" "first";
             Sample.req 1 3 "a.txt" "tokP" "again"] Sample.pinned_world))
    !! Admin.chunk_name 1 = Some (Sample.b "again").
Proof.
  apply (@redelivered_chunk_overwrites ascii_names
           (Sample.req 1 3 "a.txt" "tokP" "first")
           (Sample.req 1 3 "a.txt" "tokP" "again")
           Sample.pinned_world (Sample.row "tokP" "" ["x.bin"] 0 Sample.hour));
    try reflexivity; simpl; lia.
Defined.

(** X14. The request with the last index arriving, in a session
    whose id is a plain name, while a lower index is missing from the
    session directory: the answer is the 500 of a file not found,
    nothing reaches the upload folder or the registry, and apart from
    the output file the session directory holds what it held, with the
    chunk just received. *)
Theorem missing_part_fails_without_damage `{Normalizer}
    (req : Admin.ChunkRequest) (w : World) (r : Db.Row) (i : Z) :
  let sname := Werkzeug.secure_filename (Admin.filename req) in
  let fid := Admin.fileId req in
  let n := Admin.totalChunks req in
  db_down w = false ->
  Db.select_by_token (Admin.share_token req) (file_shares w) = Some r ->
  Path.plain fid = true ->
  Admin.chunkNumber req = n ->
  Py.truthy sname = true ->
  1 <= i < n ->
  Admin.temp_dir fid w !! Admin.chunk_name i = None ->
  sname <> Admin.chunk_name i ->
  exists w',
    Admin.upload_chunk req w = (Ok (Admin.Json500 FileNotFoundError), w')
    /\ uploads w' = uploads w
    /\ file_shares w' = file_shares w
    /\ (forall k, k <> sname ->
          Admin.temp_dir fid w' !! k
          = <[Admin.chunk_name n := Admin.chunk req]> (Admin.temp_dir fid w) !! k).
Proof. exact (upload_chunk_missing_part req w r i). Qed.

Lemma missing_part_fails_without_damage_witness :
  exists w',
    @Admin.upload_chunk ascii_names (Sample.req 2 2 "a.txt" "tokP" "cd")
      Sample.pinned_world = (Ok (Admin.Json500 FileNotFoundError), w')
    /\ uploads w' = uploads Sample.pinned_world.
Proof.
  destruct (@missing_part_fails_without_damage ascii_names
              (Sample.req 2 2 "a.txt" "tokP" "cd") Sample.pinned_world
              (Sample.row "tokP" "" ["x.bin"] 0 Sample.hour) 1)
    as (w' & Hrun & Hu & _); try reflexivity.
  - simpl. lia.
  - intros E. vm_compute in E. discriminate.
  - exists w'. split; [exact Hrun | exact Hu].
Defined.

(** * The chunked upload: what completion leaves behind *)

Lemma assemble_state (fid sname : string) (c : Z -> bytes) (parts : list Z) :
  Path.plain fid = true ->
  forall (acc : bytes) (w : World),
    (forall i, In i parts -> sname <> Admin.chunk_name i) ->
    Admin.temp_dir fid w !! sname = Some acc ->
    (forall i, In i parts ->
       Admin.temp_dir fid w !! Admin.chunk_name i = Some (c i)) ->
    exists w',
      Admin.assemble fid sname parts w = (Ok tt, w')
      /\ Admin.temp_dir fid w'
         = <[sname := acc ++ concat (map c parts)]> (Admin.temp_dir fid w)
      /\ (forall g, g <> fid -> staging w' !! g = staging w !! g)
      /\ uploads w' = uploads w
      /\ file_shares w' = file_shares w
      /\ db_down w' = db_down w.
Proof.
  intros Hp.
  induction parts as [|i parts IH]; intros acc w Hne Hacc Hparts; simpl.
  - exists w. rewrite app_nil_r. split; [done |].
    split; [by rewrite insert_id |]. done.
  - assert (Hi : Admin.temp_dir fid w !! Admin.chunk_name i = Some (c i))
      by (apply Hparts; simpl; auto).
    rewrite (bind_ok _ _ w w (c i))
      by (rewrite read_temp_plain by done; by rewrite Hi).
    rewrite (bind_ok _ _ w w acc)
      by (rewrite read_temp_plain by done; by rewrite Hacc).
    erewrite (bind_ok _ _ w) by (by apply put_temp_plain).
    set (w1 := set_staging _ w).
    assert (Hd1 : Admin.temp_dir fid w1
                  = <[sname := acc ++ c i]> (Admin.temp_dir fid w))
      by (unfold w1; by rewrite temp_dir_set_staging).
    destruct (IH (acc ++ c i) w1) as (w' & Hrun & Hd & Hst & Hu & Hfs & Hdb).
    + intros j Hj. apply Hne. simpl. auto.
    + rewrite Hd1. by rewrite lookup_insert_eq.
    + intros j Hj. rewrite Hd1.
      rewrite lookup_insert_ne by (apply Hne; simpl; auto).
      apply Hparts. simpl. auto.
    + exists w'. split; [done |]. split.
      * rewrite Hd, Hd1, insert_insert_eq. by rewrite <- app_assoc.
      * split; [| done]. intros g Hg. rewrite Hst by done.
        unfold w1. simpl. by rewrite lookup_insert_ne.
Qed.

Lemma lookup_remove_chunks (d : gmap string bytes) (parts : list Z) (k : string) :
  foldr (fun i d => delete (Admin.chunk_name i) d) d parts !! k
  = if bool_decide (k ∈ map Admin.chunk_name parts) then None else d !! k.
Proof.
  induction parts as [|i parts IH].
  - case_bool_decide as Hk; [by apply elem_of_nil in Hk | done].
  - cbn [foldr map].
    destruct (String.eq_dec (Admin.chunk_name i) k) as [<- | Hne].
    + rewrite lookup_delete_eq. clear IH.
      case_bool_decide as Hk; [done |]. exfalso. apply Hk. by left.
    + rewrite lookup_delete_ne by done. rewrite IH.
      repeat case_bool_decide; try done.
      * exfalso. match goal with Hn : ~ _ |- _ => apply Hn end. by right.
      * match goal with Hc : _ ∈ _ :: _ |- _ =>
          apply elem_of_cons in Hc; destruct Hc as [Hc | Hc] end;
          [by subst | done].
Qed.

Lemma move_to_uploads_state (fid name tok : string) (blob : bytes)
    (d : gmap string bytes) (w : World) :
  Path.plain fid = true ->
  Admin.temp_dir fid w !! name = Some blob ->
  uploads w !! tok = Some (Directory d) ->
  Admin.move_to_uploads fid name tok w
  = (Ok tt,
     set_uploads (<[tok := Directory (<[name := blob]> d)]> (uploads w))
       (set_staging
          (<[fid := delete name (Admin.temp_dir fid w)]> (staging w)) w)).
Proof.
  intros Hp Hblob Hdir. unfold Admin.move_to_uploads.
  rewrite (bind_ok _ _ w w blob)
    by (rewrite read_temp_plain by done; by rewrite Hblob).
  rewrite in_session_plain by done.
  erewrite (bind_ok _ _ w) by reflexivity.
  unfold FileUtils.write_file. simpl. by rewrite Hdir.
Qed.

Lemma save_state (share : FileShare.t) (e : Z) (r : Db.Row) (w : World) :
  db_down w = false ->
  FileShare.expires_at share = Some e ->
  Db.select_by_token (FileShare.token share) (file_shares w) = Some r ->
  call share FileShare.save w
  = (Ok (tt, share),
     set_file_shares
       (Db.update_where_token (FileShare.token share)
          (fun r0 =>
             Db.mkRow (Db.token r0) (Db.recipient_email r0)
               (FileShare.files share) (Db.created_at r0) e
               (FileShare.downloaded share) (FileShare.download_count share)
               (FileShare.downloaded_files share)
               (Db.last_download_attempt r0) (Db.last_download_completed r0)
               (Db.bytes_transferred r0))
          (file_shares w)) w).
Proof.
  intros Hup He Hsel. unfold call, FileShare.save. unfold_monad. simpl.
  by rewrite Hup, He, Hsel.
Qed.

Section CompletionState.
Context `{Normalizer}.

(** The state after the completing request, field by field. *)
Lemma upload_chunk_completes_state (req : Admin.ChunkRequest) (w : World)
    (r : Db.Row) (c : Z -> bytes) :
  let sname := Werkzeug.secure_filename (Admin.filename req) in
  let tok := Admin.share_token req in
  let fid := Admin.fileId req in
  let n := Admin.totalChunks req in
  let files' := if Py.contains sname (Db.files r) then Db.files r
                else Db.files r ++ [sname] in
  db_down w = false ->
  Db.select_by_token tok (file_shares w) = Some r ->
  (forall x, uploads w !! tok <> Some (RegularFile x)) ->
  Path.plain fid = true ->
  Py.truthy sname = true ->
  (forall i, 1 <= i <= n -> sname <> Admin.chunk_name i) ->
  Admin.chunkNumber req = n ->
  1 <= n ->
  (forall i, 1 <= i < n ->
     Admin.temp_dir fid w !! Admin.chunk_name i = Some (c i)) ->
  c n = Admin.chunk req ->
  exists w' dir,
    Admin.upload_chunk req w = (Ok (Admin.Json200 true (Some tok)), w')
    /\ file_shares w'
       = Db.update_where_token tok
           (fun r0 =>
              Db.mkRow (Db.token r0) (Db.recipient_email r0) files'
                (Db.created_at r0) (Db.expires_at r) (Db.downloaded r)
                (Db.download_count r) (Db.downloaded_files r)
                (Db.last_download_attempt r0) (Db.last_download_completed r0)
                (Db.bytes_transferred r0))
           (file_shares w)
    /\ (forall k, dir !! k =
          if bool_decide (k ∈ map Admin.chunk_name (Py.range1 n)) then None
          else if bool_decide (k = sname) then None
          else Admin.temp_dir fid w !! k)
    /\ staging w' !! fid = (if bool_decide (dir = ∅) then None else Some dir)
    /\ (forall g, g <> fid -> staging w' !! g = staging w !! g).
Proof.
  intros sname tok fid n files' Hup Hsel Hnf Hplain Ht Hne Hcn Hn Hchunks Hlast.
  assert (Htok : Db.token r = tok) by by apply select_by_token_token in Hsel.
  unfold Admin.upload_chunk, try_except.
  fold sname. fold tok. fold n. fold fid.
  erewrite (bind_ok _ _ w)
    by (rewrite get_up by done; fold tok; by rewrite Hsel).
  unfold option_map. cbv beta iota zeta.
  in_session Hplain.
  erewrite (bind_ok _ _ w) by reflexivity.
  erewrite (bind_ok _ _ _) by reflexivity.
  rewrite Hcn. fold n. rewrite Z.eqb_refl.
  rewrite Ht.
  erewrite (bind_ok _ _ _) by reflexivity.
  match goal with
  | |- context [bind (Admin.assemble _ _ _) _ ?x] => set (w3 := x)
  end.
  assert (Hd3 : Admin.temp_dir fid w3
                = <[sname := []]>
                    (<[Admin.chunk_name n := Admin.chunk req]>
                       (Admin.temp_dir fid w))).
  { unfold w3. by rewrite !temp_dir_set_staging. }
  assert (Hst3 : forall g, g <> fid -> staging w3 !! g = staging w !! g).
  { intros g Hg. unfold w3. simpl. by rewrite !lookup_insert_ne. }
  destruct (assemble_state fid sname c (Py.range1 n) Hplain [] w3)
    as (w4 & Hasm & Hd4 & Hst4 & Hu4 & Hfs4 & Hdb4).
  { intros i Hi. apply Hne. by apply In_range1. }
  { rewrite Hd3. by rewrite lookup_insert_eq. }
  { intros i Hi. apply In_range1 in Hi. rewrite Hd3.
    rewrite lookup_insert_ne by (by apply Hne).
    destruct (Z.eq_dec i n) as [-> | Hin].
    - by rewrite lookup_insert_eq, Hlast.
    - rewrite lookup_insert_ne.
      + apply Hchunks. lia.
      + intros E. apply chunk_name_inj in E; lia. }
  rewrite (bind_ok _ _ _ _ _ Hasm). simpl in Hd4.
  destruct (makedirs_ok tok w4) as (w5 & d & Hmk & Hdir & Hst5 & Hfs5 & Hdb5).
  { intros x. rewrite Hu4. apply Hnf. }
  replace (FileShare.token (FileShare.of_row r)) with tok by done.
  rewrite (bind_ok _ _ _ _ _ Hmk).
  set (blob := concat (map c (Py.range1 n))) in *.
  assert (Hd5 : Admin.temp_dir fid w5 = <[sname := blob]> (Admin.temp_dir fid w3)).
  { unfold Admin.temp_dir at 1. rewrite Hst5. exact Hd4. }
  rewrite (bind_ok _ _ _ _ _
             (move_to_uploads_state fid sname tok blob d w5 Hplain
                ltac:(by rewrite Hd5, lookup_insert_eq) Hdir)).
  match goal with
  | |- context [bind (call ?s FileShare.save) _ ?x] =>
      set (share' := s); set (w6 := x)
  end.
  assert (Hs' : FileShare.token share' = tok
                /\ FileShare.expires_at share' = Some (Db.expires_at r)
                /\ FileShare.files share' = files'
                /\ FileShare.downloaded share' = Db.downloaded r
                /\ FileShare.download_count share' = Db.download_count r
                /\ FileShare.downloaded_files share' = Db.downloaded_files r).
  { unfold share', files'. simpl.
    by destruct (Py.contains sname (Db.files r)). }
  destruct Hs' as (Hs1 & Hs2 & Hs3 & Hs4 & Hs5 & Hs6).
  assert (Hfs6 : file_shares w6 = file_shares w)
    by (unfold w6; simpl; by rewrite Hfs5, Hfs4).
  assert (Hdb6 : db_down w6 = false)
    by (unfold w6; simpl; by rewrite Hdb5, Hdb4).
  pose proof (save_state share' (Db.expires_at r) r w6 Hdb6 Hs2
                ltac:(by rewrite Hs1, Hfs6)) as Hsave.
  rewrite Hs1, Hs3, Hs4, Hs5, Hs6, Hfs6 in Hsave.
  rewrite (bind_ok _ _ _ _ _ Hsave).
  erewrite (bind_ok _ _ _) by reflexivity.
  erewrite (bind_ok _ _ _) by reflexivity.
  unfold ret, modify. simpl.
  rewrite Hs1.
  match goal with
  | |- context [foldr ?f ?d0 (Py.range1 n)] =>
      set (dir := foldr f d0 (Py.range1 n))
  end.
  assert (Hdir_look : forall k, dir !! k =
            if bool_decide (k ∈ map Admin.chunk_name (Py.range1 n)) then None
            else if bool_decide (k = sname) then None
            else Admin.temp_dir fid w !! k).
  { intros k. unfold dir. rewrite lookup_remove_chunks.
    destruct (bool_decide (k ∈ map Admin.chunk_name (Py.range1 n))) eqn:Eb;
      [done |].
    apply bool_decide_eq_false_1 in Eb.
    replace (Admin.temp_dir fid (set_file_shares _ w6))
      with (delete sname (Admin.temp_dir fid w5))
      by (unfold w6, Admin.temp_dir at 2; simpl; by rewrite lookup_insert_eq).
    case_bool_decide as Hk.
    - subst k. by rewrite lookup_delete_eq.
    - rewrite lookup_delete_ne by done. rewrite Hd5, Hd3.
      rewrite !(lookup_insert_ne _ sname) by done.
      rewrite lookup_insert_ne; [done |].
      intros <-. apply Eb. apply list_elem_of_In, in_map, In_range1. lia. }
  clearbody dir. rewrite temp_dir_set_staging.
  eexists _, dir. split; [reflexivity |].
  split; [by destruct (bool_decide (dir = ∅)) |].
  split; [exact Hdir_look |]. split.
  - destruct (bool_decide (dir = ∅)); simpl.
    + by rewrite lookup_delete_eq.
    + by rewrite lookup_insert_eq.
  - intros g Hg.
    destruct (bool_decide (dir = ∅)); simpl;
      rewrite ?lookup_delete_ne, !lookup_insert_ne by done;
      rewrite Hst5, Hst4, Hst3; done.
Qed.

End CompletionState.


Lemma count_occ_app_one (x y : string) (l : list string) :
  count_occ String.eq_dec (l ++ [y]) x
  = (count_occ String.eq_dec l x + (if String.eq_dec y x then 1 else 0))%nat.
Proof. rewrite count_occ_app. simpl. by destruct (String.eq_dec y x). Qed.

Section CompletionBookkeeping.
Context `{Normalizer}.

(** X15. [upload_chunk], the completing request of a session whose id
    is a plain name, on the record: the
    row of the share lists the sanitised name afterwards, it gains that
    name only when it was not listed (a name uploaded again is not
    listed twice), every other name is listed as often as before, and
    the row of every other token is the one it was. *)
Theorem completion_lists_name_once (req : Admin.ChunkRequest) (w : World)
    (r : Db.Row) (c : Z -> bytes) :
  let sname := Werkzeug.secure_filename (Admin.filename req) in
  let tok := Admin.share_token req in
  let n := Admin.totalChunks req in
  db_down w = false ->
  Db.select_by_token tok (file_shares w) = Some r ->
  (forall x, uploads w !! tok <> Some (RegularFile x)) ->
  Path.plain (Admin.fileId req) = true ->
  Py.truthy sname = true ->
  (forall i, 1 <= i <= n -> sname <> Admin.chunk_name i) ->
  Admin.chunkNumber req = n ->
  1 <= n ->
  (forall i, 1 <= i < n ->
     Admin.temp_dir (Admin.fileId req) w !! Admin.chunk_name i = Some (c i)) ->
  c n = Admin.chunk req ->
  exists w' r',
    Admin.upload_chunk req w = (Ok (Admin.Json200 true (Some tok)), w')
    /\ Db.select_by_token tok (file_shares w') = Some r'
    /\ count_occ String.eq_dec (Db.files r') sname
       = Nat.max 1 (count_occ String.eq_dec (Db.files r) sname)
    /\ (forall x, x <> sname ->
          count_occ String.eq_dec (Db.files r') x
          = count_occ String.eq_dec (Db.files r) x)
    /\ (forall t, t <> tok ->
          Db.select_by_token t (file_shares w')
          = Db.select_by_token t (file_shares w)).
Proof.
  intros sname tok n Hup Hsel Hnf Hplain Ht Hne Hcn Hn Hchunks Hlast.
  destruct (upload_chunk_completes_state req w r c
              Hup Hsel Hnf Hplain Ht Hne Hcn Hn Hchunks Hlast)
    as (w' & dir & Hrun & Hfs & _).
  fold sname tok in Hrun, Hfs.
  assert (Htok : Db.has_token tok r = true).
  { apply select_by_token_token in Hsel. unfold Db.has_token.
    rewrite Hsel. apply String.eqb_refl. }
  eexists w', _. split; [exact Hrun |]. rewrite Hfs.
  split; [| split; [| split]].
  - rewrite select_update by done. rewrite Hsel. simpl. by rewrite Htok.
  - simpl. destruct (Py.contains sname (Db.files r)) eqn:Ec.
    + apply contains_In in Ec.
      apply (count_occ_In String.eq_dec) in Ec. lia.
    + assert (Hnot : ~ In sname (Db.files r)).
      { intros Hin. apply contains_In in Hin. congruence. }
      apply (count_occ_not_In String.eq_dec) in Hnot.
      rewrite count_occ_app_one, Hnot.
      by destruct (String.eq_dec sname sname).
  - intros x Hx. simpl. destruct (Py.contains sname (Db.files r)); [done |].
    rewrite count_occ_app_one.
    destruct (String.eq_dec sname x); [congruence | lia].
  - intros t Hne'. rewrite select_update by done.
    destruct (Db.select_by_token t (file_shares w)) as [r0|] eqn:Et; [| done].
    simpl. apply select_by_token_token in Et.
    unfold Db.has_token. rewrite Et.
    by destruct (String.eqb_spec t tok).
Qed.

(** X16. [upload_chunk], the completing request of a session whose id
    is a plain name, on the session directory: the parts and the assembled file are gone from it, and
    the directory itself goes exactly when nothing else was in it (a
    stray file keeps it, with its content); the directories of other
    sessions are not touched. *)
Theorem completion_clears_session (req : Admin.ChunkRequest) (w : World)
    (r : Db.Row) (c : Z -> bytes) :
  let sname := Werkzeug.secure_filename (Admin.filename req) in
  let tok := Admin.share_token req in
  let fid := Admin.fileId req in
  let n := Admin.totalChunks req in
  db_down w = false ->
  Db.select_by_token tok (file_shares w) = Some r ->
  (forall x, uploads w !! tok <> Some (RegularFile x)) ->
  Path.plain fid = true ->
  Py.truthy sname = true ->
  (forall i, 1 <= i <= n -> sname <> Admin.chunk_name i) ->
  Admin.chunkNumber req = n ->
  1 <= n ->
  (forall i, 1 <= i < n ->
     Admin.temp_dir fid w !! Admin.chunk_name i = Some (c i)) ->
  c n = Admin.chunk req ->
  exists w',
    Admin.upload_chunk req w = (Ok (Admin.Json200 true (Some tok)), w')
    /\ (forall i, 1 <= i <= n ->
          Admin.temp_dir fid w' !! Admin.chunk_name i = None)
    /\ Admin.temp_dir fid w' !! sname = None
    /\ (forall k, k <> sname ->
          (forall i, 1 <= i <= n -> k <> Admin.chunk_name i) ->
          Admin.temp_dir fid w' !! k = Admin.temp_dir fid w !! k)
    /\ (staging w' !! fid = None <->
        forall k, is_Some (Admin.temp_dir fid w !! k) ->
          k = sname \/ exists i, 1 <= i <= n /\ k = Admin.chunk_name i)
    /\ (forall g, g <> fid -> staging w' !! g = staging w !! g).
Proof.
  intros sname tok fid n Hup Hsel Hnf Hplain Ht Hne Hcn Hn Hchunks Hlast.
  destruct (upload_chunk_completes_state req w r c
              Hup Hsel Hnf Hplain Ht Hne Hcn Hn Hchunks Hlast)
    as (w' & dir & Hrun & _ & Hdir & Hst & Hother).
  fold sname tok fid n in Hrun, Hdir, Hst, Hother.
  assert (Hin : forall k, k ∈ map Admin.chunk_name (Py.range1 n)
                          <-> exists i, 1 <= i <= n /\ k = Admin.chunk_name i).
  { intros k. rewrite list_elem_of_In, in_map_iff. split.
    - intros (i & <- & Hi). exists i. by apply In_range1 in Hi.
    - intros (i & Hi & ->). exists i. split; [done | by apply In_range1]. }
  assert (Hlook : forall k, Admin.temp_dir fid w' !! k = dir !! k).
  { intros k. unfold Admin.temp_dir at 1. rewrite Hst.
    case_bool_decide as He; simpl; [by rewrite He | done]. }
  assert (Hgone : staging w' !! fid = None <-> dir = ∅).
  { rewrite Hst. case_bool_decide; split; done. }
  clear Hst.
  exists w'. split; [exact Hrun |]. split; [| split; [| split; [| split]]].
  - intros i Hi. rewrite Hlook, Hdir.
    rewrite bool_decide_eq_true_2; [done |]. apply Hin. by exists i.
  - rewrite Hlook, Hdir.
    destruct (bool_decide (sname ∈ _)); [done |].
    by rewrite bool_decide_eq_true_2.
  - intros k Hk Hki. rewrite Hlook, Hdir.
    rewrite bool_decide_eq_false_2.
    + by rewrite bool_decide_eq_false_2.
    + intros (i & Hi & ->)%Hin. by apply (Hki i).
  - rewrite Hgone. split.
    + intros He k [x Hx].
      pose proof (Hdir k) as Hk. rewrite He, lookup_empty in Hk.
      clear Hdir Hlook.
      case_bool_decide as H1; [right; by apply Hin |].
      case_bool_decide as H2; [by left |]. congruence.
    + intros Hall. apply map_empty. intros k. rewrite Hdir.
      clear Hdir Hlook.
      case_bool_decide as H1; [done |]. case_bool_decide as H2; [done |].
      destruct (Admin.temp_dir fid w !! k) as [x|] eqn:Ex; [| done].
      destruct (Hall k) as [-> | Hk]; [by eexists | done |].
      by apply Hin in Hk.
  - exact Hother.
Qed.

End CompletionBookkeeping.

Lemma completion_lists_name_once_witness :
  exists w' r',
    @Admin.upload_chunk ascii_names
      (Sample.req 1 1 "a.txt" "tokT" "new") Sample.taken_world
    = (Ok (Admin.Json200 true (Some "tokT")), w')
    /\ Db.select_by_token "tokT" (file_shares w') = Some r'
    /\ count_occ String.eq_dec (Db.files r') "a.txt" = 1%nat.
Proof.
  destruct (@completion_lists_name_once ascii_names
              (Sample.req 1 1 "a.txt" "tokT" "new") Sample.taken_world
              (Sample.row "tokT" "" ["a.txt"] 0 Sample.hour)
              (fun _ => Sample.b "new"))
    as (w' & r' & Hrun & Hsel & Hc & _).
  - reflexivity.
  - reflexivity.
  - intros x. vm_compute. discriminate.
  - reflexivity.
  - reflexivity.
  - intros i _ E. vm_compute in E. discriminate.
  - reflexivity.
  - simpl. lia.
  - simpl. lia.
  - reflexivity.
  - exists w', r'. split; [exact Hrun |]. split; [exact Hsel | exact Hc].
Defined.

Lemma completion_clears_session_witness :
  exists w',
    @Admin.upload_chunk ascii_names
      (Sample.req 1 1 "a.txt" "tokT" "new") Sample.taken_world
    = (Ok (Admin.Json200 true (Some "tokT")), w')
    /\ staging w' !! "sess1" = None.
Proof.
  destruct (@completion_clears_session ascii_names
              (Sample.req 1 1 "a.txt" "tokT" "new") Sample.taken_world
              (Sample.row "tokT" "" ["a.txt"] 0 Sample.hour)
              (fun _ => Sample.b "new"))
    as (w' & Hrun & _ & _ & _ & Hgone & _).
  - reflexivity.
  - reflexivity.
  - intros x. vm_compute. discriminate.
  - reflexivity.
  - reflexivity.
  - intros i _ E. vm_compute in E. discriminate.
  - reflexivity.
  - simpl. lia.
  - simpl. lia.
  - reflexivity.
  - exists w'. split; [exact Hrun |]. apply Hgone.
    intros k [x Hx]. vm_compute in Hx. discriminate.
Defined.


(** * The static cleanup of the model class *)

Lemma static_cleanup_one (tok : string) (w : World) :
  FileShare.cleanup_one tok w
  = if blocked w tok then (Ok 0, w)
    else (Ok 1,
          set_file_shares (Db.delete_where_token tok (file_shares w))
            (set_uploads (delete tok (uploads w)) w)).
Proof.
  unfold FileShare.cleanup_one, blocked, Os.exists_in_uploads, Os.rmtree,
    Database.execute.
  unfold_monad. cbv beta.
  destruct (uploads w !! tok) as [[x|d]|] eqn:E.
  - rewrite bool_decide_eq_true_2 by (by eexists). by rewrite E.
  - rewrite bool_decide_eq_true_2 by (by eexists). rewrite E.
    by destruct (bool_decide (tok ∈ rm_fails w)).
  - rewrite bool_decide_eq_false_2 by (by intros [? ?]).
    f_equal. apply world_eq; simpl; try done. by rewrite delete_id.
Qed.

Lemma blocked_after_removal (a name : string) (fs : list Db.Row) (w : World) :
  blocked w a = false ->
  blocked (set_file_shares fs (set_uploads (delete a (uploads w)) w)) name
  = blocked w name.
Proof.
  intros Ha. unfold blocked in *. simpl.
  destruct (String.eq_dec name a) as [-> | Hne].
  - rewrite lookup_delete_eq. by rewrite Ha.
  - by rewrite lookup_delete_ne.
Qed.

Lemma filter_filter_andb {A} (p q : A -> bool) (l : list A) :
  List.filter p (List.filter q l) = List.filter (fun x => q x && p x) l.
Proof.
  induction l as [|x l IH]; simpl; [done |].
  destruct (q x); simpl; [| done]. destruct (p x); by rewrite IH.
Qed.

Lemma static_loop_state (toks : list string) :
  forall (cnt : Z) (w : World),
    exists w',
      FileShare.cleanup_loop toks cnt w
        = (Ok (cnt + Z.of_nat (length
                 (List.filter (fun t => negb (blocked w t)) toks))), w')
      /\ file_shares w'
         = List.filter
             (fun r => negb (Py.contains (Db.token r) toks
                             && negb (blocked w (Db.token r))))
             (file_shares w)
      /\ (forall name,
            uploads w' !! name =
              if Py.contains name toks && negb (blocked w name)
              then None else uploads w !! name)
      /\ staging w' = staging w
      /\ db_down w' = db_down w
      /\ rm_fails w' = rm_fails w.
Proof.
  induction toks as [|a toks IH]; intros cnt w.
  - exists w. simpl. unfold ret. split; [do 2 f_equal; lia |].
    split; [| done]. induction (file_shares w) as [|r l IHl]; simpl; congruence.
  - cbn [FileShare.cleanup_loop].
    destruct (blocked w a) eqn:Eb.
    + erewrite (bind_ok _ _ w)
        by (rewrite static_cleanup_one, Eb; reflexivity).
      destruct (IH (cnt + 0) w) as (w' & Hrun & Hfs & Hu & Hrest).
      exists w'. split; [| split; [| split; [| done]]].
      * rewrite Hrun. cbn [List.filter]. rewrite Eb. simpl.
        do 2 f_equal. lia.
      * rewrite Hfs. apply filter_ext. intros r. simpl.
        destruct (String.eqb_spec (Db.token r) a) as [-> | Hne]; [| done].
        rewrite Eb. simpl. by rewrite andb_false_r.
      * intros name. rewrite Hu. simpl.
        destruct (String.eqb_spec name a) as [-> | Hne]; [| done].
        rewrite Eb. simpl. by rewrite andb_false_r.
    + erewrite (bind_ok _ _ w)
        by (rewrite static_cleanup_one, Eb; reflexivity).
      match goal with
      | |- context [FileShare.cleanup_loop toks _ ?x] => set (w1 := x)
      end.
      assert (Hb : forall name, blocked w1 name = blocked w name)
        by (intros name; by apply blocked_after_removal).
      destruct (IH (cnt + 1) w1) as (w' & Hrun & Hfs & Hu & Hrest).
      exists w'. split; [| split; [| split; [| done]]].
      * rewrite Hrun. cbn [List.filter]. rewrite Eb. simpl.
        rewrite (filter_ext _ (fun t => negb (blocked w t)))
          by (intros t; by rewrite Hb).
        do 2 f_equal. lia.
      * rewrite Hfs.
        replace (file_shares w1) with (Db.delete_where_token a (file_shares w))
          by done.
        unfold Db.delete_where_token.
        rewrite filter_filter_andb. apply filter_ext. intros r.
        rewrite Hb. unfold Db.has_token. simpl.
        destruct (String.eqb_spec (Db.token r) a) as [-> | Hne]; simpl.
        -- by rewrite Eb.
        -- done.
      * intros name. rewrite Hu, Hb.
        replace (uploads w1) with (delete a (uploads w)) by done. simpl.
        destruct (String.eqb_spec name a) as [-> | Hne]; simpl.
        -- rewrite Eb. simpl. rewrite lookup_delete_eq.
           by destruct (Py.contains a toks).
        -- by rewrite lookup_delete_ne.
Qed.

Lemma contains_past_tokens (now : Z) (r : Db.Row) (tbl : list Db.Row) :
  NoDup (map Db.token tbl) -> In r tbl ->
  Py.contains (Db.token r) (map Db.token (List.filter (Db.where_past now) tbl))
  = Db.where_past now r.
Proof.
  intros Hnd Hin.
  destruct (Db.where_past now r) eqn:Ep.
  - apply contains_In, in_map, filter_In. by split.
  - apply not_true_is_false. intros Hc.
    apply contains_In, in_map_iff in Hc as (r' & Htok & Hin').
    apply filter_In in Hin' as [Hin' Hp'].
    assert (r' = r); [| congruence].
    clear Ep Hp'. induction tbl as [|x tbl IHt]; [done |].
    simpl in Hnd. apply NoDup_cons in Hnd as [Hx Hnd].
    destruct Hin as [-> | Hin], Hin' as [-> | Hin']; try done.
    + exfalso. apply Hx. rewrite <- Htok. by apply list_elem_of_In, in_map.
    + exfalso. apply Hx. rewrite Htok. by apply list_elem_of_In, in_map.
    + by apply IHt.
Qed.

Lemma filter_ext_In {A} (f g : A -> bool) (l : list A) :
  (forall x, In x l -> f x = g x) -> List.filter f l = List.filter g l.
Proof.
  induction l as [|x l IH]; intros Hfg; simpl; [done |].
  rewrite (Hfg x) by (simpl; auto).
  rewrite IH; [done |]. intros y Hy. apply Hfg. simpl. auto.
Qed.

Lemma length_purged (now : Z) (w : World) (l : list Db.Row) :
  length (List.filter (fun t => negb (blocked w t))
            (map Db.token (List.filter (Db.where_past now) l)))
  = length (List.filter (purged now w) l).
Proof.
  induction l as [|r l IHl]; [done |].
  simpl. unfold purged at 1.
  destruct (Db.where_past now r); simpl; [| exact IHl].
  destruct (blocked w (Db.token r)); simpl; by rewrite IHl.
Qed.

(** X17. The static [FileShare.cleanup_expired_files] with the store
    up and distinct tokens: it deletes exactly the rows whose stored
    expiry is past and whose directory can be removed (or is absent),
    whatever the recipient; a row and its directory go together, a
    row whose directory cannot be removed stays with it; the count
    returned is the number of rows deleted; with [auto_cleanup] off
    nothing happens. *)
Theorem static_cleanup_removes_record_with_directory (now : Z) (w : World) :
  db_down w = false ->
  Inv.unique_tokens w ->
  FileShare.cleanup_expired_files false now w = (Ok 0, w)
  /\ exists w',
       FileShare.cleanup_expired_files true now w
         = (Ok (Z.of_nat (length (List.filter (purged now w) (file_shares w)))),
            w')
       /\ file_shares w'
          = List.filter (fun r => negb (purged now w r)) (file_shares w)
       /\ (forall r, In r (file_shares w) -> purged now w r = true ->
             uploads w' !! Db.token r = None)
       /\ (forall name,
             (forall r, In r (file_shares w) -> Db.token r = name ->
                purged now w r = false) ->
             uploads w' !! name = uploads w !! name).
Proof.
  intros Hup Hu. split; [done |].
  unfold FileShare.cleanup_expired_files, try_except. simpl.
  erewrite (bind_ok _ _ w)
    by (unfold Database.get_db_connection; by rewrite Hup).
  erewrite (bind_ok _ _ w) by reflexivity.
  set (toks := map Db.token (List.filter (Db.where_past now) (file_shares w))).
  destruct (static_loop_state toks 0 w) as (w' & Hrun & Hfs & Hupl & _).
  rewrite Hrun.
  assert (Hpred : forall r, In r (file_shares w) ->
            Py.contains (Db.token r) toks && negb (blocked w (Db.token r))
            = purged now w r).
  { intros r Hr. unfold purged, toks. by rewrite contains_past_tokens. }
  exists w'. split; [| split; [| split]].
  - unfold toks. by rewrite length_purged.
  - rewrite Hfs. apply filter_ext_In. intros r Hr. by rewrite Hpred.
  - intros r Hr Hp. rewrite Hupl, Hpred by done. by rewrite Hp.
  - intros name Hname. rewrite Hupl.
    destruct (Py.contains name toks) eqn:Ec; [| done].
    apply contains_In in Ec. unfold toks in Ec.
    apply in_map_iff in Ec as (r & Htok & Hr).
    apply filter_In in Hr as [Hr Hp].
    specialize (Hname r Hr Htok). unfold purged in Hname.
    rewrite Hp, Htok in Hname. simpl in Hname.
    apply negb_false_iff in Hname. by rewrite Hname.
Qed.

Lemma static_cleanup_removes_record_with_directory_witness :
  exists w',
    FileShare.cleanup_expired_files true (25 * Sample.hour) Sample.sweep_world
      = (Ok 1, w')
    /\ map Db.token (file_shares w') = ["tokB"; "tokC"]
    /\ uploads w' !! "tokA" = None.
Proof.
  destruct (static_cleanup_removes_record_with_directory
              (25 * Sample.hour) Sample.sweep_world)
    as (_ & w' & Hrun & Hfs & Hgone & _).
  - reflexivity.
  - unfold Inv.unique_tokens. simpl.
    repeat (constructor; [rewrite list_elem_of_In; simpl; intuition discriminate |]).
    constructor.
  - exists w'. split; [exact Hrun |]. split.
    + rewrite Hfs. reflexivity.
    + apply (Hgone (Sample.row "tokA" "ann@example.org" ["report.pdf"] 0
                      (24 * Sample.hour))).
      * simpl. auto.
      * vm_compute. reflexivity.
Defined.


(** * Downloads *)

(** [download_file] branch by branch: the three refusals, and the two
    writes of a served download ([mark_file_downloaded] through [save],
    then [mark_downloaded]). *)
Lemma download_file_cases (now : Z) (tok f : string) (w : World) :
  Main.download_file now tok f w
  = match (if db_down w then None
           else Db.select_by_token tok (file_shares w)) with
    | None => (Ok (Main.Abort 404), w)
    | Some r =>
        if FileShare.is_expired now (FileShare.of_row r)
        then (Ok (Main.Abort 410), w)
        else if negb (Py.contains f (Db.files r))
        then (Ok (Main.Abort 404), w)
        else
          match FileUtils.listing (Db.token r) w !! f with
          | None => (Ok (Main.Abort 404), w)
          | Some c =>
              let dls := if Py.contains f (Db.downloaded_files r)
                         then Db.downloaded_files r
                         else Db.downloaded_files r ++ [f] in
              let fs1 :=
                if Py.contains f (Db.downloaded_files r) then file_shares w
                else Db.update_where_token (Db.token r)
                       (fun r0 =>
                          Db.mkRow (Db.token r0) (Db.recipient_email r0)
                            (Db.files r) (Db.created_at r0) (Db.expires_at r)
                            (Db.downloaded r) (Db.download_count r) dls
                            (Db.last_download_attempt r0)
                            (Db.last_download_completed r0)
                            (Db.bytes_transferred r0))
                       (file_shares w) in
              (Ok (Main.SendFile c f),
               set_file_shares
                 (Db.update_where_token (Db.token r)
                    (fun r0 =>
                       Db.mkRow (Db.token r0) (Db.recipient_email r0)
                         (Db.files r0) (Db.created_at r0) (Db.expires_at r0)
                         true (Db.download_count r + 1) dls
                         (Db.last_download_attempt r0) (Some now)
                         (Db.bytes_transferred r0))
                    fs1) w)
          end
    end.
Proof.
  unfold Main.download_file.
  destruct (db_down w) eqn:Hdb.
  - by rewrite (bind_ok _ _ w w None) by (by apply get_down).
  - rewrite (bind_ok _ _ w w (option_map FileShare.of_row
                               (Db.select_by_token tok (file_shares w))))
      by (by apply get_up).
    destruct (Db.select_by_token tok (file_shares w)) as [r|] eqn:Hsel;
      [| done].
    cbn [option_map].
    destruct (FileShare.is_expired now (FileShare.of_row r)); [done |].
    replace (FileShare.files (FileShare.of_row r)) with (Db.files r) by done.
    destruct (Py.contains f (Db.files r)); [| done].
    cbn [negb].
    erewrite (bind_ok _ _ w) by reflexivity.
    replace (FileShare.token (FileShare.of_row r)) with (Db.token r) by done.
    destruct (FileUtils.listing (Db.token r) w !! f) as [c|]; [| done].
    assert (Htok : Db.select_by_token (Db.token r) (file_shares w) = Some r)
      by (by rewrite (select_by_token_token _ _ _ Hsel)).
    unfold call, FileShare.mark_file_downloaded, FileShare.mark_downloaded,
      FileShare.save.
    unfold_monad. simpl.
    destruct (Py.contains f (Db.downloaded_files r)); simpl.
    + by rewrite Hdb.
    + rewrite Hdb, Htok. simpl. by rewrite Hdb.
Qed.


(** X18. [download_file] serves a file only when the store answers,
    the token has a row, the share is not expired, the name is in the
    share's file list and the file is in the share's directory; what
    it sends is that file under the requested name. *)
Theorem download_serves_only_listed_files (now : Z) (tok f : string)
    (w w' : World) (content : bytes) (name : string) :
  Main.download_file now tok f w = (Ok (Main.SendFile content name), w') ->
  exists r,
    db_down w = false
    /\ Db.select_by_token tok (file_shares w) = Some r
    /\ FileShare.is_expired now (FileShare.of_row r) = false
    /\ In f (Db.files r)
    /\ FileUtils.listing tok w !! f = Some content
    /\ name = f.
Proof.
  rewrite download_file_cases. intros Hrun.
  destruct (db_down w); [discriminate |].
  destruct (Db.select_by_token tok (file_shares w)) as [r|] eqn:Hsel;
    [| discriminate].
  pose proof (select_by_token_token _ _ _ Hsel) as Htok.
  destruct (FileShare.is_expired now (FileShare.of_row r)) eqn:Hexp;
    [discriminate |].
  destruct (Py.contains f (Db.files r)) eqn:Hin; [| discriminate].
  rewrite Htok in Hrun.
  destruct (FileUtils.listing tok w !! f) as [c|]; [| discriminate].
  exists r. simpl in Hrun. injection Hrun as Hc Hn _.
  split; [done |]. split; [done |]. split; [done |].
  split; [by apply contains_In |]. split; [by rewrite Hc | done].
Qed.

Lemma download_serves_only_listed_files_witness :
  exists r,
    db_down Sample.pinned_world = false
    /\ Db.select_by_token "tokP" (file_shares Sample.pinned_world) = Some r
    /\ FileShare.is_expired (2 * Sample.hour) (FileShare.of_row r) = false
    /\ In "x.bin" (Db.files r)
    /\ FileUtils.listing "tokP" Sample.pinned_world !! "x.bin"
       = Some (Sample.b "P")
    /\ "x.bin" = "x.bin".
Proof.
  apply (download_serves_only_listed_files (2 * Sample.hour) "tokP" "x.bin"
           Sample.pinned_world
           (snd (Main.download_file (2 * Sample.hour) "tokP" "x.bin"
                   Sample.pinned_world))).
  reflexivity.
Defined.

(** X19. Whatever [download_file] ends in: a refusal (404 or 410)
    changes nothing at all; a served download changes no file, no
    staged chunk, and neither the number nor the tokens of the
    rows. *)
Theorem download_refusal_changes_nothing (now : Z) (tok f : string)
    (w w' : World) (res : Res Main.Response) :
  Main.download_file now tok f w = (res, w') ->
  uploads w' = uploads w
  /\ staging w' = staging w
  /\ Inv.same_tokens w w'
  /\ (forall status, res = Ok (Main.Abort status) ->
        w' = w /\ (status = 404 \/ status = 410)).
Proof.
  rewrite download_file_cases. unfold Inv.same_tokens. intros Hrun.
  assert (Hrefused : forall status,
            (res, w') = (Ok (Main.Abort status), w) ->
            (status = 404 \/ status = 410) ->
            uploads w' = uploads w
            /\ staging w' = staging w
            /\ map Db.token (file_shares w') = map Db.token (file_shares w)
            /\ (forall status', res = Ok (Main.Abort status') ->
                  w' = w /\ (status' = 404 \/ status' = 410))).
  { intros status [= -> ->] Hs. repeat split; try done.
    all: match goal with Heq : Ok _ = Ok _ |- _ => injection Heq as <- end;
      done. }
  destruct (db_down w); [by apply (Hrefused 404); auto |].
  destruct (Db.select_by_token tok (file_shares w)) as [r|];
    [| by apply (Hrefused 404); auto].
  destruct (FileShare.is_expired now (FileShare.of_row r));
    [by apply (Hrefused 410); auto |].
  destruct (negb (Py.contains f (Db.files r)));
    [by apply (Hrefused 404); auto |].
  destruct (FileUtils.listing (Db.token r) w !! f) as [c|];
    [| by apply (Hrefused 404); auto].
  clear Hrefused. injection Hrun as <- <-. simpl.
  split; [done |]. split; [done |]. split; [| done].
  destruct (Py.contains f (Db.downloaded_files r));
    by rewrite ?tokens_update.
Qed.

Lemma download_refusal_changes_nothing_witness :
  uploads Sample.pinned_world = uploads Sample.pinned_world
  /\ staging Sample.pinned_world = staging Sample.pinned_world
  /\ Inv.same_tokens Sample.pinned_world Sample.pinned_world
  /\ (forall status, Ok (Main.Abort 404) = Ok (Main.Abort status) ->
        Sample.pinned_world = Sample.pinned_world
        /\ (status = 404 \/ status = 410)).
Proof.
  apply (download_refusal_changes_nothing (2 * Sample.hour) "tokP" "y.bin"
           Sample.pinned_world Sample.pinned_world (Ok (Main.Abort 404))).
  reflexivity.
Defined.

(** X20. A served download on the record: the count goes up by one
    on every download of a file, the share is flagged as downloaded,
    the completion time is the clock's reading, and the name joins the
    list of downloaded files unless it is there already; the share's
    files, recipient and expiry, and every other row, stay as they
    were. *)
Theorem download_counts_every_request (now : Z) (tok f : string)
    (w : World) (r : Db.Row) (content : bytes) :
  db_down w = false ->
  Db.select_by_token tok (file_shares w) = Some r ->
  FileShare.is_expired now (FileShare.of_row r) = false ->
  In f (Db.files r) ->
  FileUtils.listing tok w !! f = Some content ->
  exists w' r',
    Main.download_file now tok f w = (Ok (Main.SendFile content f), w')
    /\ Db.select_by_token tok (file_shares w') = Some r'
    /\ Db.download_count r' = Db.download_count r + 1
    /\ Db.downloaded r' = true
    /\ Db.last_download_completed r' = Some now
    /\ Db.downloaded_files r'
       = (if Py.contains f (Db.downloaded_files r) then Db.downloaded_files r
          else Db.downloaded_files r ++ [f])
    /\ Db.files r' = Db.files r
    /\ Db.recipient_email r' = Db.recipient_email r
    /\ Db.expires_at r' = Db.expires_at r
    /\ (forall t, t <> tok ->
          Db.select_by_token t (file_shares w')
          = Db.select_by_token t (file_shares w)).
Proof.
  intros Hup Hsel Hexp Hin Hfile.
  pose proof (select_by_token_token _ _ _ Hsel) as Htok.
  apply contains_In in Hin.
  assert (Hhas : Db.has_token tok r = true)
    by (unfold Db.has_token; rewrite Htok; apply String.eqb_refl).
  assert (Hother : forall t r0, t <> tok ->
            Db.select_by_token t (file_shares w) = Some r0 ->
            Db.has_token tok r0 = false).
  { intros t r0 Hne Ht. apply select_by_token_token in Ht.
    unfold Db.has_token. rewrite Ht. by destruct (String.eqb_spec t tok). }
  rewrite download_file_cases, Hup, Hsel, Hexp, Hin, Htok, Hfile.
  cbn [negb]. cbv zeta.
  destruct (Py.contains f (Db.downloaded_files r)).
  - eexists _, _. split; [reflexivity |]. cbn [file_shares set_file_shares].
    split.
    { rewrite select_update by done. rewrite Hsel. simpl. by rewrite Hhas. }
    repeat split; try done.
    intros t Hne. rewrite select_update by done.
    destruct (Db.select_by_token t (file_shares w)) as [r0|] eqn:Et; [| done].
    simpl. by rewrite (Hother t r0).
  - eexists _, _. split; [reflexivity |]. cbn [file_shares set_file_shares].
    split.
    { rewrite !select_update by done. rewrite Hsel. simpl.
      rewrite Hhas. unfold Db.has_token at 1. simpl.
      fold (Db.has_token tok r). by rewrite Hhas. }
    repeat split; try done.
    intros t Hne. rewrite !select_update by done.
    destruct (Db.select_by_token t (file_shares w)) as [r0|] eqn:Et; [| done].
    simpl. rewrite (Hother t r0) by done. by rewrite (Hother t r0).
Qed.

Lemma download_counts_every_request_witness :
  exists w' r',
    Main.download_file (2 * Sample.hour) "tokP" "x.bin" Sample.pinned_world
      = (Ok (Main.SendFile (Sample.b "P") "x.bin"), w')
    /\ Db.select_by_token "tokP" (file_shares w') = Some r'
    /\ Db.download_count r' = 1.
Proof.
  destruct (download_counts_every_request (2 * Sample.hour) "tokP" "x.bin"
              Sample.pinned_world
              (Sample.row "tokP" "" ["x.bin"] 0 Sample.hour) (Sample.b "P"))
    as (w' & r' & Hrun & Hsel & Hcnt & _).
  - reflexivity.
  - reflexivity.
  - reflexivity.
  - simpl. auto.
  - reflexivity.
  - exists w', r'. split; [exact Hrun |]. split; [exact Hsel | exact Hcnt].
Defined.


(** * Reactivation *)

Lemma reactivate_share_cases (now hours : Z) (tok : string) (w : World) :
  Routes.reactivate_share now hours tok w
  = match (if db_down w then None
           else Db.select_by_token tok (file_shares w)) with
    | None => (Ok Routes.NotFound, w)
    | Some r =>
        if FileShare.is_expired now (FileShare.of_row r)
        then (Ok Routes.Reactivated,
              set_file_shares
                (Db.update_where_token (Db.token r)
                   (fun r0 =>
                      Db.mkRow (Db.token r0) (Db.recipient_email r0)
                        (Db.files r) (Db.created_at r0)
                        (now + FileShare.timedelta_hours hours)
                        (Db.downloaded r) (Db.download_count r)
                        (Db.downloaded_files r)
                        (Db.last_download_attempt r0)
                        (Db.last_download_completed r0)
                        (Db.bytes_transferred r0))
                   (file_shares w)) w)
        else (Ok Routes.AlreadyActive, w)
    end.
Proof.
  unfold Routes.reactivate_share.
  destruct (db_down w) eqn:Hdb.
  - by rewrite (bind_ok _ _ w w None) by (by apply get_down).
  - rewrite (bind_ok _ _ w w (option_map FileShare.of_row
                               (Db.select_by_token tok (file_shares w))))
      by (by apply get_up).
    destruct (Db.select_by_token tok (file_shares w)) as [r|] eqn:Hsel;
      [| done].
    cbn [option_map].
    destruct (FileShare.is_expired now (FileShare.of_row r)); [| done].
    cbn [negb].
    assert (Htok : Db.select_by_token (Db.token r) (file_shares w) = Some r)
      by (by rewrite (select_by_token_token _ _ _ Hsel)).
    erewrite (bind_ok _ _ w); [reflexivity |].
    by rewrite (save_state _ (now + FileShare.timedelta_hours hours) r w).
Qed.

(** X21. Whenever [reactivate_share] comes to an answer: unless it
    reports success the state is untouched; and it reports success
    only for a recorded share that has a recipient and whose expiry
    has passed, so a share without recipient is never reactivated. *)
Theorem reactivation_needs_an_expired_share (now hours : Z) (tok : string)
    (w w' : World) (flash : Routes.Flash) :
  Routes.reactivate_share now hours tok w = (Ok flash, w') ->
  (flash <> Routes.Reactivated -> w' = w)
  /\ (flash = Routes.Reactivated ->
        exists r e,
          db_down w = false
          /\ Db.select_by_token tok (file_shares w) = Some r
          /\ Py.truthy (Db.recipient_email r) = true
          /\ Db.expires_at r = e /\ e < now).
Proof.
  rewrite reactivate_share_cases. intros Hrun.
  destruct (db_down w).
  { injection Hrun as <- <-. split; [done | discriminate]. }
  destruct (Db.select_by_token tok (file_shares w)) as [r|].
  2: { injection Hrun as <- <-. split; [done | discriminate]. }
  destruct (FileShare.is_expired now (FileShare.of_row r)) eqn:Hexp.
  2: { injection Hrun as <- <-. split; [done | discriminate]. }
  injection Hrun as <- <-. split; [done |]. intros _.
  exists r, (Db.expires_at r). unfold FileShare.is_expired in Hexp.
  simpl in Hexp.
  destruct (Py.truthy (Db.recipient_email r)); [| done]. simpl in Hexp.
  repeat split; try done. lia.
Qed.

Lemma reactivation_needs_an_expired_share_witness :
  (Routes.AlreadyActive <> Routes.Reactivated ->
     Sample.pinned_world = Sample.pinned_world)
  /\ (Routes.AlreadyActive = Routes.Reactivated ->
        exists r e,
          db_down Sample.pinned_world = false
          /\ Db.select_by_token "tokP" (file_shares Sample.pinned_world) = Some r
          /\ Py.truthy (Db.recipient_email r) = true
          /\ Db.expires_at r = e /\ e < 25 * Sample.hour).
Proof.
  apply (reactivation_needs_an_expired_share (25 * Sample.hour) 24 "tokP"
           Sample.pinned_world Sample.pinned_world Routes.AlreadyActive).
  reflexivity.
Defined.

(** X22. A reactivation that goes through, with a retention that is
    not negative: the row's expiry becomes the clock's reading plus
    the retention, so the share is running again until then; its
    recipient, files and download record stay; no file is restored or
    removed, and every other row stays as it was. *)
Theorem reactivation_restarts_the_clock (now hours : Z) (tok : string)
    (w : World) (r : Db.Row) :
  db_down w = false ->
  Db.select_by_token tok (file_shares w) = Some r ->
  FileShare.is_expired now (FileShare.of_row r) = true ->
  0 <= hours ->
  exists w' r',
    Routes.reactivate_share now hours tok w = (Ok Routes.Reactivated, w')
    /\ Db.select_by_token tok (file_shares w') = Some r'
    /\ Db.expires_at r' = now + FileShare.timedelta_hours hours
    /\ FileShare.is_expired now (FileShare.of_row r') = false
    /\ (forall t, t <= now + FileShare.timedelta_hours hours ->
          FileShare.is_expired t (FileShare.of_row r') = false)
    /\ Db.recipient_email r' = Db.recipient_email r
    /\ Db.files r' = Db.files r
    /\ Db.download_count r' = Db.download_count r
    /\ Db.downloaded_files r' = Db.downloaded_files r
    /\ uploads w' = uploads w
    /\ (forall t, t <> tok ->
          Db.select_by_token t (file_shares w')
          = Db.select_by_token t (file_shares w)).
Proof.
  intros Hup Hsel Hexp Hh.
  pose proof (select_by_token_token _ _ _ Hsel) as Htok.
  rewrite reactivate_share_cases, Hup, Hsel, Hexp, Htok.
  eexists _, _. split; [reflexivity |]. cbn [file_shares set_file_shares].
  split.
  { rewrite select_update by done. rewrite Hsel. simpl.
    unfold Db.has_token. by rewrite Htok, String.eqb_refl. }
  simpl. repeat split; try done.
  - unfold FileShare.is_expired, FileShare.timedelta_hours. simpl.
    destruct (Py.truthy (Db.recipient_email r)); [| done]. simpl. lia.
  - intros t Ht. unfold FileShare.is_expired. simpl.
    destruct (Py.truthy (Db.recipient_email r)); [| done]. simpl. lia.
  - intros t Hne. rewrite select_update by done.
    destruct (Db.select_by_token t (file_shares w)) as [r0|] eqn:Et; [| done].
    simpl. apply select_by_token_token in Et. unfold Db.has_token.
    rewrite Et. by destruct (String.eqb_spec t tok).
Qed.

Lemma reactivation_restarts_the_clock_witness :
  exists w' r',
    Routes.reactivate_share (25 * Sample.hour) 24 "tokA" Sample.sweep_world
      = (Ok Routes.Reactivated, w')
    /\ Db.select_by_token "tokA" (file_shares w') = Some r'
    /\ Db.expires_at r' = 49 * Sample.hour.
Proof.
  destruct (reactivation_restarts_the_clock (25 * Sample.hour) 24 "tokA"
              Sample.sweep_world
              (Sample.row "tokA" "ann@example.org" ["report.pdf"] 0
                 (24 * Sample.hour)))
    as (w' & r' & Hrun & Hsel & He & _).
  - reflexivity.
  - reflexivity.
  - reflexivity.
  - lia.
  - exists w', r'. split; [exact Hrun |]. split; [exact Hsel | exact He].
Defined.


(** * The external upload *)

Lemma create_fresh (tok recipient : string) (fs : list string)
    (now hours : Z) (w : World) :
  db_down w = false ->
  Db.select_by_token tok (file_shares w) = None ->
  FileShare.create tok now recipient fs hours w
  = (Ok (FileShare.mk tok recipient fs now
           (Some (now + FileShare.timedelta_hours hours)) false 0 []),
     set_file_shares
       (file_shares w
        ++ [Db.mkRow tok recipient fs now
              (now + FileShare.timedelta_hours hours) false 0 []
              None None None]) w).
Proof.
  intros Hup Hfree. unfold FileShare.create. unfold_monad.
  rewrite Hup. simpl. rewrite Hfree. simpl.
  by rewrite select_app_fresh.
Qed.

Section ExternalUpload.
Context `{Normalizer}.

Lemma api_save_loop_state (tok : string) (files : list (string * bytes)) :
  forall (saved : list string) (d : gmap string bytes) (w : World),
    uploads w !! tok = Some (Directory d) ->
    all_storable files ->
    Api.save_loop tok files saved w
    = (Ok (saved ++ saved_names files),
       set_uploads (<[tok := Directory (stored files d)]> (uploads w)) w).
Proof.
  induction files as [|f files IH]; intros saved d w Hd Hall.
  - simpl. unfold ret, saved_names. simpl. rewrite app_nil_r. f_equal.
    apply world_eq; simpl; try done. by rewrite insert_id.
  - cbn [Api.save_loop]. unfold saved_names, stored. cbn [List.filter fold_left].
    assert (Hrest : all_storable files)
      by (intros g Hg; apply Hall; simpl; auto).
    destruct (Py.truthy (fst f)) eqn:Ef; cbn [negb].
    + assert (Hs : Py.truthy (Werkzeug.secure_filename (fst f)) = true)
        by (apply Hall; simpl; auto).
      erewrite (bind_ok _ _ w)
        by (unfold Api.save_as, FileUtils.write_file; rewrite Hs, Hd;
            reflexivity).
      erewrite IH; [| simpl; by rewrite lookup_insert_eq | done].
      cbn [map]. rewrite <- app_assoc. simpl. f_equal.
      apply world_eq; simpl; try done. by rewrite insert_insert_eq.
    + by apply IH.
Qed.

Lemma api_save_loop_raises (tok : string) (pre post : list (string * bytes))
    (f : string * bytes) :
  forall (saved : list string) (d : gmap string bytes) (w : World),
    uploads w !! tok = Some (Directory d) ->
    all_storable pre ->
    Py.truthy (fst f) = true ->
    Py.truthy (Werkzeug.secure_filename (fst f)) = false ->
    Api.save_loop tok (pre ++ f :: post) saved w
    = (Raise IsADirectoryError,
       set_uploads (<[tok := Directory (stored pre d)]> (uploads w)) w).
Proof.
  induction pre as [|g pre IH]; intros saved d w Hd Hall Hf Hs.
  - cbn [app Api.save_loop]. rewrite Hf. cbn [negb].
    unfold bind, Api.save_as. rewrite Hs. unfold raise. f_equal.
    apply world_eq; simpl; try done. by rewrite insert_id.
  - cbn [app Api.save_loop]. unfold stored. cbn [fold_left].
    assert (Hrest : all_storable pre)
      by (intros x Hx; apply Hall; simpl; auto).
    destruct (Py.truthy (fst g)) eqn:Eg; cbn [negb].
    + assert (Hsg : Py.truthy (Werkzeug.secure_filename (fst g)) = true)
        by (apply Hall; simpl; auto).
      erewrite (bind_ok _ _ w)
        by (unfold Api.save_as, FileUtils.write_file; rewrite Hsg, Hd;
            reflexivity).
      erewrite IH; [| simpl; by rewrite lookup_insert_eq | done..].
      f_equal. apply world_eq; simpl; try done. by rewrite insert_insert_eq.
    + by apply IH.
Qed.

Lemma stored_app (l1 l2 : list (string * bytes)) (d : gmap string bytes) :
  stored (l1 ++ l2) d = stored l2 (stored l1 d).
Proof. unfold stored. by rewrite fold_left_app. Qed.

Lemma stored_cons (g : string * bytes) (l : list (string * bytes))
    (d : gmap string bytes) :
  stored (g :: l) d
  = stored l (if Py.truthy (fst g)
              then <[Werkzeug.secure_filename (fst g) := snd g]> d else d).
Proof. reflexivity. Qed.

Lemma stored_keeps (post : list (string * bytes)) (n : string) :
  forall d : gmap string bytes,
    (forall g, In g post -> Py.truthy (fst g) = true ->
       Werkzeug.secure_filename (fst g) <> n) ->
    stored post d !! n = d !! n.
Proof.
  induction post as [|g post IH]; intros d Hne; [done |].
  rewrite stored_cons.
  rewrite IH by (intros x Hx; apply Hne; simpl; auto).
  destruct (Py.truthy (fst g)) eqn:Eg; [| done].
  rewrite lookup_insert_ne; [done |]. apply Hne; simpl; auto.
Qed.

(** X23. [upload_api] without the key, with a wrong key, or with no
    named file answers 401 or 400 and writes nothing: no row, no
    directory, no file. *)
Theorem api_refusals_write_nothing (header_key configured_key : string)
    (files : list (string * bytes)) (retention : Z) (tok : string) (now : Z)
    (w : World) :
  Py.truthy header_key = false \/ header_key <> configured_key
  \/ (forall f, In f files -> Py.truthy (fst f) = false) ->
  exists resp,
    Api.upload_api header_key configured_key files retention tok now w
      = (Ok resp, w)
    /\ (resp = Api.Json401 \/ resp = Api.Json400)
    /\ (resp = Api.Json401 <->
        Py.truthy header_key = false \/ header_key <> configured_key).
Proof.
  intros Hcase. unfold Api.upload_api.
  destruct (Py.truthy header_key) eqn:Ek; cbn [negb orb].
  2: { exists Api.Json401. split; [done |]. split; [by left |].
       split; [by left | done]. }
  destruct (String.eqb_spec header_key configured_key) as [Heq | Hne];
    cbn [negb].
  2: { exists Api.Json401. split; [done |]. split; [by left |].
       split; [by right | done]. }
  destruct Hcase as [Hk | [Hk | Hnone]]; [done.. |].
  assert (Hex : existsb (fun f => Py.truthy (fst f)) files = false).
  { apply not_true_is_false. intros (f & Hf & Ht)%existsb_exists.
    rewrite (Hnone f Hf) in Ht. done. }
  rewrite Hex. cbn [negb].
  exists Api.Json400. split; [done |]. split; [by right |].
  split; [done |]. by intros [? | ?].
Qed.

(** X24. [upload_api] that goes through, on a fresh token: the new
    row has no recipient, so the share is not expired at any instant;
    its file list is the sanitised names of the named files in the
    order submitted, a name repeated as often as it was submitted; and
    in the directory a later file replaces an earlier one of the same
    sanitised name. *)
Theorem api_upload_overwrites_and_never_expires
    (key : string) (files : list (string * bytes)) (retention : Z)
    (tok : string) (now : Z) (w : World) :
  Py.truthy key = true ->
  (exists f, In f files /\ Py.truthy (fst f) = true) ->
  all_storable files ->
  db_down w = false ->
  Db.select_by_token tok (file_shares w) = None ->
  uploads w !! tok = None ->
  exists w' r,
    Api.upload_api key key files retention tok now w = (Ok (Api.Json200 tok), w')
    /\ Db.select_by_token tok (file_shares w') = Some r
    /\ Db.recipient_email r = EmptyString
    /\ Db.files r = saved_names files
    /\ Db.expires_at r = now + FileShare.timedelta_hours retention
    /\ (forall t, FileShare.is_expired t (FileShare.of_row r) = false)
    /\ FileUtils.listing tok w' = stored files ∅
    /\ (forall pre f post,
          files = pre ++ f :: post ->
          Py.truthy (fst f) = true ->
          (forall g, In g post -> Py.truthy (fst g) = true ->
             Werkzeug.secure_filename (fst g)
             <> Werkzeug.secure_filename (fst f)) ->
          FileUtils.listing tok w' !! Werkzeug.secure_filename (fst f)
          = Some (snd f)).
Proof.
  intros Hkey (f0 & Hf0 & Ht0) Hall Hup Hfree Hdir.
  unfold Api.upload_api. rewrite Hkey, String.eqb_refl. cbn [negb orb].
  assert (Hex : existsb (fun f => Py.truthy (fst f)) files = true)
    by (apply existsb_exists; by exists f0).
  rewrite Hex. cbn [negb].
  rewrite (bind_ok _ _ _ _ _ (create_fresh tok "" [] now retention w Hup Hfree)).
  cbn [FileShare.token].
  set (row := Db.mkRow tok "" [] now
                (now + FileShare.timedelta_hours retention) false 0 []
                None None None).
  erewrite (bind_ok _ _ _)
    by (unfold Os.makedirs; simpl; rewrite Hdir; reflexivity).
  erewrite (bind_ok _ _ _)
    by (apply (api_save_loop_state tok files [] ∅);
        [simpl; by rewrite lookup_insert_eq | done]).
  cbn [app].
  match goal with
  | |- context [bind (call ?s FileShare.save) _ ?x] =>
      set (share := s); set (w3 := x)
  end.
  assert (Hsel3 : Db.select_by_token (FileShare.token share) (file_shares w3)
                  = Some row).
  { unfold share, w3. simpl. by apply select_app_fresh. }
  rewrite (bind_ok _ _ _ _ _
             (save_state share (now + FileShare.timedelta_hours retention)
                row w3 Hup eq_refl Hsel3)).
  unfold ret. cbn [FileShare.token share FileShare.set_files].
  match goal with
  | |- context [(Ok (Api.Json200 tok), ?x)] => set (w4 := x)
  end.
  assert (Hl : FileUtils.listing tok w4 = stored files ∅).
  { unfold FileUtils.listing, w4, w3. simpl. by rewrite lookup_insert_eq. }
  assert (Hsel4 : Db.select_by_token tok (file_shares w4)
                  = Some (Db.mkRow tok "" (saved_names files) now
                            (now + FileShare.timedelta_hours retention)
                            false 0 [] None None None)).
  { unfold w4. cbn [file_shares set_file_shares].
    rewrite select_update by done.
    replace (file_shares w3) with (file_shares w ++ [row]) by done.
    rewrite select_app_fresh by done. simpl.
    unfold Db.has_token. simpl. by rewrite String.eqb_refl. }
  eexists w4, _. split; [reflexivity |].
  split; [exact Hsel4 |].
  split; [done |]. split; [done |]. split; [done |].
  split; [done |]. split; [exact Hl |].
  intros pre f post -> Hf Hlater. rewrite Hl.
  rewrite stored_app, stored_cons, stored_keeps by done.
  by rewrite Hf, lookup_insert_eq.
Qed.

(** X25. [upload_api] on a named file whose name sanitises to
    nothing: the write raises, after [create] has committed the row
    and after the earlier files were written. The share stays in the
    registry with an empty file list and no recipient, and its
    directory holds the files written so far. *)
Theorem api_upload_failure_leaves_empty_share
    (key : string) (pre post : list (string * bytes)) (f : string * bytes)
    (retention : Z) (tok : string) (now : Z) (w : World) :
  Py.truthy key = true ->
  all_storable pre ->
  Py.truthy (fst f) = true ->
  Py.truthy (Werkzeug.secure_filename (fst f)) = false ->
  db_down w = false ->
  Db.select_by_token tok (file_shares w) = None ->
  uploads w !! tok = None ->
  exists w' r,
    Api.upload_api key key (pre ++ f :: post) retention tok now w
      = (Raise IsADirectoryError, w')
    /\ Db.select_by_token tok (file_shares w') = Some r
    /\ Db.files r = []
    /\ Db.recipient_email r = EmptyString
    /\ uploads w' !! tok = Some (Directory (stored pre ∅)).
Proof.
  intros Hkey Hall Hf Hs Hup Hfree Hdir.
  unfold Api.upload_api. rewrite Hkey, String.eqb_refl. cbn [negb orb].
  assert (Hex : existsb (fun f => Py.truthy (fst f)) (pre ++ f :: post) = true).
  { apply existsb_exists. exists f. split; [| done].
    apply in_or_app. right. by left. }
  rewrite Hex. cbn [negb].
  rewrite (bind_ok _ _ _ _ _ (create_fresh tok "" [] now retention w Hup Hfree)).
  cbn [FileShare.token].
  erewrite (bind_ok _ _ _)
    by (unfold Os.makedirs; simpl; rewrite Hdir; reflexivity).
  unfold bind at 1.
  erewrite (api_save_loop_raises tok pre post f [] ∅);
    [| simpl; by rewrite lookup_insert_eq | done..].
  eexists _, _. split; [reflexivity |]. simpl.
  split; [by apply select_app_fresh |].
  split; [done |]. split; [done |]. by rewrite lookup_insert_eq.
Qed.

End ExternalUpload.

Lemma api_refusals_write_nothing_witness :
  exists resp,
    @Api.upload_api ascii_names "guess" "secret" [("a.txt", Sample.b "x")]
       24 "tokN" 0 Sample.pinned_world
      = (Ok resp, Sample.pinned_world)
    /\ (resp = Api.Json401 \/ resp = Api.Json400).
Proof.
  destruct (@api_refusals_write_nothing ascii_names "guess" "secret"
              [("a.txt", Sample.b "x")] 24 "tokN" 0 Sample.pinned_world)
    as (resp & Hrun & Hresp & _).
  - right. left. discriminate.
  - exists resp. split; [exact Hrun | exact Hresp].
Defined.

Lemma api_upload_overwrites_and_never_expires_witness :
  exists w' r,
    @Api.upload_api ascii_names "secret" "secret"
       [("a.txt", Sample.b "one"); ("a.txt", Sample.b "two")]
       24 "tokN" 0 Sample.pinned_world
      = (Ok (Api.Json200 "tokN"), w')
    /\ Db.select_by_token "tokN" (file_shares w') = Some r
    /\ Db.files r = ["a.txt"; "a.txt"]
    /\ FileUtils.listing "tokN" w' !! "a.txt" = Some (Sample.b "two").
Proof.
  destruct (@api_upload_overwrites_and_never_expires ascii_names "secret"
              [("a.txt", Sample.b "one"); ("a.txt", Sample.b "two")]
              24 "tokN" 0 Sample.pinned_world)
    as (w' & r & Hrun & Hsel & _ & Hfiles & _ & _ & _ & Hlast).
  - reflexivity.
  - exists ("a.txt", Sample.b "one"). split; [simpl; auto | reflexivity].
  - intros f [<- | [<- | []]] _; reflexivity.
  - reflexivity.
  - reflexivity.
  - reflexivity.
  - exists w', r. split; [exact Hrun |]. split; [exact Hsel |].
    split; [exact Hfiles |].
    apply (Hlast [("a.txt", Sample.b "one")] ("a.txt", Sample.b "two") []).
    + reflexivity.
    + reflexivity.
    + intros g [].
Defined.

Lemma api_upload_failure_leaves_empty_share_witness :
  exists w' r,
    @Api.upload_api ascii_names "secret" "secret"
       [("a.txt", Sample.b "one"); ("..", Sample.b "two")]
       24 "tokN" 0 Sample.pinned_world
      = (Raise IsADirectoryError, w')
    /\ Db.select_by_token "tokN" (file_shares w') = Some r
    /\ Db.files r = [].
Proof.
  destruct (@api_upload_failure_leaves_empty_share ascii_names "secret"
              [("a.txt", Sample.b "one")] [] ("..", Sample.b "two")
              24 "tokN" 0 Sample.pinned_world)
    as (w' & r & Hrun & Hsel & Hfiles & _).
  - reflexivity.
  - intros f [<- | []] _; reflexivity.
  - reflexivity.
  - reflexivity.
  - reflexivity.
  - reflexivity.
  - reflexivity.
  - exists w', r. split; [exact Hrun |]. split; [exact Hsel | exact Hfiles].
Defined.


(** * Settings *)

Section SettingsStore.
Context `{Codec}.

Lemma settings_get_reads (key : string) (dflt : Json.Value) (s : SettingsDb) :
  Settings.get key dflt s
  = (Ok (if settings_down s then dflt
         else default dflt (stored_value s key)), s).
Proof.
  unfold Settings.get, Settings.get_db_connection, stored_value.
  unfold_monad. destruct (settings_down s); [done |].
  by destruct (settings s !! key) as [[text d]|].
Qed.

Lemma settings_set_writes (key : string) (v : Json.Value)
    (d : option string) (s : SettingsDb) :
  Settings.set key v d s
  = if settings_down s then (Ok false, s)
    else (Ok true,
          mkSettingsDb (settings_down s)
            (<[key := (dumps v,
                       match d with
                       | Some x => Some x
                       | None => match settings s !! key with
                                 | Some (_, old) => old
                                 | None => Some key
                                 end
                       end)]> (settings s))).
Proof.
  unfold Settings.set, Settings.get_db_connection. unfold_monad.
  destruct (settings_down s) eqn:E; [done |].
  destruct d; simpl; by rewrite E.
Qed.

Lemma stored_value_insert (s : SettingsDb) (key k : string) (v : Json.Value)
    (d : option string) (down : bool) :
  stored_value (mkSettingsDb down (<[key := (dumps v, d)]> (settings s))) k
  = if bool_decide (k = key)
    then Some (match loads (dumps v) with
               | Some x => x
               | None => Json.Str (dumps v)
               end)
    else stored_value s k.
Proof.
  unfold stored_value. simpl. case_bool_decide as Hk.
  - subst. by rewrite lookup_insert_eq.
  - by rewrite lookup_insert_ne.
Qed.

(** X26. A setting that was written is read back, when the store
    answers and the value survives its JSON encoding: [set] reports
    success, [get] gives the value whatever the default, the
    description given is kept (without one: that of the row, else the
    key itself), and no other key changes. A store that is down makes
    [get] answer the default and [set] report failure, unchanged. *)
Theorem setting_written_is_read (key : string) (v dflt : Json.Value)
    (d : option string) (s : SettingsDb) :
  loads (dumps v) = Some v ->
  (settings_down s = true ->
     Settings.set key v d s = (Ok false, s)
     /\ Settings.get key dflt s = (Ok dflt, s))
  /\ (settings_down s = false ->
      exists s',
        Settings.set key v d s = (Ok true, s')
        /\ Settings.get key dflt s' = (Ok v, s')
        /\ snd <$> settings s' !! key
           = Some (match d with
                   | Some x => Some x
                   | None => match settings s !! key with
                             | Some (_, old) => old
                             | None => Some key
                             end
                   end)
        /\ (forall k, k <> key -> settings s' !! k = settings s !! k)).
Proof.
  intros Hlaw. split; intros Hdb.
  - by rewrite settings_set_writes, settings_get_reads, Hdb.
  - rewrite settings_set_writes, Hdb. eexists. split; [reflexivity |].
    split; [| split].
    + rewrite settings_get_reads. simpl. rewrite stored_value_insert.
      rewrite bool_decide_eq_true_2 by done. by rewrite Hlaw.
    + simpl. by rewrite lookup_insert_eq.
    + intros k Hk. simpl. by rewrite lookup_insert_ne.
Qed.

End SettingsStore.

Lemma setting_written_is_read_witness :
  exists s',
    @Settings.set plain_json "auto_cleanup" (Json.Bool false) None
       (mkSettingsDb false ∅)
      = (Ok true, s')
    /\ @Settings.get plain_json "auto_cleanup" (Json.Bool true) s'
       = (Ok (Json.Bool false), s').
Proof.
  destruct (@setting_written_is_read plain_json "auto_cleanup"
              (Json.Bool false) (Json.Bool true) None (mkSettingsDb false ∅))
    as [_ Hup]; [reflexivity |].
  destruct Hup as (s' & Hset & Hget & _); [reflexivity |].
  exists s'. split; [exact Hset | exact Hget].
Defined.


Lemma encrypted_key_ne (key : string) : Settings.encrypted_key key <> key.
Proof.
  unfold Settings.encrypted_key. intros E.
  apply (f_equal String.length) in E. simpl in E.
  change (String.length (EmptyString +:+ key)) with (String.length key) in E.
  lia.
Qed.

Section EncryptedSettings.
Context `{Codec} `{Cipher}.

(** What [get_encrypted] makes of the value read under the prefixed
    key. *)
Lemma get_encrypted_reads (key dflt : string) (s : SettingsDb) :
  Settings.get_encrypted key dflt s
  = (Ok (let ev := if settings_down s then Json.Str EmptyString
                   else default (Json.Str EmptyString)
                          (stored_value s (Settings.encrypted_key key)) in
         if negb (Json.truthy ev) then dflt
         else if Py.truthy (Security.decrypt_data ev)
              then Security.decrypt_data ev else dflt), s).
Proof.
  unfold Settings.get_encrypted.
  rewrite (bind_ok _ _ _ _ _ (settings_get_reads _ _ s)).
  cbv zeta. by destruct (negb (Json.truthy _)).
Qed.


(** X28. [migrate_to_encrypted] on a plain setting holding a
    non-empty string, with the store up and a cipher and encoding that
    give the text back: the answer is [True], the plain row is gone
    (so [get] falls back to its default), [get_encrypted] reads the
    old plain text, and the rows of all other keys stay. *)
Theorem migration_moves_the_secret (key p dflt : string) (dflt' : Json.Value)
    (s : SettingsDb) :
  settings_down s = false ->
  stored_value s key = Some (Json.Str p) ->
  Py.truthy p = true ->
  Py.truthy (encrypt p) = true ->
  decrypt (encrypt p) = p ->
  loads (dumps (Json.Str (encrypt p))) = Some (Json.Str (encrypt p)) ->
  exists s',
    Settings.migrate_to_encrypted key s = (Ok true, s')
    /\ settings s' !! key = None
    /\ Settings.get key dflt' s' = (Ok dflt', s')
    /\ Settings.get_encrypted key dflt s' = (Ok p, s')
    /\ (forall k, k <> key -> k <> Settings.encrypted_key key ->
          settings s' !! k = settings s !! k).
Proof.
  intros Hdb Hplain Hp Henc Hdec Hlaw.
  pose proof (encrypted_key_ne key) as Hne.
  unfold Settings.migrate_to_encrypted, try_except.
  rewrite (bind_ok _ _ _ _ _ (settings_get_reads _ _ s)).
  rewrite Hdb, Hplain.
  change (default (Json.Str EmptyString) (Some (Json.Str p))) with (Json.Str p).
  cbn [Json.truthy]. rewrite Hp. cbn [negb].
  unfold Settings.set_encrypted. cbn [Json.truthy]. rewrite Hp. cbn [negb].
  unfold Security.encrypt_data. rewrite Hp. cbn [negb].
  erewrite (bind_ok _ _ s)
    by (rewrite settings_set_writes, Hdb; reflexivity).
  unfold Settings.get_db_connection. unfold_monad. cbn [settings_down settings].
  eexists. split; [reflexivity |]. split; [| split; [| split]].
  - simpl. by rewrite lookup_delete_eq.
  - rewrite settings_get_reads. cbn [settings_down].
    unfold stored_value. simpl. by rewrite lookup_delete_eq.
  - rewrite get_encrypted_reads. cbn [settings_down].
    unfold stored_value. cbn [settings].
    rewrite lookup_delete_ne by done. rewrite lookup_insert_eq, Hlaw.
    change (default (Json.Str EmptyString) (Some (Json.Str (encrypt p))))
      with (Json.Str (encrypt p)).
    cbv zeta. unfold Security.decrypt_data. cbn [Json.truthy].
    rewrite Henc. cbn [negb]. by rewrite Hdec, Hp.
  - intros k Hk Hk'. simpl.
    rewrite lookup_delete_ne by done. by rewrite lookup_insert_ne.
Qed.

End EncryptedSettings.

Lemma migration_moves_the_secret_witness :
  let s := mkSettingsDb false
             {[ "api_key" := (plain_dumps (Json.Str "s3cret"), Some "api_key") ]} in
  exists s',
    @Settings.migrate_to_encrypted plain_json marking "api_key" s = (Ok true, s')
    /\ settings s' !! "api_key" = None
    /\ @Settings.get_api_key plain_json marking s' = (Ok "s3cret", s').
Proof.
  intros s.
  destruct (@migration_moves_the_secret plain_json marking
              "api_key" "s3cret" "" Json.Null s)
    as (s' & Hrun & Hgone & _ & Hread & _).
  - reflexivity.
  - reflexivity.
  - reflexivity.
  - reflexivity.
  - reflexivity.
  - reflexivity.
  - exists s'. split; [exact Hrun |]. split; [exact Hgone | exact Hread].
Defined.

(** * The defaults written at start-up *)

Section StartupDefaults.
Context `{Codec}.

Lemma set_defaults_state (l : list (string * Json.Value * string)) :
  forall s : SettingsDb,
    settings_down s = false ->
    NoDup (map (fun e => fst (fst e)) l) ->
    exists s',
      Startup.set_defaults l s = (Ok tt, s')
      /\ settings_down s' = false
      /\ forall k,
           settings s' !! k
           = match List.find (fun e => String.eqb (fst (fst e)) k) l with
             | Some (_, v, d) =>
                 if Json.truthy (default Json.Null (stored_value s k))
                 then settings s !! k
                 else Some (dumps v, Some d)
             | None => settings s !! k
             end.
Proof.
  induction l as [|[[k0 v0] d0] l IH]; intros s Hdb Hnd.
  - by exists s.
  - cbn [map fst] in Hnd. apply NoDup_cons in Hnd as [Hk0 Hnd].
    cbn [Startup.set_defaults].
    rewrite (bind_ok _ _ _ _ _ (settings_get_reads _ _ s)). rewrite Hdb.
    assert (Hfind : List.find (fun e => String.eqb (fst (fst e)) k0) l = None).
    { destruct (List.find _ l) as [e|] eqn:E; [| done].
      apply find_some in E as [Hin Heq]. apply String.eqb_eq in Heq.
      exfalso. apply Hk0. rewrite <- Heq. apply list_elem_of_In.
      by apply (in_map (fun e => fst (fst e))). }
    destruct (Json.truthy (default Json.Null (stored_value s k0))) eqn:Et;
      cbn [negb].
    + erewrite (bind_ok _ _ s) by reflexivity.
      destruct (IH s Hdb Hnd) as (s' & Hrun & Hdb' & Hst).
      exists s'. split; [done |]. split; [done |].
      intros k. rewrite Hst. cbn [List.find fst].
      destruct (String.eqb_spec k0 k) as [<- | Hne]; [| done].
      by rewrite Hfind, Et.
    + erewrite (bind_ok _ _ s)
        by (rewrite settings_set_writes, Hdb; reflexivity).
      match goal with
      | |- context [Startup.set_defaults l ?x] => set (s1 := x)
      end.
      destruct (IH s1 eq_refl Hnd) as (s' & Hrun & Hdb' & Hst).
      exists s'. split; [done |]. split; [done |].
      intros k. rewrite Hst. cbn [List.find fst].
      destruct (String.eqb_spec k0 k) as [<- | Hne].
      * rewrite Hfind, Et. unfold s1. simpl. by rewrite lookup_insert_eq.
      * assert (Hsame : stored_value s1 k = stored_value s k).
        { unfold s1. rewrite stored_value_insert.
          by rewrite bool_decide_eq_false_2. }
        rewrite Hsame. unfold s1. simpl. by rewrite lookup_insert_ne.
Qed.

Lemma find_default (l : list (string * Json.Value * string))
    (k : string) (v : Json.Value) (d : string) :
  NoDup (map (fun e => fst (fst e)) l) ->
  In (k, v, d) l ->
  List.find (fun e => String.eqb (fst (fst e)) k) l = Some (k, v, d).
Proof.
  induction l as [|[[k0 v0] d0] l IH]; intros Hnd Hin; [done |].
  cbn [map fst] in Hnd. apply NoDup_cons in Hnd as [Hk0 Hnd].
  cbn [List.find fst]. destruct Hin as [E | Hin].
  - injection E as -> -> ->. by rewrite String.eqb_refl.
  - destruct (String.eqb_spec k0 k) as [-> | Hne]; [| by apply IH].
    exfalso. apply Hk0. apply list_elem_of_In.
    by apply (in_map (fun e => fst (fst e)) _ (k, v, d)).
Qed.

(** X29. The default loop of [initialize_database], with the store
    up and defaults that survive their JSON encoding: a default key
    whose stored value is truthy keeps it; one that is missing or
    whose stored value is falsy ([False], [0], [""]) reads as its
    default afterwards, so a setting switched off does not outlast a
    restart; keys outside the list are not touched. *)
Theorem startup_resets_falsy_settings (s : SettingsDb) :
  settings_down s = false ->
  (forall k v d, In (k, v, d) Startup.default_settings ->
     loads (dumps v) = Some v) ->
  exists s',
    Startup.set_defaults Startup.default_settings s = (Ok tt, s')
    /\ (forall k v d, In (k, v, d) Startup.default_settings ->
          stored_value s' k
          = Some (match stored_value s k with
                  | Some cur => if Json.truthy cur then cur else v
                  | None => v
                  end)
          /\ Json.truthy (default Json.Null (stored_value s' k)) = true)
    /\ (forall k, (forall v d, ~ In (k, v, d) Startup.default_settings) ->
          settings s' !! k = settings s !! k).
Proof.
  intros Hdb Hlaw.
  assert (Hnd : NoDup (map (fun e => fst (fst e)) Startup.default_settings)).
  { apply (bool_decide_unpack _). by vm_compute. }
  destruct (set_defaults_state Startup.default_settings s Hdb Hnd)
    as (s' & Hrun & _ & Hst).
  exists s'. split; [exact Hrun |]. split.
  - intros k v d Hin.
    assert (Hval : stored_value s' k
                   = Some (match stored_value s k with
                           | Some cur => if Json.truthy cur then cur else v
                           | None => v
                           end)).
    { unfold stored_value at 1. rewrite Hst, (find_default _ k v d) by done.
      unfold stored_value.
      destruct (settings s !! k) as [[text d0]|] eqn:Ek; simpl.
      - destruct (Json.truthy _) eqn:Et; [done |].
        by rewrite (Hlaw k v d).
      - by rewrite (Hlaw k v d). }
    split; [exact Hval |]. rewrite Hval. simpl.
    assert (Hv : Json.truthy v = true).
    { simpl in Hin.
      repeat (destruct Hin as [E | Hin];
              [by injection E as <- <- <- |]). done. }
    destruct (stored_value s k) as [cur|]; [| done].
    by destruct (Json.truthy cur) eqn:Et.
  - intros k Hk. rewrite Hst.
    destruct (List.find _ _) as [[[k1 v1] d1]|] eqn:E; [| done].
    apply find_some in E as [Hin Heq]. apply String.eqb_eq in Heq.
    simpl in Heq. subst k1. by destruct (Hk v1 d1).
Qed.

End StartupDefaults.

Lemma startup_resets_falsy_settings_witness :
  let s := mkSettingsDb false
             {[ "auto_cleanup" := (plain_dumps (Json.Bool false),
                                   Some "Automatic cleanup of expired files") ]} in
  exists s',
    @Startup.set_defaults plain_json Startup.default_settings s = (Ok tt, s')
    /\ @stored_value plain_json s' "auto_cleanup" = Some (Json.Bool true).
Proof.
  intros s.
  destruct (@startup_resets_falsy_settings plain_json s)
    as (s' & Hrun & Hval & _).
  - reflexivity.
  - intros k v d Hin. simpl in Hin.
    repeat (destruct Hin as [E | Hin];
            [injection E as <- <- <-; reflexivity |]).
    destruct Hin.
  - exists s'. split; [exact Hrun |].
    apply (Hval "auto_cleanup" (Json.Bool true)
             "Automatic cleanup of expired files").
    simpl. auto 10.
Defined.

(** * The password rules *)

Lemma lower_length (s : string) :
  String.length (Security.lower s) = String.length s.
Proof. induction s as [|c s IH]; simpl; congruence. Qed.

(** X30. [is_password_secure] on an ASCII password: the verdict is
    positive exactly when the password has twelve characters or more
    and an uppercase letter, a lowercase letter, a digit and a special
    character; the list of common passwords never changes the verdict,
    since a password it catches is already reported as too short. *)
Theorem weak_password_list_adds_nothing (password : string) :
  Security.ascii_only password = true ->
  let (ok, issues) := Security.is_password_secure password in
  (In Security.TooCommon issues -> In Security.TooShort issues)
  /\ (ok = true <->
      (12 <= String.length password)%nat
      /\ Security.any Security.isupper password = true
      /\ Security.any Security.islower password = true
      /\ Security.any Security.isdigit password = true
      /\ Security.any Security.is_special password = true).
Proof.
  intros _. unfold Security.is_password_secure.
  assert (Hweak : Py.contains (Security.lower password)
                    Security.weak_passwords = true ->
                  (String.length password <? 12)%nat = true).
  { intros Hc. apply contains_In in Hc. apply Nat.ltb_lt.
    rewrite <- lower_length. simpl in Hc.
    repeat (destruct Hc as [<- | Hc]; [simpl; lia |]). done. }
  assert (Hlen : (String.length password <? 12)%nat = false <->
                 (12 <= String.length password)%nat)
    by apply Nat.ltb_ge.
  destruct (String.length password <? 12)%nat,
    (Security.any Security.isupper password),
    (Security.any Security.islower password),
    (Security.any Security.isdigit password),
    (Security.any Security.is_special password),
    (Py.contains (Security.lower password) Security.weak_passwords);
    try discriminate (Hweak eq_refl); simpl;
    (split; [intuition discriminate |]);
    (split;
     [ intros E; try discriminate E; repeat split; try done; by apply Hlen
     | intros (Hl & ? & ? & ? & ?); try done; by apply Hlen in Hl ]).
Qed.

Lemma weak_password_list_adds_nothing_witness :
  fst (Security.is_password_secure "Password123") = false
  /\ In Security.TooShort (snd (Security.is_password_secure "Password123")).
Proof.
  pose proof (weak_password_list_adds_nothing "Password123" eq_refl) as Hw.
  split; [reflexivity |]. apply Hw. vm_compute. auto 10.
Defined.

(** * The download marks on the row *)

(** C8, as the code has it. The methods work on a share object and
    write the object's fields over its row. For an object whose
    [download_count] is the one of its row (the object as [get]
    returned it, no other write to the row since) and whose list of
    downloaded files has no duplicate: marking the same file twice
    lists it once, the second call changes nothing, and neither the
    object's nor the stored [download_count] moves. When the store is
    up and the row's list was the object's, the first call succeeds
    and the row lists the file once afterwards, with the count it had.
    [mark_downloaded] adds one to the count and, when the store is up,
    records the count and the completion time. *)
Theorem mark_file_downloaded_idempotent (filename : string) (now : Z)
    (s : FileShare.t) (w : World) :
  NoDup (FileShare.downloaded_files s) ->
  (forall r, In r (file_shares w) -> Db.token r = FileShare.token s ->
             Db.download_count r = FileShare.download_count s) ->
  exists res s1 w1,
    FileShare.mark_file_downloaded filename (s, w) = (res, (s1, w1))
    /\ FileShare.mark_file_downloaded filename (s1, w1) = (Ok tt, (s1, w1))
    /\ count_occ string_dec (FileShare.downloaded_files s1) filename = 1%nat
    /\ FileShare.download_count s1 = FileShare.download_count s
    /\ map Db.download_count (file_shares w1)
       = map Db.download_count (file_shares w)
    /\ (db_down w = false ->
        forall r,
          Db.select_by_token (FileShare.token s) (file_shares w) = Some r ->
          Db.downloaded_files r = FileShare.downloaded_files s ->
          is_Some (FileShare.expires_at s) ->
          res = Ok tt
          /\ exists r1,
               Db.select_by_token (FileShare.token s) (file_shares w1) = Some r1
               /\ Db.downloaded_files r1 = FileShare.downloaded_files s1
               /\ count_occ string_dec (Db.downloaded_files r1) filename = 1%nat
               /\ Db.download_count r1 = Db.download_count r)
    /\ exists s2 w2,
         FileShare.mark_downloaded now (s1, w1) = (Ok tt, (s2, w2))
         /\ FileShare.download_count s2 = FileShare.download_count s1 + 1
         /\ (db_down w1 = false ->
             forall r, In r (file_shares w2) ->
                       Db.token r = FileShare.token s1 ->
                       Db.download_count r = FileShare.download_count s1 + 1
                       /\ Db.last_download_completed r = Some now).
Proof.
  intros Hnd Hsync.
  assert (Hmd : forall s1 w1, exists s2 w2,
    FileShare.mark_downloaded now (s1, w1) = (Ok tt, (s2, w2))
    /\ FileShare.download_count s2 = FileShare.download_count s1 + 1
    /\ (db_down w1 = false ->
        forall r, In r (file_shares w2) ->
                  Db.token r = FileShare.token s1 ->
                  Db.download_count r = FileShare.download_count s1 + 1
                  /\ Db.last_download_completed r = Some now)).
  { intros s1 w1. unfold FileShare.mark_downloaded. unfold_monad. simpl.
    destruct (db_down w1) eqn:Hd.
    - eexists _, _. split; [done |]. split; [done |]. done.
    - eexists _, _. split; [done |]. split; [done |]. intros _ r Hin Htok.
      simpl in Hin. unfold Db.update_where_token in Hin.
      apply in_map_iff in Hin as (r0 & Hr0 & _).
      unfold Db.has_token in Hr0.
      destruct (String.eqb_spec (Db.token r0) (FileShare.token s1)) as [E|E].
      + subst r. done.
      + subst r. done. }
  unfold FileShare.mark_file_downloaded. unfold_monad. simpl.
  destruct (Py.contains filename (FileShare.downloaded_files s)) eqn:Hc; simpl.
  - assert (Hone : count_occ string_dec (FileShare.downloaded_files s) filename
                   = 1%nat).
    { apply contains_In in Hc.
      apply NoDup_count_occ' with (decA := string_dec) in Hc; [done |].
      by apply NoDup_ListNoDup. }
    exists (Ok tt), s, w. rewrite Hc. simpl.
    split; [done |]. split; [done |]. split; [done |]. split; [done |].
    split; [done |]. split; [| apply (Hmd s w)].
    intros _ r Hsel Hdl _. split; [done |]. exists r.
    split; [done |]. split; [done |]. split; [by rewrite Hdl | done].
  - set (s' := FileShare.set_downloaded_files
                 (FileShare.downloaded_files s ++ [filename]) s).
    assert (Hc' : Py.contains filename (FileShare.downloaded_files s') = true).
    { apply contains_In. simpl. apply in_or_app. right. simpl. auto. }
    assert (Hone : count_occ string_dec (FileShare.downloaded_files s') filename
                   = 1%nat).
    { simpl. rewrite count_occ_app, (contains_false_count _ _ Hc). simpl.
      by destruct (string_dec filename filename). }
    unfold FileShare.save. unfold_monad. simpl.
    destruct (db_down w) eqn:Hdb.
    { eexists _, s', w. rewrite Hc'. simpl.
      split; [done |]. split; [done |]. split; [done |]. split; [done |].
      split; [done |]. split; [done | apply (Hmd s' w)]. }
    destruct (Db.select_by_token (FileShare.token s) (file_shares w))
      as [r0|] eqn:Hsel.
    2: { eexists _, s', w. rewrite Hc'. simpl.
         split; [done |]. split; [done |]. split; [done |]. split; [done |].
         split; [done |]. split; [done | apply (Hmd s' w)]. }
    destruct (FileShare.expires_at s) as [e|] eqn:He.
    2: { eexists _, s', w. rewrite Hc'. simpl.
         split; [done |]. split; [done |]. split; [done |]. split; [done |].
         split; [done |]. split; [| apply (Hmd s' w)].
         intros _ r _ _ [x Hx]. discriminate. }
    unfold modify.
    eexists _, s', _. rewrite Hc'. simpl.
    split; [reflexivity |]. split; [done |]. split; [done |]. split; [done |].
    split; [by apply (update_keeps_counts _ (FileShare.download_count s)) |].
    split; [| apply (Hmd s' _)].
    intros _ r Hr Hdl _. injection Hr as <-. split; [done |].
    assert (Htok : Db.has_token (FileShare.token s) r0 = true).
    { unfold Db.has_token. rewrite (select_by_token_token _ _ _ Hsel).
      apply String.eqb_refl. }
    eexists. split.
    { cbn [file_shares set_file_shares]. rewrite select_update by done.
      rewrite Hsel. simpl. by rewrite Htok. }
    simpl. split; [done |]. split.
    + rewrite count_occ_app, (contains_false_count _ _ Hc). simpl.
      by destruct (string_dec filename filename).
    + symmetry. apply Hsync.
      * unfold Db.select_by_token in Hsel. by apply find_some in Hsel as [? _].
      * by apply (select_by_token_token _ _ _ Hsel).
Qed.

Lemma mark_file_downloaded_idempotent_witness :
  exists res s1 w1,
    FileShare.mark_file_downloaded "x.bin" (Sample.share_P, Sample.pinned_world)
      = (res, (s1, w1))
    /\ FileShare.mark_file_downloaded "x.bin" (s1, w1) = (Ok tt, (s1, w1))
    /\ count_occ string_dec (FileShare.downloaded_files s1) "x.bin" = 1%nat
    /\ exists r1,
         Db.select_by_token "tokP" (file_shares w1) = Some r1
         /\ count_occ string_dec (Db.downloaded_files r1) "x.bin" = 1%nat
         /\ Db.download_count r1 = 0.
Proof.
  destruct (mark_file_downloaded_idempotent "x.bin" 0 Sample.share_P
              Sample.pinned_world)
    as (res & s1 & w1 & H1 & H2 & H3 & _ & _ & Hrow & _).
  - constructor.
  - simpl. intros r [<- | []] _. reflexivity.
  - destruct (Hrow eq_refl (Sample.row "tokP" "" ["x.bin"] 0 Sample.hour))
      as (_ & r1 & Hsel & _ & Hone & Hcount).
    + reflexivity.
    + reflexivity.
    + by eexists.
    + exists res, s1, w1. split; [exact H1 |]. split; [exact H2 |].
      split; [exact H3 |]. exists r1. auto.
Defined.

(** C8, the claim on an object that is behind its row. Two downloads
    of ["x.bin"] overlap: both requests fetch the share while the row
    counts no download; the second request marks the file and the
    download, the row counts 1; then the first request marks the file:
    [save] writes its object's count over the row, which counts 0
    again and is no longer flagged as downloaded. *)
Lemma stale_object_resets_stored_count :
  let w0 := Sample.pinned_world in
  let first := FileShare.get "tokP" w0 in
  let second := FileShare.get "tokP" w0 in
  let w1 := snd (snd (FileShare.mark_file_downloaded "x.bin" (Sample.share_P, w0))) in
  let s1 := fst (snd (FileShare.mark_file_downloaded "x.bin" (Sample.share_P, w0))) in
  let w2 := snd (snd (FileShare.mark_downloaded 5 (s1, w1))) in
  let run := FileShare.mark_file_downloaded "x.bin" (Sample.share_P, w2) in
  first = (Ok (Some Sample.share_P), w0)
  /\ second = (Ok (Some Sample.share_P), w0)
  /\ map Db.download_count (file_shares w2) = [1]
  /\ map Db.downloaded (file_shares w2) = [true]
  /\ fst run = Ok tt
  /\ map Db.download_count (file_shares (snd (snd run))) = [0]
  /\ map Db.downloaded (file_shares (snd (snd run))) = [false].
Proof. vm_compute. repeat split; reflexivity. Qed.
